(** * PDRF scraper: layer discovery and packaging

    A shallow embedding of [src/hdx/scraper/pdrf/pipeline.py]
    ([Pipeline.get_layers], [Pipeline.get_date_range] and
    [Pipeline.generate_dataset]) together with the properties stated about
    it.

    Python values decoded from JSON are an inductive type, raised
    exceptions are the [Error] branch of [outcome], and the observable
    effects of a call (HTTP requests, printed diagnostics, files written,
    resources attached) are recorded in an event trace that survives a
    raised exception. *)

From Stdlib Require Import String Ascii List ZArith Bool Lia ZifyNat PeanoNat.
From Stdlib Require Import DecimalString.
From Stdlib Require Import Floats.PrimFloat.
Import ListNotations.
Local Open Scope list_scope.
Local Open Scope string_scope.

Set Implicit Arguments.
Set Warnings "-register-all".

(* ===================================================================== *)
(** ** Python values *)
(* ===================================================================== *)

(** What [Response.json()] can return.  A dict keeps its items in insertion
    order with unique keys; [dict_lookup] takes the first binding. *)
Inductive json : Type :=
| JNull
| JBool (b : bool)
| JInt (n : Z)
| JFloat (f : float)
| JStr (s : string)
| JArr (items : list json)
| JObj (items : list (string * json)).

(** Instances of Python's [Exception] that the code can meet.  The
    interpreter-level [BaseException]s (keyboard interrupt, system exit)
    are outside the model, so [except Exception] catches every [exn]. *)
Inductive exn : Type :=
| KeyError (key : json)
| IndexError
| TypeError
| AttributeError
| ParserError (msg : string)
| HDXError (msg : string)
| ValueError (msg : string)
| RequestException (msg : string)
| OtherException (cls msg : string).

Inductive outcome (A : Type) : Type :=
| Ok (a : A)
| Error (e : exn).
Arguments Ok {A} a.
Arguments Error {A} e.

Fixpoint dict_lookup (k : string) (items : list (string * json)) : option json :=
  match items with
  | [] => None
  | (k', v) :: rest => if String.eqb k k' then Some v else dict_lookup k rest
  end.

(** [obj[key]] with a string key. *)
Definition getitem_str (obj : json) (key : string) : outcome json :=
  match obj with
  | JObj items =>
      match dict_lookup key items with
      | Some v => Ok v
      | None => Error (KeyError (JStr key))
      end
  | _ => Error TypeError
  end.

(** The characters of a string, each as a one-character string. *)
Fixpoint chars (s : string) : list json :=
  match s with
  | EmptyString => []
  | String c rest => JStr (String c EmptyString) :: chars rest
  end.

(** [obj[i]] with a non-negative integer index. *)
Definition getitem_int (obj : json) (i : nat) : outcome json :=
  match obj with
  | JArr items =>
      match nth_error items i with Some v => Ok v | None => Error IndexError end
  | JStr s =>
      match nth_error (chars s) i with Some v => Ok v | None => Error IndexError end
  | JObj _ => Error (KeyError (JInt (Z.of_nat i)))
  | _ => Error TypeError
  end.

(** [obj.get(key, default)]: only dicts have the method. *)
Definition dict_get (obj : json) (key : string) (default : json) : outcome json :=
  match obj with
  | JObj items =>
      match dict_lookup key items with
      | Some v => Ok v
      | None => Ok default
      end
  | _ => Error AttributeError
  end.

(** The elements a [for] loop visits. *)
Definition py_iter (v : json) : outcome (list json) :=
  match v with
  | JArr items => Ok items
  | JObj items => Ok (map (fun kv => JStr (fst kv)) items)
  | JStr s => Ok (chars s)
  | _ => Error TypeError
  end.

(** Truth value used by [if not layers]. *)
Definition truthy (v : json) : bool :=
  match v with
  | JNull => false
  | JBool b => b
  | JInt n => negb (Z.eqb n 0)
  | JFloat f => negb (PrimFloat.eqb f PrimFloat.zero)
  | JStr s => negb (String.eqb s "")
  | JArr items => match items with [] => false | _ => true end
  | JObj items => match items with [] => false | _ => true end
  end.

Definition str_of_Z (n : Z) : string := NilZero.string_of_int (Z.to_int n).

(** Timezone-aware UTC timestamp ([datetime] with [tzinfo=timezone.utc]). *)
Record datetime : Type := mk_datetime {
  dt_year : nat; dt_month : nat; dt_day : nat;
  dt_hour : nat; dt_minute : nat; dt_second : nat
}.

(** The dict returned by [get_date_range]. *)
Record extent : Type := mk_extent {
  ext_min_date : option datetime;
  ext_max_date : option datetime
}.

(** The dict appended to [results] by [get_layers]. *)
Record descriptor : Type := mk_descriptor {
  layer_id : json;
  layer_name : json;
  min_date : option datetime;
  max_date : option datetime;
  service_url : string
}.

(** The configuration values the pipeline reads. *)
Record configuration : Type := mk_configuration {
  base_url : string;
  folder : string;
  tags : list string
}.

(* ===================================================================== *)
(** ** Tables read by geopandas *)
(* ===================================================================== *)

Inductive cell : Type :=
| CNull                       (* None / NaN / NaT *)
| CInt (n : Z)
| CFloat (f : float)
| CText (s : string)
| CPoint (x y : float)        (* a Point geometry *)
| CShape (wkt : string).      (* any other geometry *)

(** A (Geo)DataFrame: column labels and the rows under them. *)
Record frame : Type := mk_frame {
  columns : list string;
  rows : list (list cell)
}.

Definition record : Type := list (string * cell).

(** What [Resource({...})] and a plain resource dict carry. *)
Record resource : Type := mk_resource {
  res_fields : list (string * json);
  res_file : option string
}.

(* ===================================================================== *)
(** ** Effects *)
(* ===================================================================== *)

Inductive event : Type :=
| EvGet (url : string)
    (* requests.get(url) *)
| EvPrint (layer_url : string) (e : exn)
    (* print(f"Stats failed for {layer_url}: {e}") *)
| EvReadFile (src : string)
    (* geopandas.read_file(src) *)
| EvLogError (msg : string)
    (* logger.error(msg) *)
| EvMakedirs (path : string)
    (* os.makedirs(path, exist_ok=True) *)
| EvToFile (path driver : string) (gdf : frame)
    (* gdf.to_file(path, driver=driver) *)
| EvGenerateResource (headers : list string) (iterable : list record)
    (dir filename : string) (resourcedata : list (string * json))
    (* dataset.generate_resource_from_iterable(...) *)
| EvAddUpdateResource (r : resource).
    (* dataset.add_update_resource(r) *)

(** A computation: the events it performed, in order, and how it ended.
    The events performed before a raise are kept. *)
Definition M (A : Type) : Type := (list event * outcome A)%type.

Definition ret {A} (a : A) : M A := ([], Ok a).

Definition raise {A} (e : exn) : M A := ([], Error e).

Definition bind {A B} (m : M A) (k : A -> M B) : M B :=
  match m with
  | (t1, Ok a) => let (t2, o) := k a in ((t1 ++ t2)%list, o)
  | (t1, Error e) => (t1, Error e)
  end.

Definition lift {A} (o : outcome A) : M A := ([], o).

Definition emit (ev : event) : M unit := ([ev], Ok tt).

(** [try: m  except Exception as e: handler e]. *)
Definition try_except {A} (m : M A) (handler : exn -> M A) : M A :=
  match m with
  | (t1, Ok a) => (t1, Ok a)
  | (t1, Error e) => let (t2, o) := handler e in ((t1 ++ t2)%list, o)
  end.

Definition trace_of {A} (m : M A) : list event := fst m.
Definition result_of {A} (m : M A) : outcome A := snd m.

Declare Scope py_scope.
Delimit Scope py_scope with py.
Notation "x <- m ;; k" := (bind m (fun x => k))
  (at level 61, m at next level, right associativity) : py_scope.
Notation "m ;;; k" := (bind m (fun _ => k))
  (at level 61, right associativity) : py_scope.
Local Open Scope py_scope.

(* ===================================================================== *)
(** ** urllib.parse.urlencode *)
(* ===================================================================== *)

Definition hex_digit (n : nat) : ascii :=
  match n with
  | 0 => "0" | 1 => "1" | 2 => "2" | 3 => "3" | 4 => "4" | 5 => "5"
  | 6 => "6" | 7 => "7" | 8 => "8" | 9 => "9" | 10 => "A" | 11 => "B"
  | 12 => "C" | 13 => "D" | 14 => "E" | _ => "F"
  end%char.

Definition in_range (lo hi : nat) (c : ascii) : bool :=
  let n := nat_of_ascii c in Nat.leb lo n && Nat.leb n hi.

(** Characters [quote_plus] leaves alone: letters, digits and [_.-~]. *)
Definition unreserved (c : ascii) : bool :=
  in_range 48 57 c || in_range 65 90 c || in_range 97 122 c
  || Ascii.eqb c "_" || Ascii.eqb c "." || Ascii.eqb c "-" || Ascii.eqb c "~".

Fixpoint quote_plus (s : string) : string :=
  match s with
  | EmptyString => EmptyString
  | String c rest =>
      if unreserved c then String c (quote_plus rest)
      else if Ascii.eqb c " " then String "+" (quote_plus rest)
      else
        let n := nat_of_ascii c in
        String "%" (String (hex_digit (n / 16)) (String (hex_digit (n mod 16))
          (quote_plus rest)))
  end.

(** [urlencode] of a dict whose values have already been turned into text
    by [str()]. *)
Fixpoint urlencode (query : list (string * string)) : string :=
  match query with
  | [] => ""
  | [(k, v)] => quote_plus k ++ "=" ++ quote_plus v
  | (k, v) :: rest => quote_plus k ++ "=" ++ quote_plus v ++ "&" ++ urlencode rest
  end.

(* ===================================================================== *)
(** ** Pipeline.get_date_range and Pipeline.get_layers *)
(* ===================================================================== *)

(** [str(stats)]: the text [urlencode] sees for the [outStatistics] list. *)
Definition stats_repr : string :=
  "[{'statisticType': 'min', 'onStatisticField': 'Date_of_Assistance_Deployment', 'outStatisticFieldName': 'min_date'}, {'statisticType': 'max', 'onStatisticField': 'Date_of_Assistance_Deployment', 'outStatisticFieldName': 'max_date'}]".

Definition stats_query : list (string * string) :=
  [ ("f", "json");
    ("outFields", "*");
    ("outStatistics", stats_repr);
    ("returnGeometry", "false");
    ("where", "1=1") ].

Definition date_fmt : string := "%m/%d/%Y %I:%M:%S %p".

Definition null_extent : extent := mk_extent None None.

Section Walker.

(** [repr()] of the values whose text form is not spelled out below
    (floats, lists, dicts). *)
Variable py_repr : json -> string.

(** [hdx.utilities.dateparse.parse_date(raw, date_format)]. *)
Variable parse_date : json -> string -> outcome (option datetime).

(** The remote server: what [requests.get(url).json()] gives for a URL,
    a decoded body or a raised exception. *)
Variable http : string -> outcome json.

Variable config : configuration.

(** How an f-string renders a value. *)
Definition py_str (v : json) : string :=
  match v with
  | JStr s => s
  | JInt n => str_of_Z n
  | JNull => "None"
  | JBool true => "True"
  | JBool false => "False"
  | _ => py_repr v
  end.

Definition requests_get_json (url : string) : M json :=
  emit (EvGet url) ;;; lift (http url).

Definition stats_url (layer_url : string) : string :=
  layer_url ++ "/query?" ++ urlencode stats_query.

Definition get_date_range (layer_url : string) : M extent :=
  stats_response <- requests_get_json (stats_url layer_url) ;;
  features <- lift (getitem_str stats_response "features") ;;
  row <- lift (getitem_int features 0) ;;
  attrs <- lift (getitem_str row "attributes") ;;
  raw_min <- lift (dict_get attrs "min_date" JNull) ;;
  min_d <- lift (parse_date raw_min date_fmt) ;;
  raw_max <- lift (dict_get attrs "max_date" JNull) ;;
  max_d <- lift (parse_date raw_max date_fmt) ;;
  ret (mk_extent min_d max_d).

Definition layer_url_of (service_url : string) (layer_id : json) : string :=
  service_url ++ "/" ++ py_str layer_id.

(** Body of [for layer in layers]. *)
Definition layer_step (service_url : string) (results : list descriptor)
    (layer : json) : M (list descriptor) :=
  layer_id <- lift (getitem_str layer "id") ;;
  layer_name <- lift (getitem_str layer "name") ;;
  let layer_url := layer_url_of service_url layer_id in
  stats <- try_except (get_date_range layer_url)
             (fun e => emit (EvPrint layer_url e) ;;; ret null_extent) ;;
  ret (results ++
       [ mk_descriptor layer_id layer_name
           (ext_min_date stats) (ext_max_date stats) service_url ])%list.

Fixpoint layer_loop (service_url : string) (layers : list json)
    (results : list descriptor) : M (list descriptor) :=
  match layers with
  | [] => ret results
  | layer :: rest =>
      results' <- layer_step service_url results layer ;;
      layer_loop service_url rest results'
  end.

Definition service_url_of (service : json) : outcome string :=
  match getitem_str service "name" with
  | Error e => Error e
  | Ok service_name =>
      match getitem_str service "type" with
      | Error e => Error e
      | Ok service_type =>
          Ok (base_url config ++ "/" ++ py_str service_name ++ "/"
                ++ py_str service_type)
      end
  end.

(** Body of [for service in services]. *)
Definition service_step (results : list descriptor) (service : json)
    : M (list descriptor) :=
  service_url <- lift (service_url_of service) ;;
  layers_response <- requests_get_json (service_url ++ "?f=json") ;;
  layers <- lift (dict_get layers_response "layers" (JArr [])) ;;
  if negb (truthy layers) then ret results
  else
    layer_list <- lift (py_iter layers) ;;
    layer_loop service_url layer_list results.

Fixpoint service_loop (services : list json) (results : list descriptor)
    : M (list descriptor) :=
  match services with
  | [] => ret results
  | service :: rest =>
      results' <- service_step results service ;;
      service_loop rest results'
  end.

Definition root_url : string :=
  base_url config ++ "/" ++ folder config ++ "?f=json".

Definition get_layers : M (list descriptor) :=
  response <- requests_get_json root_url ;;
  services <- lift (dict_get response "services" (JArr [])) ;;
  service_list <- lift (py_iter services) ;;
  service_loop service_list [].

(** *** The walk as a function of the server's answers

    The same computation with the event trace left out; the lemmas below
    show that [get_layers] returns exactly this. *)

(** [stats_response["features"][0]["attributes"]] for a layer. *)
Definition attributes_of (layer_url : string) : outcome json :=
  match http (stats_url layer_url) with
  | Error e => Error e
  | Ok stats_response =>
      match getitem_str stats_response "features" with
      | Error e => Error e
      | Ok features =>
          match getitem_int features 0 with
          | Error e => Error e
          | Ok row => getitem_str row "attributes"
          end
      end
  end.

(** The two raw bounds of the statistics row of a layer. *)
Definition raw_bounds (layer_url : string) : outcome (json * json) :=
  match attributes_of layer_url with
  | Error e => Error e
  | Ok attrs =>
      match dict_get attrs "min_date" JNull with
      | Error e => Error e
      | Ok raw_min =>
          match dict_get attrs "max_date" JNull with
          | Error e => Error e
          | Ok raw_max => Ok (raw_min, raw_max)
          end
      end
  end.

(** The extent a descriptor receives: the resolver's answer, or the null
    pair when the resolver raised. *)
Definition extent_of (layer_url : string) : extent :=
  match result_of (get_date_range layer_url) with
  | Ok stats => stats
  | Error _ => null_extent
  end.

Definition describe (service_url : string) (layer : json) : outcome descriptor :=
  match getitem_str layer "id" with
  | Error e => Error e
  | Ok layer_id =>
      match getitem_str layer "name" with
      | Error e => Error e
      | Ok layer_name =>
          let stats := extent_of (layer_url_of service_url layer_id) in
          Ok (mk_descriptor layer_id layer_name
                (ext_min_date stats) (ext_max_date stats) service_url)
      end
  end.

(** Stops at the first element that raises. *)
Fixpoint map_outcome {A B} (f : A -> outcome B) (l : list A) : outcome (list B) :=
  match l with
  | [] => Ok []
  | a :: rest =>
      match f a with
      | Error e => Error e
      | Ok b =>
          match map_outcome f rest with
          | Error e => Error e
          | Ok bs => Ok (b :: bs)
          end
      end
  end.

(** The layers the inner loop visits for a listing response. *)
Definition listed_layers (layers_response : json) : outcome (list json) :=
  match dict_get layers_response "layers" (JArr []) with
  | Error e => Error e
  | Ok layers => if negb (truthy layers) then Ok [] else py_iter layers
  end.

Definition service_descriptors (service : json) : outcome (list descriptor) :=
  match service_url_of service with
  | Error e => Error e
  | Ok service_url =>
      match http (service_url ++ "?f=json") with
      | Error e => Error e
      | Ok layers_response =>
          match listed_layers layers_response with
          | Error e => Error e
          | Ok layer_list => map_outcome (describe service_url) layer_list
          end
      end
  end.

(** The services the outer loop visits. *)
Definition listed_services : outcome (list json) :=
  match http root_url with
  | Error e => Error e
  | Ok response =>
      match dict_get response "services" (JArr []) with
      | Error e => Error e
      | Ok services => py_iter services
      end
  end.

End Walker.

(** What a descriptor says apart from its dates. *)
Definition skeleton (d : descriptor) : json * json * string :=
  (layer_id d, layer_name d, service_url d).

(** A usable statistics row: [features] is a list whose first element is a
    dict with a dict under [attributes]. *)
Definition has_usable_row (stats_response : json) : bool :=
  match stats_response with
  | JObj items =>
      match dict_lookup "features" items with
      | Some (JArr (JObj row :: _)) =>
          match dict_lookup "attributes" row with
          | Some (JObj _) => true
          | _ => false
          end
      | _ => false
      end
  | _ => false
  end.

(* ===================================================================== *)
(** ** The date parser *)
(* ===================================================================== *)

Definition digit_char (n : nat) : ascii := ascii_of_nat (48 + n).

Definition digit_of (c : ascii) : option nat :=
  let n := nat_of_ascii c in
  if Nat.leb 48 n && Nat.leb n 57 then Some (n - 48) else None.

(** Reads exactly [n] decimal digits. *)
Fixpoint take_digits (n : nat) (acc : nat) (s : string) : option (nat * string) :=
  match n with
  | 0 => Some (acc, s)
  | S n' =>
      match s with
      | EmptyString => None
      | String c rest =>
          match digit_of c with
          | Some d => take_digits n' (10 * acc + d) rest
          | None => None
          end
      end
  end.

Definition pad2 (v : nat) : string :=
  String (digit_char (v / 10)) (String (digit_char (v mod 10)) EmptyString).

Definition pad4 (v : nat) : string :=
  String (digit_char (v / 1000)) (String (digit_char ((v / 100) mod 10))
    (pad2 (v mod 100))).

(** The fields a format can set, with the defaults of an absent field. *)
Record fields : Type := mk_fields {
  f_year : nat; f_month : nat; f_day : nat;
  f_hour12 : nat; f_minute : nat; f_second : nat; f_pm : bool
}.

Definition default_fields : fields := mk_fields 1900 1 1 12 0 0 false.

Definition set_field (d : ascii) (v : nat) (f : fields) : fields :=
  if Ascii.eqb d "m" then mk_fields (f_year f) v (f_day f) (f_hour12 f) (f_minute f) (f_second f) (f_pm f)
  else if Ascii.eqb d "d" then mk_fields (f_year f) (f_month f) v (f_hour12 f) (f_minute f) (f_second f) (f_pm f)
  else if Ascii.eqb d "Y" then mk_fields v (f_month f) (f_day f) (f_hour12 f) (f_minute f) (f_second f) (f_pm f)
  else if Ascii.eqb d "I" then mk_fields (f_year f) (f_month f) (f_day f) v (f_minute f) (f_second f) (f_pm f)
  else if Ascii.eqb d "M" then mk_fields (f_year f) (f_month f) (f_day f) (f_hour12 f) v (f_second f) (f_pm f)
  else mk_fields (f_year f) (f_month f) (f_day f) (f_hour12 f) (f_minute f) v (f_pm f).

Definition set_pm (b : bool) (f : fields) : fields :=
  mk_fields (f_year f) (f_month f) (f_day f) (f_hour12 f) (f_minute f) (f_second f) b.

(** The blanks of [\s] among the ASCII characters: tab to carriage return,
    the four separators 28 to 31, and the space. *)
Definition is_space (c : ascii) : bool := in_range 9 13 c || in_range 28 32 c.

Fixpoint skip_spaces (s : string) : string :=
  match s with
  | EmptyString => EmptyString
  | String c rest => if is_space c then skip_spaces rest else s
  end.

(** Reads one or two decimal digits, two when two are there. *)
Definition read_short (s : string) : option (nat * string) :=
  match s with
  | EmptyString => None
  | String c1 rest1 =>
      match digit_of c1 with
      | None => None
      | Some d1 =>
          match rest1 with
          | EmptyString => Some (d1, rest1)
          | String c2 rest2 =>
              match digit_of c2 with
              | Some d2 => Some (10 * d1 + d2, rest2)
              | None => Some (d1, rest1)
              end
          end
      end
  end.

(** The day of the month may also be written as a space and one digit. *)
Definition read_day (s : string) : option (nat * string) :=
  match s with
  | EmptyString => None
  | String c1 rest1 =>
      if Ascii.eqb c1 " " then
        match rest1 with
        | EmptyString => None
        | String c2 rest2 =>
            match digit_of c2 with
            | Some d => Some (d, rest2)
            | None => None
            end
        end
      else read_short s
  end.

(** The number a numeric directive reads, [None] for anything else. *)
Definition read_field (d : ascii) (s : string) : option (nat * string) :=
  if Ascii.eqb d "Y" then take_digits 4 0 s
  else if Ascii.eqb d "d" then read_day s
  else if Ascii.eqb d "m" || Ascii.eqb d "I" || Ascii.eqb d "M" || Ascii.eqb d "S"
  then read_short s
  else None.

(** AM or PM, in either case of either letter. *)
Definition read_meridiem (s : string) : option (bool * string) :=
  match s with
  | String a (String m rest) =>
      if Ascii.eqb m "M" || Ascii.eqb m "m" then
        if Ascii.eqb a "A" || Ascii.eqb a "a" then Some (false, rest)
        else if Ascii.eqb a "P" || Ascii.eqb a "p" then Some (true, rest)
        else None
      else None
  | _ => None
  end.

(** Modelled from the spec: the matching of a text against the format of
    [hdx.utilities.dateparse], whose source is not among the repository's
    files, read the way [datetime.strptime] reads a format.  The text is
    matched directive by directive: one or two digits for month, day, hour,
    minute and second, four for the year, AM or PM in any case for the
    meridiem; a blank of the format stands for one or more blanks of the
    text, any other character of the format for itself; nothing may
    follow.  Texts are ASCII: the digits and blanks beyond ASCII that
    [strptime] also takes are outside the model. *)
Fixpoint scan (fmt : string) (s : string) (f : fields) : option fields :=
  match fmt with
  | EmptyString => match s with EmptyString => Some f | _ => None end
  | String c fmt1 =>
      if Ascii.eqb c "%" then
        match fmt1 with
        | EmptyString => None
        | String d fmt2 =>
            if Ascii.eqb d "p" then
              match read_meridiem s with
              | Some (pm, rest) => scan fmt2 rest (set_pm pm f)
              | None => None
              end
            else
              match read_field d s with
              | Some (v, rest) => scan fmt2 rest (set_field d v f)
              | None => None
              end
        end
      else if is_space c then
        match s with
        | String c' rest => if is_space c' then scan fmt1 (skip_spaces rest) f else None
        | EmptyString => None
        end
      else
        match s with
        | String c' rest => if Ascii.eqb c c' then scan fmt1 rest f else None
        | EmptyString => None
        end
  end.

Definition leap_year (y : nat) : bool :=
  (Nat.eqb (y mod 4) 0 && negb (Nat.eqb (y mod 100) 0)) || Nat.eqb (y mod 400) 0.

Definition days_in_month (y m : nat) : nat :=
  match m with
  | 2 => if leap_year y then 29 else 28
  | 4 | 6 | 9 | 11 => 30
  | _ => 31
  end.

Definition valid_fields (f : fields) : bool :=
  Nat.leb 1 (f_year f)
  && Nat.leb 1 (f_month f) && Nat.leb (f_month f) 12
  && Nat.leb 1 (f_day f) && Nat.leb (f_day f) (days_in_month (f_year f) (f_month f))
  && Nat.leb 1 (f_hour12 f) && Nat.leb (f_hour12 f) 12
  && Nat.leb (f_minute f) 59 && Nat.leb (f_second f) 59.

(** 12-hour clock and meridiem to the hour of the day. *)
Definition hour24 (h12 : nat) (pm : bool) : nat :=
  h12 mod 12 + (if pm then 12 else 0).

Definition datetime_of_fields (f : fields) : datetime :=
  mk_datetime (f_year f) (f_month f) (f_day f)
    (hour24 (f_hour12 f) (f_pm f)) (f_minute f) (f_second f).

(** Modelled from the spec: the timestamp a text denotes under a format,
    when it matches the format and names a real date and time (a year from
    1 on, a day the month has, an hour from 1 to 12, minutes and seconds up
    to 59). *)
Definition strptime (s fmt : string) : option datetime :=
  match scan fmt s default_fields with
  | Some f => if valid_fields f then Some (datetime_of_fields f) else None
  | None => None
  end.

(** Modelled from the spec: [hdx.utilities.dateparse.parse_date] called
    with a format; the library is not among the repository's files.  It
    hands the raw value to [datetime.strptime] and gives the timestamp the
    UTC zone: text matching the format gives the timestamp it denotes, and
    any other text raises [ValueError] (the wording of the message is not
    modelled, the error carries the text).  On a null raw value the model
    follows the library: [None] is not text, [strptime] takes text only,
    and the call raises [TypeError], as it does for every value that is not
    text.  The parser never answers [None]. *)
Definition parse_date (raw : json) (date_format : string)
    : outcome (option datetime) :=
  match raw with
  | JStr s =>
      match strptime s date_format with
      | Some d => Ok (Some d)
      | None => Error (ValueError s)
      end
  | _ => Error TypeError
  end.

(* ===================================================================== *)
(** ** pandas / geopandas operations on a frame *)
(* ===================================================================== *)

Fixpoint index_of (label : string) (labels : list string) : option nat :=
  match labels with
  | [] => None
  | l :: rest =>
      if String.eqb label l then Some 0
      else match index_of label rest with Some i => Some (S i) | None => None end
  end.

Definition has_column (gdf : frame) (label : string) : bool :=
  match index_of label (columns gdf) with Some _ => true | None => false end.

(** [gdf.geometry]: the cells of the geometry column. *)
Definition geometry (gdf : frame) : outcome (list cell) :=
  match index_of "geometry" (columns gdf) with
  | Some i => Ok (map (fun r => nth i r CNull) (rows gdf))
  | None => Error AttributeError
  end.

(** [GeoSeries.x] / [GeoSeries.y]: defined for points (a missing geometry
    gives a missing coordinate), an error for any other geometry. *)
Fixpoint coords (pick : float -> float -> float) (geoms : list cell)
    : outcome (list cell) :=
  match geoms with
  | [] => Ok []
  | g :: rest =>
      match g with
      | CPoint x y =>
          match coords pick rest with
          | Ok cs => Ok (CFloat (pick x y) :: cs)
          | Error e => Error e
          end
      | CNull =>
          match coords pick rest with
          | Ok cs => Ok (CNull :: cs)
          | Error e => Error e
          end
      | _ => Error (ValueError "attribute access only provided for Point geometries")
      end
  end.

Definition geometry_x (gdf : frame) : outcome (list cell) :=
  match geometry gdf with
  | Ok geoms => coords (fun x _ => x) geoms
  | Error e => Error e
  end.

Definition geometry_y (gdf : frame) : outcome (list cell) :=
  match geometry gdf with
  | Ok geoms => coords (fun _ y => y) geoms
  | Error e => Error e
  end.

Fixpoint replace_nth {A} (i : nat) (v : A) (l : list A) : list A :=
  match l, i with
  | [], _ => []
  | _ :: rest, 0 => v :: rest
  | a :: rest, S i' => a :: replace_nth i' v rest
  end.

Fixpoint zip_with {A B C} (f : A -> B -> C) (la : list A) (lb : list B) : list C :=
  match la, lb with
  | a :: la', b :: lb' => f a b :: zip_with f la' lb'
  | _, _ => []
  end.

(** [gdf[label] = values]: overwrites the column when the label exists,
    appends a new last column otherwise. *)
Definition set_column (gdf : frame) (label : string) (values : list cell) : frame :=
  match index_of label (columns gdf) with
  | Some i =>
      mk_frame (columns gdf)
        (zip_with (fun r v => replace_nth i v r) (rows gdf) values)
  | None =>
      mk_frame (columns gdf ++ [label])%list
        (zip_with (fun r v => (r ++ [v])%list) (rows gdf) values)
  end.

Definition mem_string (s : string) (l : list string) : bool :=
  existsb (String.eqb s) l.

Fixpoint keep_mask {A} (mask : list bool) (l : list A) : list A :=
  match mask, l with
  | b :: mask', a :: l' => if b then a :: keep_mask mask' l' else keep_mask mask' l'
  | _, _ => []
  end.

(** [gdf.drop(columns=labels)]: a new frame without the columns; every
    label must exist. *)
Definition drop (gdf : frame) (labels : list string) : outcome frame :=
  match find (fun l => negb (mem_string l (columns gdf))) labels with
  | Some missing => Error (KeyError (JStr missing))
  | None =>
      let mask := map (fun c => negb (mem_string c labels)) (columns gdf) in
      Ok (mk_frame (keep_mask mask (columns gdf))
                   (map (keep_mask mask) (rows gdf)))
  end.

Definition is_null (c : cell) : bool :=
  match c with
  | CNull => true
  | CFloat f => PrimFloat.is_nan f
  | _ => false
  end.

(** [df.fillna(value)]: a new frame with every missing cell replaced. *)
Definition fillna (df : frame) (value : cell) : frame :=
  mk_frame (columns df)
    (map (map (fun c => if is_null c then value else c)) (rows df)).

(** [gdf.to_dict(orient="records")]. *)
Definition to_dict_records (gdf : frame) : list record :=
  map (fun r => combine (columns gdf) r) (rows gdf).

Definition starts_with_slash (s : string) : bool :=
  match s with String c _ => Ascii.eqb c "/" | EmptyString => false end.

Fixpoint ends_with_slash (s : string) : bool :=
  match s with
  | EmptyString => false
  | String c EmptyString => Ascii.eqb c "/"
  | String _ rest => ends_with_slash rest
  end.

(** [os.path.join(a, b)] on POSIX. *)
Definition path_join (a b : string) : string :=
  if starts_with_slash b then b
  else if String.eqb a "" || ends_with_slash a then a ++ b
  else a ++ "/" ++ b.

(* ===================================================================== *)
(** ** Pipeline.generate_dataset *)
(* ===================================================================== *)

(** The collaborators [generate_dataset] calls: slugify, geopandas' reader
    and writer, the file system and the HDX dataset object.  Each method
    either returns or raises; methods of the dataset return the updated
    object. *)
Class Collaborators (Dataset : Type) : Type := {
  slugify : json -> outcome string;
  read_file : string -> outcome frame;
  new_dataset : string -> string -> Dataset;
  set_time_period :
    Dataset -> option datetime -> option datetime -> outcome Dataset;
  add_tags : Dataset -> list string -> outcome Dataset;
  add_country_location : Dataset -> string -> outcome Dataset;
  makedirs : string -> outcome unit;
  to_file : frame -> string -> string -> outcome unit;
  generate_resource_from_iterable :
    Dataset -> list string -> list record -> string -> string
    -> list (string * json) -> outcome Dataset;
  add_update_resource : Dataset -> resource -> outcome Dataset
}.

Definition dataset_query : list (string * string) :=
  [ ("f", "json");
    ("orderByFields", "OBJECTID");
    ("outFields", "*");
    ("where", "1=1") ].

Section Packaging.

Variable py_repr : json -> string.
Variable Dataset : Type.
Context {api : Collaborators Dataset}.
Variable config : configuration.
Variable tempdir : string.

(** Lines 109-115: the frame the CSV records are taken from.  The frame
    produced by [drop(...).fillna("")] is computed and dropped; the
    records come from [gdf] itself. *)
Definition csv_records (gdf : frame) : outcome (list record) :=
  match geometry_x gdf with
  | Error e => Error e
  | Ok xs =>
      let gdf1 := set_column gdf "lon" xs in
      match geometry_y gdf1 with
      | Error e => Error e
      | Ok ys =>
          let gdf2 := set_column gdf1 "lat" ys in
          match drop gdf2 ["geometry"; "ObjectID_1"] with
          | Error e => Error e
          | Ok dropped =>
              let _ := fillna dropped (CText "") in
              Ok (to_dict_records gdf2)
          end
      end
  end.

Definition generate_dataset (layer_info : descriptor) : M (option Dataset) :=
  let layer_id := layer_id layer_info in
  let layer_name := layer_name layer_info in
  slug <- lift (slugify layer_name) ;;
  let service_url := service_url layer_info in
  let layer_url := service_url ++ "/" ++ py_str py_repr layer_id in
  let query_url := layer_url ++ "/query?" ++ urlencode dataset_query in
  emit (EvReadFile ("ESRIJSON:" ++ query_url)) ;;;
  gdf <- lift (read_file ("ESRIJSON:" ++ query_url)) ;;
  let dataset :=
    new_dataset slug ("Philippines: " ++ py_str py_repr layer_name) in
  dataset <- lift (set_time_period dataset
                     (min_date layer_info) (max_date layer_info)) ;;
  dataset <- lift (add_tags dataset (tags config)) ;;
  let dataset_country_iso3 := "PHL" in
  match add_country_location dataset dataset_country_iso3 with
  | Error (HDXError _) =>
      emit (EvLogError ("Couldn't find country " ++ dataset_country_iso3
                          ++ ", skipping")) ;;;
      ret None
  | Error e => raise e
  | Ok dataset =>
      let output_dir := tempdir in
      emit (EvMakedirs output_dir) ;;;
      lift (makedirs output_dir) ;;;
      let geojson_name := path_join output_dir (slug ++ ".geojson") in
      emit (EvToFile geojson_name "GeoJSON" gdf) ;;;
      lift (to_file gdf geojson_name "GeoJSON") ;;;
      layer_data <- lift (csv_records gdf) ;;
      let resource_description :=
        "CSV format of the summary of " ++ py_str py_repr layer_name in
      let resource_data :=
        [ ("name", JStr (slug ++ ".csv"));
          ("description", JStr resource_description) ] in
      first <- lift (match layer_data with
                     | r :: _ => Ok r
                     | [] => Error IndexError
                     end) ;;
      let headers := map fst first in
      emit (EvGenerateResource headers layer_data tempdir
              (slug ++ ".csv") resource_data) ;;;
      dataset <- lift (generate_resource_from_iterable dataset headers
                         layer_data tempdir (slug ++ ".csv") resource_data) ;;
      let geojson_resource :=
        mk_resource
          [ ("name", JStr (slug ++ ".geojson"));
            ("description",
             JStr ("Geojson format of the summary of "
                     ++ py_str py_repr layer_name));
            ("format", JStr "GeoJSON") ]
          (Some (path_join output_dir (slug ++ ".geojson"))) in
      emit (EvAddUpdateResource geojson_resource) ;;;
      dataset <- lift (add_update_resource dataset geojson_resource) ;;
      let geoservice_resource :=
        mk_resource
          [ ("name", layer_name);
            ("description",
             JStr ("ArcGIS Map Service of the summary of "
                     ++ py_str py_repr layer_name));
            ("url", JStr service_url);
            ("format", JStr "GeoService") ]
          None in
      emit (EvAddUpdateResource geoservice_resource) ;;;
      dataset <- lift (add_update_resource dataset geoservice_resource) ;;
      ret (Some dataset)
  end.

(** The source [generate_dataset] hands to [read_file]. *)
Definition read_file_source (layer_info : descriptor) : string :=
  "ESRIJSON:" ++ (service_url layer_info ++ "/"
                    ++ py_str py_repr (layer_id layer_info))
    ++ "/query?" ++ urlencode dataset_query.

End Packaging.

(* ===================================================================== *)
(** ** Vocabulary of the statements *)
(* ===================================================================== *)

(** A directory or layer-listing URL, as opposed to a statistics query. *)
Definition is_listing_url (url : string) : Prop :=
  exists prefix, url = prefix ++ "?f=json".

(** A listing call of the walk fails with [e]: the root directory call, or
    the layer-listing call of a service that the walk reaches after the
    services before it went through. *)
Definition listing_call_fails (repr : json -> string)
    (parser : json -> string -> outcome (option datetime))
    (http : string -> outcome json) (config : configuration)
    (url : string) (e : exn) : Prop :=
  (url = root_url config /\ http url = Error e)
  \/ exists pre service post dss su,
       listed_services http config = Ok (pre ++ service :: post)%list
       /\ map_outcome (service_descriptors repr parser http config) pre = Ok dss
       /\ service_url_of repr config service = Ok su
       /\ url = su ++ "?f=json"
       /\ http url = Error e.

(** Two walks that end the same way up to the dates they report. *)
Definition same_walk (o1 o2 : outcome (list descriptor)) : Prop :=
  match o1, o2 with
  | Ok r1, Ok r2 => map skeleton r1 = map skeleton r2
  | Error e1, Error e2 => e1 = e2
  | _, _ => False
  end.

Definition last_char (s : string) : option ascii :=
  match rev (list_ascii_of_string s) with
  | c :: _ => Some c
  | [] => None
  end.

(** The descriptors [ds] follow the layers of a listing one for one, in
    the listing's order, all under the service URL [su]. *)
Definition follows_layers (su : string) (layers : list json)
    (ds : list descriptor) : Prop :=
  Forall2 (fun layer d =>
             getitem_str layer "id" = Ok (layer_id d)
             /\ getitem_str layer "name" = Ok (layer_name d)
             /\ service_url d = su)
          layers ds.

(** [ds] is the block of descriptors of one listed service. *)
Definition service_block (repr : json -> string)
    (http : string -> outcome json) (config : configuration)
    (service : json) (ds : list descriptor) : Prop :=
  exists su layers_response layers,
    service_url_of repr config service = Ok su
    /\ http (su ++ "?f=json") = Ok layers_response
    /\ listed_layers layers_response = Ok layers
    /\ follows_layers su layers ds.

(** The text does not go on with a digit, or with a blank. *)
Definition starts_without_digit (s : string) : Prop :=
  match s with
  | EmptyString => True
  | String c _ => digit_of c = None
  end.

Definition starts_without_space (s : string) : Prop :=
  match s with
  | EmptyString => True
  | String c _ => is_space c = false
  end.

(** One or two decimal digits and the number they write: ["7"] and ["07"]
    both write 7. *)
Definition short_number (t : string) (v : nat) : Prop :=
  (v < 10 /\ t = String (digit_char v) EmptyString)
  \/ (v < 100 /\ t = pad2 v).

(** A day of the month: one or two digits, or a space and one digit. *)
Definition day_number (t : string) (v : nat) : Prop :=
  short_number t v
  \/ (v < 10 /\ t = String " " (String (digit_char v) EmptyString)).

(** A year: four digits. *)
Definition year_number (t : string) (v : nat) : Prop :=
  v / 100 <= 99 /\ t = pad4 v.

Fixpoint all_spaces (t : string) : bool :=
  match t with
  | EmptyString => true
  | String c rest => is_space c && all_spaces rest
  end.

(** One or more blanks. *)
Definition blank (t : string) : Prop :=
  t <> EmptyString /\ all_spaces t = true.

Definition meridiem_text (t : string) (pm : bool) : Prop :=
  if pm then In t ["PM"; "Pm"; "pM"; "pm"] else In t ["AM"; "Am"; "aM"; "am"].

(** The text [s] is written in the format month/day/year, 12-hour time and
    meridiem, and [f] are the numbers it writes. *)
Definition reads_as (s : string) (f : fields) : Prop :=
  exists m d y b1 h mi se b2 p,
    s = m ++ "/" ++ d ++ "/" ++ y ++ b1 ++ h ++ ":" ++ mi ++ ":" ++ se ++ b2 ++ p
    /\ short_number m (f_month f)
    /\ day_number d (f_day f)
    /\ year_number y (f_year f)
    /\ blank b1
    /\ short_number h (f_hour12 f)
    /\ short_number mi (f_minute f)
    /\ short_number se (f_second f)
    /\ blank b2
    /\ meridiem_text p (f_pm f).

(** A raw value matching the format: a text written in it whose numbers
    name a real date and time. *)
Definition in_format (raw : json) : Prop :=
  exists s f, raw = JStr s /\ reads_as s f /\ valid_fields f = true.

(** Every character of the text is ASCII. *)
Fixpoint ascii_text (s : string) : bool :=
  match s with
  | EmptyString => true
  | String c rest => Nat.ltb (nat_of_ascii c) 128 && ascii_text rest
  end.

(** A raw value is ASCII when it is no text, or an ASCII text. *)
Definition ascii_value (raw : json) : Prop :=
  forall s, raw = JStr s -> ascii_text s = true.

(** The layer of a listing has the two keys the walk reads. *)
Definition layer_has_keys (layer : json) : Prop :=
  exists lid lname,
    getitem_str layer "id" = Ok lid /\ getitem_str layer "name" = Ok lname.

(** The walk can list the layers of [service]: its URL can be built, the
    listing call answers, and every layer listed has an id and a name. *)
Definition listing_well_formed (repr : json -> string)
    (http : string -> outcome json) (config : configuration)
    (service : json) : Prop :=
  exists su layers_response layers,
    service_url_of repr config service = Ok su
    /\ http (su ++ "?f=json") = Ok layers_response
    /\ listed_layers layers_response = Ok layers
    /\ Forall layer_has_keys layers.

(** [d] is the descriptor owed to [layer] under the service URL [su]: the
    layer's id and name, the dates [get_date_range] returns for the layer's
    URL, and no date at all when it raises. *)
Definition resolved_descriptor (repr : json -> string)
    (parser : json -> string -> outcome (option datetime))
    (http : string -> outcome json) (su : string)
    (layer : json) (d : descriptor) : Prop :=
  getitem_str layer "id" = Ok (layer_id d)
  /\ getitem_str layer "name" = Ok (layer_name d)
  /\ service_url d = su
  /\ match result_of (get_date_range parser http (layer_url_of repr su (layer_id d))) with
     | Ok stats => min_date d = ext_min_date stats /\ max_date d = ext_max_date stats
     | Error _ => min_date d = None /\ max_date d = None
     end.

(** [ds] holds, in the listing's order, the descriptor owed to each layer
    of [service]. *)
Definition resolved_block (repr : json -> string)
    (parser : json -> string -> outcome (option datetime))
    (http : string -> outcome json) (config : configuration)
    (service : json) (ds : list descriptor) : Prop :=
  exists su layers_response layers,
    service_url_of repr config service = Ok su
    /\ http (su ++ "?f=json") = Ok layers_response
    /\ listed_layers layers_response = Ok layers
    /\ Forall2 (resolved_descriptor repr parser http su) layers ds.

(** [attrs.get(key)] on the items of the attributes dict. *)
Definition raw_value (items : list (string * json)) (key : string) : json :=
  match dict_lookup key items with
  | Some v => v
  | None => JNull
  end.


(** Every row has one cell per column. *)
Definition wf_frame (gdf : frame) : bool :=
  forallb (fun r => Nat.eqb (length r) (length (columns gdf))) (rows gdf).

(** The calls that create files or resources. *)
Definition creates_output (ev : event) : bool :=
  match ev with
  | EvMakedirs _ | EvToFile _ _ _ | EvGenerateResource _ _ _ _ _
  | EvAddUpdateResource _ => true
  | _ => false
  end.

(** The frame after [gdf["lon"] = ...] and [gdf["lat"] = ...]. *)
Definition csv_frame (gdf : frame) (xs ys : list cell) : frame :=
  set_column (set_column gdf "lon" xs) "lat" ys.

(* ===================================================================== *)
(** ** Fixtures *)
(* ===================================================================== *)

(** A server given by a table of URLs and bodies; any other URL fails. *)
Fixpoint serve (table : list (string * json)) (url : string) : outcome json :=
  match table with
  | [] => Error (RequestException url)
  | (u, body) :: rest => if String.eqb url u then Ok body else serve rest url
  end.

(** Text for the values no fixture renders. *)
Definition plain_repr (v : json) : string := "<object>".

Definition pdrf_config : configuration :=
  mk_configuration
    "https://handa.pdrf.org.ph/arcgis/rest/services"
    "2024_PS_Response_Efforts"
    ["cyclones-hurricanes-typhoons"; "disaster risk reduction-drr"; "geodata"].

Definition carina_service_url : string :=
  "https://handa.pdrf.org.ph/arcgis/rest/services/2024_PS_Response_Efforts/TC_2024_000127_PHL_PDRF_PSResponse/MapServer".

Definition stats_body (raw_min raw_max : json) : json :=
  JObj [("features",
         JArr [JObj [("attributes",
                      JObj [("min_date", raw_min); ("max_date", raw_max)])]])].

(** The server of the repository's test: one service with one layer. *)
Definition carina_server : string -> outcome json :=
  serve
    [ (root_url pdrf_config,
       JObj [("currentVersion", JFloat 10.75%float);
             ("services",
              JArr [JObj [("name", JStr "2024_PS_Response_Efforts/TC_2024_000127_PHL_PDRF_PSResponse");
                          ("type", JStr "MapServer")]])]);
      (carina_service_url ++ "?f=json",
       JObj [("layers",
              JArr [JObj [("id", JInt 0); ("name", JStr "TC_CARINA_PS_Response")]])]);
      (stats_url (carina_service_url ++ "/0"),
       stats_body (JStr "07/24/2024 04:00:00 AM") (JStr "08/05/2024 04:00:00 AM")) ].

(** Two services: A with layers 0 and 1, an empty service, then B with
    layer 0.  A.0 has the latest dates, A.1 has a statistics row without
    attributes, B.0 the earliest dates. *)
Definition ab_config : configuration := mk_configuration "http://gis" "root" [].

Definition ab_listing : list (string * json) :=
  [ ("http://gis/root?f=json",
     JObj [("services",
            JArr [JObj [("name", JStr "A"); ("type", JStr "MapServer")];
                  JObj [("name", JStr "Empty"); ("type", JStr "MapServer")];
                  JObj [("name", JStr "B"); ("type", JStr "FeatureServer")]])]);
    ("http://gis/A/MapServer?f=json",
     JObj [("layers",
            JArr [JObj [("id", JInt 0); ("name", JStr "zulu")];
                  JObj [("id", JInt 1); ("name", JStr "alpha")]])]);
    ("http://gis/Empty/MapServer?f=json", JObj [("layers", JArr [])]);
    ("http://gis/B/FeatureServer?f=json",
     JObj [("layers", JArr [JObj [("id", JInt 0); ("name", JStr "mike")]])]) ].

Definition ab_server : string -> outcome json :=
  serve
    (ab_listing ++
     [ (stats_url "http://gis/A/MapServer/0",
        stats_body (JStr "12/01/2024 01:00:00 PM") (JStr "12/31/2024 11:59:59 PM"));
       (stats_url "http://gis/A/MapServer/1", JObj [("features", JArr [])]);
       (stats_url "http://gis/B/FeatureServer/0",
        stats_body (JStr "01/01/2020 12:00:00 AM") (JStr "01/02/2020 12:00:00 AM")) ])%list.

(** The same directory with every statistics query failing. *)
Definition ab_server_no_stats : string -> outcome json := serve ab_listing.

(** One service with one layer whose statistics row has a null lower
    bound and a dated upper bound. *)
Definition partial_server : string -> outcome json :=
  serve
    [ ("http://gis/root?f=json",
       JObj [("services", JArr [JObj [("name", JStr "S"); ("type", JStr "MapServer")]])]);
      ("http://gis/S/MapServer?f=json",
       JObj [("layers", JArr [JObj [("id", JInt 0); ("name", JStr "L")]])]);
      (stats_url "http://gis/S/MapServer/0",
       stats_body JNull (JStr "08/05/2024 04:00:00 AM")) ].

(** One layer whose lower bound is written in another format. *)
Definition iso_server : string -> outcome json :=
  serve
    [ (stats_url "http://gis/S/MapServer/0",
       stats_body (JStr "2024-07-24") (JStr "08/05/2024 04:00:00 AM")) ].

(** A dataset object reduced to what [generate_dataset] stores in it. *)
Record hdx_dataset : Type := mk_hdx_dataset {
  ds_name : string;
  ds_title : string;
  ds_time_period : option (option datetime * option datetime);
  ds_tags : list string;
  ds_locations : list string;
  ds_resources : list (list (string * json))
}.

Definition slug_char (c : ascii) : ascii :=
  if in_range 65 90 c then ascii_of_nat (nat_of_ascii c + 32)
  else if in_range 97 122 c || in_range 48 57 c then c
  else "-"%char.

Fixpoint slug_text (s : string) : string :=
  match s with
  | EmptyString => EmptyString
  | String c rest => String (slug_char c) (slug_text rest)
  end.

(** Collaborators for the examples: slugs by lower-casing and dashes, one
    frame served for every source, a list of country codes the catalog
    knows, and a dataset that records what it is given. *)
Definition offline_api (served : outcome frame) (countries : list string)
    : Collaborators hdx_dataset :=
  {| slugify := fun name =>
       match name with
       | JStr s => Ok (slug_text s)
       | _ => Error TypeError
       end;
     read_file := fun _ => served;
     new_dataset := fun name title => mk_hdx_dataset name title None [] [] [];
     set_time_period := fun ds a b =>
       Ok (mk_hdx_dataset (ds_name ds) (ds_title ds) (Some (a, b))
             (ds_tags ds) (ds_locations ds) (ds_resources ds));
     add_tags := fun ds ts =>
       Ok (mk_hdx_dataset (ds_name ds) (ds_title ds) (ds_time_period ds)
             (ds_tags ds ++ ts)%list (ds_locations ds) (ds_resources ds));
     add_country_location := fun ds iso3 =>
       if mem_string iso3 countries then
         Ok (mk_hdx_dataset (ds_name ds) (ds_title ds) (ds_time_period ds)
               (ds_tags ds) (ds_locations ds ++ [iso3])%list (ds_resources ds))
       else Error (HDXError ("Country: " ++ iso3 ++ " - cannot find iso3 code!"));
     makedirs := fun _ => Ok tt;
     to_file := fun _ _ _ => Ok tt;
     generate_resource_from_iterable := fun ds _ _ _ _ resourcedata =>
       Ok (mk_hdx_dataset (ds_name ds) (ds_title ds) (ds_time_period ds)
             (ds_tags ds) (ds_locations ds)
             (ds_resources ds ++ [resourcedata])%list);
     add_update_resource := fun ds r =>
       Ok (mk_hdx_dataset (ds_name ds) (ds_title ds) (ds_time_period ds)
             (ds_tags ds) (ds_locations ds)
             (ds_resources ds ++ [res_fields r])%list) |}.

(** Two points, the second with no recorded organisation. *)
Definition carina_frame : frame :=
  mk_frame ["ObjectID_1"; "Organization"; "geometry"]
    [ [CInt 1; CText "PDRF"; CPoint 121.5%float 14.5%float];
      [CInt 2; CNull; CPoint 120.75%float 15.25%float] ].

Definition carina_layer : descriptor :=
  mk_descriptor (JInt 0) (JStr "TC_CARINA_PS_Response")
    (Some (mk_datetime 2024 7 24 4 0 0))
    (Some (mk_datetime 2024 8 5 4 0 0))
    carina_service_url.

(* ===================================================================== *)
(** ** Reading a trace *)
(* ===================================================================== *)

(** The URLs requested, in order. *)
Definition requests (tr : list event) : list string :=
  flat_map (fun ev => match ev with EvGet url => [url] | _ => [] end) tr.

(** The diagnostics printed, in order. *)
Definition prints (tr : list event) : list (string * exn) :=
  flat_map (fun ev => match ev with EvPrint url e => [(url, e)] | _ => [] end) tr.

(** The requests the walk makes for one service with its block of
    descriptors: the layer listing, then one statistics query per layer. *)
Definition service_requests (repr : json -> string) (config : configuration)
    (service : json) (block : list descriptor) : list string :=
  match service_url_of repr config service with
  | Ok su =>
      (su ++ "?f=json")
      :: map (fun d => stats_url (layer_url_of repr (service_url d) (layer_id d)))
             block
  | Error _ => []
  end.

(** The diagnostic a descriptor's layer gives rise to, if any. *)
Definition diagnostic_of (repr : json -> string)
    (parser : json -> string -> outcome (option datetime))
    (http : string -> outcome json) (d : descriptor) : list (string * exn) :=
  let layer_url := layer_url_of repr (service_url d) (layer_id d) in
  match result_of (get_date_range parser http layer_url) with
  | Ok _ => []
  | Error e => [(layer_url, e)]
  end.

(** What the walk is seen doing: requesting a listing or a statistics
    query, or printing the diagnostic of a resolver that raised. *)
Definition walk_event (parser : json -> string -> outcome (option datetime))
    (http : string -> outcome json) (ev : event) : Prop :=
  (exists url, ev = EvGet url
               /\ (is_listing_url url \/ exists layer_url, url = stats_url layer_url))
  \/ (exists layer_url e,
        ev = EvPrint layer_url e
        /\ result_of (get_date_range parser http layer_url) = Error e).

(** Reading [layer["id"]] and then [layer["name"]] raises [e]. *)
Definition layer_keys_raise (layer : json) (e : exn) : Prop :=
  getitem_str layer "id" = Error e
  \/ exists layer_id,
       getitem_str layer "id" = Ok layer_id
       /\ getitem_str layer "name" = Error e.

(** The walk reaches [service] after the services before it went through. *)
Definition walk_reaches (repr : json -> string)
    (parser : json -> string -> outcome (option datetime))
    (http : string -> outcome json) (config : configuration)
    (service : json) : Prop :=
  exists pre post dss,
    listed_services http config = Ok (pre ++ service :: post)%list
    /\ map_outcome (service_descriptors repr parser http config) pre = Ok dss.

(** The inner loop of a service at [su] reaches [layer] after the layers
    before it went through. *)
Definition listing_reaches (repr : json -> string)
    (parser : json -> string -> outcome (option datetime))
    (http : string -> outcome json) (su : string) (layer : json) : Prop :=
  exists layers_response pre post ds,
    http (su ++ "?f=json") = Ok layers_response
    /\ listed_layers layers_response = Ok (pre ++ layer :: post)%list
    /\ map_outcome (describe repr parser http su) pre = Ok ds.

(** A directory whose second service lists a layer without a name, and
    whose third entry has no type. *)
Definition broken_server : string -> outcome json :=
  serve
    [ ("http://gis/root?f=json",
       JObj [("services",
              JArr [JObj [("name", JStr "A"); ("type", JStr "MapServer")];
                    JObj [("name", JStr "C"); ("type", JStr "MapServer")];
                    JObj [("name", JStr "D")]])]);
      ("http://gis/A/MapServer?f=json",
       JObj [("layers", JArr [JObj [("id", JInt 0); ("name", JStr "zulu")]])]);
      ("http://gis/C/MapServer?f=json",
       JObj [("layers", JArr [JObj [("id", JInt 0); ("name", JStr "kept")];
                              JObj [("id", JInt 1)]])]) ].

(** A directory with one good service followed by an entry without type. *)
Definition untyped_server : string -> outcome json :=
  serve
    [ ("http://gis/root?f=json",
       JObj [("services",
              JArr [JObj [("name", JStr "Empty"); ("type", JStr "MapServer")];
                    JObj [("name", JStr "D")]])]);
      ("http://gis/Empty/MapServer?f=json", JObj [("layers", JNull)]) ].

(* ===================================================================== *)
(** ** The two halves of generate_dataset *)
(* ===================================================================== *)

Section PackagingSteps.

Variable py_repr : json -> string.
Variable Dataset : Type.
Context {api : Collaborators Dataset}.
Variable config : configuration.
Variable tempdir : string.

(** [generate_dataset] gets past the country assignment with the dataset
    [dataset], the slug [slug] and the frame [gdf], and then creates the
    output directory and writes the GeoJSON file. *)
Definition reaches_export (layer_info : descriptor) (slug : string)
    (gdf : frame) (dataset : Dataset) : Prop :=
  slugify (layer_name layer_info) = Ok slug
  /\ read_file (read_file_source py_repr layer_info) = Ok gdf
  /\ exists ds1 ds2,
       set_time_period
         (new_dataset slug
            ("Philippines: " ++ py_str py_repr (layer_name layer_info)))
         (min_date layer_info) (max_date layer_info) = Ok ds1
       /\ add_tags ds1 (tags config) = Ok ds2
       /\ add_country_location ds2 "PHL" = Ok dataset
       /\ makedirs tempdir = Ok tt
       /\ to_file gdf (path_join tempdir (slug ++ ".geojson")) "GeoJSON" = Ok tt.

(** The events of the first half. *)
Definition export_events (layer_info : descriptor) (slug : string)
    (gdf : frame) : list event :=
  [ EvReadFile (read_file_source py_repr layer_info);
    EvMakedirs tempdir;
    EvToFile (path_join tempdir (slug ++ ".geojson")) "GeoJSON" gdf ].

Definition csv_resource_data (layer_info : descriptor) (slug : string)
    : list (string * json) :=
  [ ("name", JStr (slug ++ ".csv"));
    ("description",
     JStr ("CSV format of the summary of "
             ++ py_str py_repr (layer_name layer_info))) ].

Definition geojson_resource (layer_info : descriptor) (slug : string)
    : resource :=
  mk_resource
    [ ("name", JStr (slug ++ ".geojson"));
      ("description",
       JStr ("Geojson format of the summary of "
               ++ py_str py_repr (layer_name layer_info)));
      ("format", JStr "GeoJSON") ]
    (Some (path_join tempdir (slug ++ ".geojson"))).

Definition geoservice_resource (layer_info : descriptor) : resource :=
  mk_resource
    [ ("name", layer_name layer_info);
      ("description",
       JStr ("ArcGIS Map Service of the summary of "
               ++ py_str py_repr (layer_name layer_info)));
      ("url", JStr (service_url layer_info));
      ("format", JStr "GeoService") ]
    None.

(** Lines 109-149 of [generate_dataset]: the CSV records and the three
    resources, from the frame and the dataset the first half produced. *)
Definition attach_resources (layer_info : descriptor) (slug : string)
    (gdf : frame) (dataset : Dataset) : M (option Dataset) :=
  layer_data <- lift (csv_records gdf) ;;
  first <- lift (match layer_data with
                 | r :: _ => Ok r
                 | [] => Error IndexError
                 end) ;;
  emit (EvGenerateResource (map fst first) layer_data tempdir
          (slug ++ ".csv") (csv_resource_data layer_info slug)) ;;;
  dataset <- lift (generate_resource_from_iterable dataset (map fst first)
                     layer_data tempdir (slug ++ ".csv")
                     (csv_resource_data layer_info slug)) ;;
  emit (EvAddUpdateResource (geojson_resource layer_info slug)) ;;;
  dataset <- lift (add_update_resource dataset
                     (geojson_resource layer_info slug)) ;;
  emit (EvAddUpdateResource (geoservice_resource layer_info)) ;;;
  dataset <- lift (add_update_resource dataset
                     (geoservice_resource layer_info)) ;;
  ret (Some dataset).

End PackagingSteps.

(** A layer without features, and a layer whose identifier column has
    another name. *)
Definition empty_frame : frame := mk_frame ["ObjectID_1"; "geometry"] [].

Definition other_id_frame : frame :=
  mk_frame ["OBJECTID"; "geometry"]
    [ [CInt 1; CPoint 121.5%float 14.5%float] ].

(** The dataset [offline_api] holds when the country has been added. *)
Definition carina_dataset : hdx_dataset :=
  mk_hdx_dataset "tc-carina-ps-response" "Philippines: TC_CARINA_PS_Response"
    (Some (min_date carina_layer, max_date carina_layer))
    (tags pdrf_config) ["PHL"] [].

(** The frame [carina_frame] with its coordinates flattened. *)
Definition carina_records : list record :=
  [ [("ObjectID_1", CInt 1); ("Organization", CText "PDRF");
     ("geometry", CPoint 121.5%float 14.5%float);
     ("lon", CFloat 121.5%float); ("lat", CFloat 14.5%float)];
    [("ObjectID_1", CInt 2); ("Organization", CNull);
     ("geometry", CPoint 120.75%float 15.25%float);
     ("lon", CFloat 120.75%float); ("lat", CFloat 15.25%float)] ].

(** Collaborators whose catalog is unreachable when the country is
    added. *)
Definition unreachable_api : Collaborators hdx_dataset :=
  {| slugify := slugify (Collaborators := offline_api (Ok carina_frame) []);
     read_file := fun _ => Ok carina_frame;
     new_dataset := new_dataset (Collaborators := offline_api (Ok carina_frame) []);
     set_time_period :=
       set_time_period (Collaborators := offline_api (Ok carina_frame) []);
     add_tags := add_tags (Collaborators := offline_api (Ok carina_frame) []);
     add_country_location := fun _ _ =>
       Error (RequestException "connection refused");
     makedirs := fun _ => Ok tt;
     to_file := fun _ _ _ => Ok tt;
     generate_resource_from_iterable :=
       generate_resource_from_iterable
         (Collaborators := offline_api (Ok carina_frame) []);
     add_update_resource :=
       add_update_resource (Collaborators := offline_api (Ok carina_frame) []) |}.

(** The cell of row [i] under the first column labelled [label]. *)
Definition lookup_cell (gdf : frame) (i : nat) (label : string) : option cell :=
  match index_of label (columns gdf), nth_error (rows gdf) i with
  | Some j, Some row => nth_error row j
  | _, _ => None
  end.

(** A statistics row whose two bounds are both written in other formats. *)
Definition both_bad_server : string -> outcome json :=
  serve
    [ (stats_url "http://gis/S/MapServer/0",
       stats_body (JStr "2024-07-24") (JInt 1722830400000)) ].

(** A frame that already has [lon] and [lat] columns. *)
Definition located_frame : frame :=
  mk_frame ["lat"; "ObjectID_1"; "lon"; "geometry"]
    [ [CText "north"; CInt 1; CNull; CPoint 121.5%float 14.5%float] ].

(* ===================================================================== *)
(** * Properties *)
(* ===================================================================== *)

Unset Implicit Arguments.

(** ** The monad *)

Lemma bind_ok {A B} (t : list event) (a : A) (k : A -> M B) :
  bind (t, Ok a) k = ((t ++ trace_of (k a))%list, result_of (k a)).
Proof. unfold bind, trace_of, result_of. destruct (k a); reflexivity. Qed.

Lemma result_of_bind {A B} (m : M A) (k : A -> M B) :
  result_of (bind m k) =
  match result_of m with
  | Ok a => result_of (k a)
  | Error e => Error e
  end.
Proof.
  destruct m as [t [a | e]]; simpl; [| reflexivity].
  unfold result_of. destruct (k a); reflexivity.
Qed.

Lemma bind_lift_ok {A B} (a : A) (k : A -> M B) : bind (lift (Ok a)) k = k a.
Proof. unfold bind, lift. now destruct (k a). Qed.

Lemma result_of_lift {A} (o : outcome A) : result_of (lift o) = o.
Proof. reflexivity. Qed.

Lemma surjective_M {A} (m : M A) : m = (trace_of m, result_of m).
Proof. destruct m; reflexivity. Qed.

(** ** The resolver *)

Section WalkerFacts.

Variable repr : json -> string.
Variable parser : json -> string -> outcome (option datetime).
Variable http : string -> outcome json.
Variable config : configuration.

(** The resolver makes its one request and then only computes. *)
Lemma get_date_range_unfold (layer_url : string) :
  get_date_range parser http layer_url =
  ([EvGet (stats_url layer_url)],
   match raw_bounds http layer_url with
   | Error e => Error e
   | Ok (raw_min, raw_max) =>
       match parser raw_min date_fmt with
       | Error e => Error e
       | Ok min_d =>
           match parser raw_max date_fmt with
           | Error e => Error e
           | Ok max_d => Ok (mk_extent min_d max_d)
           end
       end
   end).
Proof.
  unfold get_date_range, raw_bounds, attributes_of, requests_get_json.
  unfold emit, lift, ret, bind at 1 2. simpl.
  destruct (http (stats_url layer_url)) as [resp | e]; [| reflexivity].
  simpl. destruct (getitem_str resp "features") as [features | e]; [| reflexivity].
  simpl. destruct (getitem_int features 0) as [row | e]; [| reflexivity].
  simpl. destruct (getitem_str row "attributes") as [attrs | e]; [| reflexivity].
  simpl. destruct (dict_get attrs "min_date" JNull) as [raw_min | e] eqn:Emin.
  - assert (exists raw_max, dict_get attrs "max_date" JNull = Ok raw_max) as [raw_max Emax].
    { destruct attrs; try discriminate. simpl.
      destruct (dict_lookup "max_date" items); eauto. }
    rewrite Emax. simpl.
    destruct (parser raw_min date_fmt); [| reflexivity].
    simpl. destruct (parser raw_max date_fmt); reflexivity.
  - reflexivity.
Qed.

Lemma extent_of_unfold (layer_url : string) :
  extent_of parser http layer_url =
  match raw_bounds http layer_url with
  | Error _ => null_extent
  | Ok (raw_min, raw_max) =>
      match parser raw_min date_fmt, parser raw_max date_fmt with
      | Ok min_d, Ok max_d => mk_extent min_d max_d
      | _, _ => null_extent
      end
  end.
Proof.
  unfold extent_of. rewrite get_date_range_unfold. simpl.
  destruct (raw_bounds http layer_url) as [[raw_min raw_max] | e]; [| reflexivity].
  destruct (parser raw_min date_fmt); [| reflexivity].
  destruct (parser raw_max date_fmt); reflexivity.
Qed.

Lemma result_of_requests_get_json (url : string) :
  result_of (requests_get_json http url) = http url.
Proof. unfold requests_get_json, emit, lift. simpl. now destruct (http url). Qed.

(** ** The loops *)

(** The [try] block turns the resolver's outcome into [extent_of]. *)
Lemma layer_step_result (service_url : string) (results : list descriptor)
    (layer : json) :
  result_of (layer_step repr parser http service_url results layer) =
  match describe repr parser http service_url layer with
  | Ok d => Ok (results ++ [d])%list
  | Error e => Error e
  end.
Proof.
  unfold layer_step, describe.
  rewrite result_of_bind, result_of_lift.
  destruct (getitem_str layer "id") as [lid | e]; [| reflexivity].
  rewrite result_of_bind, result_of_lift.
  destruct (getitem_str layer "name") as [lname | e]; [| reflexivity].
  rewrite result_of_bind.
  unfold extent_of.
  destruct (get_date_range parser http (layer_url_of repr service_url lid))
    as [t [stats | e]]; reflexivity.
Qed.

Lemma layer_loop_result (service_url : string) (layers : list json) :
  forall results,
    result_of (layer_loop repr parser http service_url layers results) =
    match map_outcome (describe repr parser http service_url) layers with
    | Ok ds => Ok (results ++ ds)%list
    | Error e => Error e
    end.
Proof.
  induction layers as [| layer rest IH]; intros results; simpl.
  - now rewrite app_nil_r.
  - rewrite result_of_bind, layer_step_result.
    destruct (describe repr parser http service_url layer) as [d | e];
      [| reflexivity].
    rewrite IH.
    destruct (map_outcome _ rest) as [ds | e]; [| reflexivity].
    now rewrite <- app_assoc.
Qed.

Lemma service_step_result (results : list descriptor) (service : json) :
  result_of (service_step repr parser http config results service) =
  match service_descriptors repr parser http config service with
  | Ok ds => Ok (results ++ ds)%list
  | Error e => Error e
  end.
Proof.
  unfold service_step, service_descriptors, listed_layers.
  rewrite result_of_bind, result_of_lift.
  destruct (service_url_of repr config service) as [su | e]; [| reflexivity].
  rewrite result_of_bind, result_of_requests_get_json.
  destruct (http (su ++ "?f=json")) as [resp | e]; [| reflexivity].
  rewrite result_of_bind, result_of_lift.
  destruct (dict_get resp "layers" (JArr [])) as [layers | e]; [| reflexivity].
  destruct (negb (truthy layers)).
  - simpl. now rewrite app_nil_r.
  - rewrite result_of_bind, result_of_lift.
    destruct (py_iter layers) as [l | e]; [| reflexivity].
    apply layer_loop_result.
Qed.

Lemma service_loop_result (services : list json) :
  forall results,
    result_of (service_loop repr parser http config services results) =
    match map_outcome (service_descriptors repr parser http config) services with
    | Ok dss => Ok (results ++ concat dss)%list
    | Error e => Error e
    end.
Proof.
  induction services as [| service rest IH]; intros results; simpl.
  - now rewrite app_nil_r.
  - rewrite result_of_bind, service_step_result.
    destruct (service_descriptors repr parser http config service) as [ds | e];
      [| reflexivity].
    rewrite IH.
    destruct (map_outcome _ rest) as [dss | e]; [| reflexivity].
    simpl. now rewrite <- app_assoc.
Qed.

(** [get_layers] returns the per-service descriptor lists, concatenated
    in listing order. *)
Lemma get_layers_result :
  result_of (get_layers repr parser http config) =
  match listed_services http config with
  | Error e => Error e
  | Ok services =>
      match map_outcome (service_descriptors repr parser http config) services with
      | Ok dss => Ok (concat dss)
      | Error e => Error e
      end
  end.
Proof.
  unfold get_layers, listed_services.
  rewrite result_of_bind, result_of_requests_get_json.
  destruct (http (root_url config)) as [resp | e]; [| reflexivity].
  rewrite result_of_bind, result_of_lift.
  destruct (dict_get resp "services" (JArr [])) as [services | e]; [| reflexivity].
  rewrite result_of_bind, result_of_lift.
  destruct (py_iter services) as [l | e]; [| reflexivity].
  rewrite service_loop_result. reflexivity.
Qed.

End WalkerFacts.

(** ** Lists of outcomes *)

Lemma map_outcome_Forall2 {A B} (f : A -> outcome B) (l : list A) :
  forall bs, map_outcome f l = Ok bs -> Forall2 (fun a b => f a = Ok b) l bs.
Proof.
  induction l as [| a rest IH]; simpl; intros bs H.
  - inversion H. constructor.
  - destruct (f a) as [b | e] eqn:Ea; [| discriminate].
    destruct (map_outcome f rest) as [bs' | e]; [| discriminate].
    inversion H; subst. constructor; auto.
Qed.

Lemma in_concat_map_outcome {A B} (f : A -> outcome (list B)) (l : list A)
    (bss : list (list B)) (b : B) :
  map_outcome f l = Ok bss -> In b (concat bss) ->
  exists a bs, In a l /\ f a = Ok bs /\ In b bs.
Proof.
  revert bss. induction l as [| x rest IH]; simpl; intros bss H Hin.
  - inversion H; subst. contradiction.
  - destruct (f x) as [bs | e] eqn:Ex; [| discriminate].
    destruct (map_outcome f rest) as [bss' | e]; [| discriminate].
    inversion H; subst. simpl in Hin. apply in_app_or in Hin as [Hin | Hin].
    + exists x, bs. auto.
    + destruct (IH bss' eq_refl Hin) as (a & bs' & Ha & Hf & Hb).
      exists a, bs'. auto.
Qed.

Lemma in_map_outcome {A B} (f : A -> outcome B) (l : list A) (bs : list B) (b : B) :
  map_outcome f l = Ok bs -> In b bs -> exists a, In a l /\ f a = Ok b.
Proof.
  intros H Hin. apply map_outcome_Forall2 in H.
  induction H as [| a b' l' bs' Hab _ IH]; [contradiction |].
  destruct Hin as [-> | Hin]; [exists a; simpl; auto |].
  destruct (IH Hin) as (a' & Ha' & Hf). exists a'. simpl; auto.
Qed.

(** ** Descriptors *)

Section DescriptorFacts.

Variable repr : json -> string.
Variable parser : json -> string -> outcome (option datetime).
Variable http : string -> outcome json.
Variable config : configuration.

Lemma describe_inv (su : string) (layer : json) (d : descriptor) :
  describe repr parser http su layer = Ok d ->
  getitem_str layer "id" = Ok (layer_id d)
  /\ getitem_str layer "name" = Ok (layer_name d)
  /\ service_url d = su
  /\ min_date d = ext_min_date (extent_of parser http (layer_url_of repr su (layer_id d)))
  /\ max_date d = ext_max_date (extent_of parser http (layer_url_of repr su (layer_id d))).
Proof.
  unfold describe.
  destruct (getitem_str layer "id") as [lid | e]; [| discriminate].
  destruct (getitem_str layer "name") as [lname | e]; [| discriminate].
  intros H. inversion H; subst; simpl. auto.
Qed.

(** Every returned descriptor comes from a listed layer of a listed
    service and carries the extent resolved for its layer URL. *)
Lemma get_layers_in (rs : list descriptor) (d : descriptor) :
  result_of (get_layers repr parser http config) = Ok rs -> In d rs ->
  exists services service layers_response layer_list layer,
    listed_services http config = Ok services
    /\ In service services
    /\ service_url_of repr config service = Ok (service_url d)
    /\ http (service_url d ++ "?f=json") = Ok layers_response
    /\ listed_layers layers_response = Ok layer_list
    /\ In layer layer_list
    /\ describe repr parser http (service_url d) layer = Ok d.
Proof.
  rewrite get_layers_result.
  destruct (listed_services http config) as [services | e]; [| discriminate].
  destruct (map_outcome _ services) as [dss | e] eqn:Hmap; [| discriminate].
  intros H Hin. inversion H; subst rs.
  destruct (@in_concat_map_outcome _ _ _ _ _ _ Hmap Hin) as (service & ds & Hs & Hds & Hd).
  unfold service_descriptors in Hds.
  destruct (service_url_of repr config service) as [su | e] eqn:Hsu; [| discriminate].
  destruct (http (su ++ "?f=json")) as [resp | e] eqn:Hresp; [| discriminate].
  destruct (listed_layers resp) as [layer_list | e] eqn:Hll; [| discriminate].
  destruct (@in_map_outcome _ _ _ _ _ _ Hds Hd) as (layer & Hl & Hdesc).
  pose proof (@describe_inv _ _ _ Hdesc) as (_ & _ & Hsurl & _).
  subst su.
  exists services, service, resp, layer_list, layer. auto 10.
Qed.

Lemma get_layers_extent (rs : list descriptor) (d : descriptor) :
  result_of (get_layers repr parser http config) = Ok rs -> In d rs ->
  mk_extent (min_date d) (max_date d) =
  extent_of parser http (layer_url_of repr (service_url d) (layer_id d)).
Proof.
  intros H Hin.
  destruct (@get_layers_in _ _ H Hin) as (_ & _ & _ & _ & layer & _ & _ & _ & _ & _ & _ & Hd).
  apply describe_inv in Hd as (_ & _ & _ & Hmin & Hmax).
  rewrite Hmin, Hmax. now destruct (extent_of parser http _).
Qed.

End DescriptorFacts.

(** ** Statistics responses without a usable row *)

Lemma attributes_of_unusable (http : string -> outcome json)
    (layer_url : string) (stats_response : json) :
  http (stats_url layer_url) = Ok stats_response ->
  has_usable_row stats_response = false ->
  exists e, raw_bounds http layer_url = Error e.
Proof.
  intros Hresp Hrow. unfold raw_bounds, attributes_of. rewrite Hresp.
  destruct stats_response as [| | | | | | items]; simpl in *; eauto.
  destruct (dict_lookup "features" items) as [features |]; eauto.
  destruct features as [| | | | s | rows | fitems]; simpl; eauto.
  - destruct s as [| c s]; simpl; eauto.
  - destruct rows as [| row rows]; simpl; eauto.
    destruct row as [| | | | | | ritems]; simpl; eauto.
    destruct (dict_lookup "attributes" ritems) as [attrs |]; eauto.
    destruct attrs; simpl; eauto. discriminate.
Qed.

(** C8: when the statistics response of a layer has no usable result row
    (no [features] entry, an empty [features] list, a first row without an
    [attributes] map), [get_date_range] makes its request and raises; the
    exception reaches its caller. *)
Theorem get_date_range_unusable_row_raises
    (parser : json -> string -> outcome (option datetime))
    (http : string -> outcome json) (layer_url : string) (stats_response : json) :
  http (stats_url layer_url) = Ok stats_response ->
  has_usable_row stats_response = false ->
  exists e,
    get_date_range parser http layer_url = ([EvGet (stats_url layer_url)], Error e).
Proof.
  intros Hresp Hrow.
  destruct (attributes_of_unusable http layer_url stats_response Hresp Hrow) as [e He].
  exists e. rewrite get_date_range_unfold, He. reflexivity.
Qed.

(** The three shapes the spec names: an error body without [features], an
    empty [features] list, and a first row without [attributes]. *)
Example unusable_rows (url : string) :
  get_date_range parse_date
    (fun _ => Ok (JObj [("error", JObj [("code", JInt 400)])])) url =
    ([EvGet (stats_url url)], Error (KeyError (JStr "features")))
  /\ get_date_range parse_date (fun _ => Ok (JObj [("features", JArr [])])) url =
     ([EvGet (stats_url url)], Error IndexError)
  /\ get_date_range parse_date
       (fun _ => Ok (JObj [("features", JArr [JObj [("geometry", JNull)]])])) url =
     ([EvGet (stats_url url)], Error (KeyError (JStr "attributes"))).
Proof. repeat split. Qed.

Lemma get_date_range_unusable_row_raises_witness :
  ab_server (stats_url "http://gis/A/MapServer/1") = Ok (JObj [("features", JArr [])])
  /\ has_usable_row (JObj [("features", JArr [])]) = false
  /\ exists e,
       get_date_range parse_date ab_server "http://gis/A/MapServer/1" =
       ([EvGet (stats_url "http://gis/A/MapServer/1")], Error e).
Proof.
  split; [reflexivity |]. split; [reflexivity |].
  apply (get_date_range_unusable_row_raises parse_date ab_server
           "http://gis/A/MapServer/1" (JObj [("features", JArr [])]));
    reflexivity.
Defined.

(** ** Services without layers *)

(** C5: a service whose layer listing has no [layers] key or an empty
    [layers] list adds nothing to the results; its iteration performs the
    listing request and nothing else (no statistics query), and no
    descriptor of the walk belongs to it. *)
Theorem empty_service_contributes_nothing
    (repr : json -> string)
    (parser : json -> string -> outcome (option datetime))
    (http : string -> outcome json) (config : configuration)
    (service : json) (su : string) (items : list (string * json)) :
  service_url_of repr config service = Ok su ->
  http (su ++ "?f=json") = Ok (JObj items) ->
  dict_lookup "layers" items = None \/ dict_lookup "layers" items = Some (JArr []) ->
  (forall results,
     service_step repr parser http config results service =
     ([EvGet (su ++ "?f=json")], Ok results))
  /\ (forall rs d,
        result_of (get_layers repr parser http config) = Ok rs ->
        In d rs -> service_url d <> su).
Proof.
  intros Hsu Hresp Hlayers.
  assert (Hget : dict_get (JObj items) "layers" (JArr []) = Ok (JArr [])).
  { simpl. destruct Hlayers as [-> | ->]; reflexivity. }
  split.
  - intros results. unfold service_step. rewrite Hsu.
    unfold requests_get_json, emit, lift, bind, ret.
    rewrite Hresp, Hget. reflexivity.
  - intros rs d Hrs Hin Heq.
    destruct (get_layers_in repr parser http config rs d Hrs Hin)
      as (_ & _ & resp & layer_list & layer & _ & _ & _ & Hresp' & Hll & Hl & _).
    rewrite Heq, Hresp in Hresp'. inversion Hresp'; subst resp.
    unfold listed_layers in Hll. rewrite Hget in Hll. simpl in Hll.
    inversion Hll; subst. contradiction.
Qed.

Lemma empty_service_contributes_nothing_witness :
  (forall results,
     service_step plain_repr parse_date ab_server ab_config results
       (JObj [("name", JStr "Empty"); ("type", JStr "MapServer")]) =
     ([EvGet "http://gis/Empty/MapServer?f=json"], Ok results))
  /\ (forall rs d,
        result_of (get_layers plain_repr parse_date ab_server ab_config) = Ok rs ->
        In d rs -> service_url d <> "http://gis/Empty/MapServer").
Proof.
  apply (empty_service_contributes_nothing plain_repr parse_date ab_server
           ab_config (JObj [("name", JStr "Empty"); ("type", JStr "MapServer")])
           "http://gis/Empty/MapServer" [("layers", JArr [])]).
  - reflexivity.
  - reflexivity.
  - right. reflexivity.
Defined.

(** ** Listing failures *)

Section ListingFailure.

Variable repr : json -> string.
Variable parser : json -> string -> outcome (option datetime).
Variable http : string -> outcome json.
Variable config : configuration.

Lemma requests_get_json_eq (url : string) :
  requests_get_json http url = ([EvGet url], http url).
Proof. unfold requests_get_json, emit, lift, bind. now destruct (http url). Qed.

Lemma service_step_listing_error (results : list descriptor) (service : json)
    (su : string) (e : exn) :
  service_url_of repr config service = Ok su ->
  http (su ++ "?f=json") = Error e ->
  service_step repr parser http config results service =
  ([EvGet (su ++ "?f=json")], Error e).
Proof.
  intros Hsu Herr. unfold service_step.
  rewrite Hsu, bind_lift_ok, requests_get_json_eq, Herr.
  reflexivity.
Qed.

Lemma service_loop_listing_error (service : json) (post : list json)
    (su : string) (e : exn) :
  service_url_of repr config service = Ok su ->
  http (su ++ "?f=json") = Error e ->
  forall pre dss results,
    map_outcome (service_descriptors repr parser http config) pre = Ok dss ->
    exists t,
      service_loop repr parser http config (pre ++ service :: post) results =
      ((t ++ [EvGet (su ++ "?f=json")])%list, Error e).
Proof.
  intros Hsu Herr. induction pre as [| p pre IH]; intros dss results Hpre.
  - exists []. simpl.
    rewrite (service_step_listing_error results service su e Hsu Herr).
    reflexivity.
  - simpl in Hpre.
    destruct (service_descriptors repr parser http config p) as [ds | e'] eqn:Hp;
      [| discriminate].
    destruct (map_outcome _ pre) as [dss' | e']; [| discriminate].
    destruct (IH dss' (results ++ ds)%list eq_refl) as [t Ht].
    exists (trace_of (service_step repr parser http config results p) ++ t)%list.
    simpl.
    rewrite (surjective_M (service_step repr parser http config results p)).
    rewrite service_step_result, Hp, bind_ok, Ht. simpl.
    now rewrite app_assoc.
Qed.

End ListingFailure.

(** C4: when the root directory call fails, or the layer-listing call of a
    service the walk reaches fails, [get_layers] raises that same error and
    the failing request is the last thing it does: nothing in [get_layers]
    catches it. *)
Theorem listing_failure_propagates
    (repr : json -> string)
    (parser : json -> string -> outcome (option datetime))
    (http : string -> outcome json) (config : configuration)
    (url : string) (e : exn) :
  listing_call_fails repr parser http config url e ->
  exists t,
    get_layers repr parser http config = ((t ++ [EvGet url])%list, Error e).
Proof.
  intros [[-> Hroot] | (pre & service & post & dss & su & Hlist & Hpre & Hsu & -> & Herr)].
  - exists []. unfold get_layers. rewrite requests_get_json_eq, Hroot. reflexivity.
  - unfold listed_services in Hlist. unfold get_layers.
    rewrite requests_get_json_eq.
    destruct (http (root_url config)) as [resp | e']; [| discriminate].
    rewrite bind_ok.
    destruct (dict_get resp "services" (JArr [])) as [services | e']; [| discriminate].
    simpl in Hlist. rewrite bind_lift_ok, Hlist, bind_lift_ok.
    destruct (service_loop_listing_error repr parser http config service post su e
                Hsu Herr pre dss [] Hpre) as [t Ht].
    exists (EvGet (root_url config) :: t).
    rewrite Ht. reflexivity.
Qed.

Lemma listing_failure_propagates_witness :
  (exists t,
     get_layers plain_repr parse_date (serve []) ab_config =
     ((t ++ [EvGet "http://gis/root?f=json"])%list,
      Error (RequestException "http://gis/root?f=json")))
  /\ (exists t,
        get_layers plain_repr parse_date
          (serve [ ("http://gis/root?f=json",
                    JObj [("services",
                           JArr [JObj [("name", JStr "Empty"); ("type", JStr "MapServer")];
                                 JObj [("name", JStr "B"); ("type", JStr "FeatureServer")]])]);
                   ("http://gis/Empty/MapServer?f=json", JObj [("layers", JArr [])]) ])
          ab_config =
        ((t ++ [EvGet "http://gis/B/FeatureServer?f=json"])%list,
         Error (RequestException "http://gis/B/FeatureServer?f=json"))).
Proof.
  split.
  - apply listing_failure_propagates. left. split; reflexivity.
  - apply listing_failure_propagates. right.
    exists [JObj [("name", JStr "Empty"); ("type", JStr "MapServer")]],
           (JObj [("name", JStr "B"); ("type", JStr "FeatureServer")]),
           [], [[]], "http://gis/B/FeatureServer".
    repeat split; reflexivity.
Defined.

(** ** Order of the result *)

Lemma describe_follows_layers (repr : json -> string)
    (parser : json -> string -> outcome (option datetime))
    (http : string -> outcome json) (su : string) (layers : list json)
    (ds : list descriptor) :
  map_outcome (describe repr parser http su) layers = Ok ds ->
  follows_layers su layers ds.
Proof.
  intros H. apply map_outcome_Forall2 in H. unfold follows_layers.
  induction H as [| layer d layers' ds' Hd _ IH]; [constructor |].
  constructor; [| exact IH].
  apply describe_inv in Hd. tauto.
Qed.

(** C6: the result is the concatenation, in the order of the directory
    listing, of one block per service, and each block follows the layers of
    that service's listing in their order.  No step sorts or interleaves. *)
Theorem get_layers_keeps_listing_order
    (repr : json -> string)
    (parser : json -> string -> outcome (option datetime))
    (http : string -> outcome json) (config : configuration)
    (rs : list descriptor) :
  result_of (get_layers repr parser http config) = Ok rs ->
  exists services blocks,
    listed_services http config = Ok services
    /\ Forall2 (service_block repr http config) services blocks
    /\ rs = concat blocks.
Proof.
  rewrite get_layers_result.
  destruct (listed_services http config) as [services | e]; [| discriminate].
  destruct (map_outcome _ services) as [dss | e] eqn:Hmap; [| discriminate].
  intros H. inversion H; subst rs. clear H. exists services, dss.
  split; [reflexivity |]. split; [| reflexivity].
  apply map_outcome_Forall2 in Hmap.
  induction Hmap as [| service ds services' dss' Hsd _ IH]; [constructor |].
  constructor; [| exact IH].
  unfold service_descriptors in Hsd. unfold service_block.
  destruct (service_url_of repr config service) as [su | e]; [| discriminate].
  destruct (http (su ++ "?f=json")) as [resp | e] eqn:Hresp; [| discriminate].
  destruct (listed_layers resp) as [layers | e] eqn:Hll; [| discriminate].
  exists su, resp, layers. repeat split; auto.
  eapply describe_follows_layers; eauto.
Qed.

(** Services A (layers 0, 1), an empty service and B (layer 0) give A.0,
    A.1, B.0, whatever the names and dates are. *)
Example get_layers_two_services :
  result_of (get_layers plain_repr parse_date ab_server ab_config) =
  Ok [ mk_descriptor (JInt 0) (JStr "zulu")
         (Some (mk_datetime 2024 12 1 13 0 0))
         (Some (mk_datetime 2024 12 31 23 59 59)) "http://gis/A/MapServer";
       mk_descriptor (JInt 1) (JStr "alpha") None None "http://gis/A/MapServer";
       mk_descriptor (JInt 0) (JStr "mike")
         (Some (mk_datetime 2020 1 1 0 0 0))
         (Some (mk_datetime 2020 1 2 0 0 0)) "http://gis/B/FeatureServer" ].
Proof. vm_compute. reflexivity. Qed.

Lemma get_layers_keeps_listing_order_witness :
  exists services blocks,
    listed_services ab_server ab_config = Ok services
    /\ Forall2 (service_block plain_repr ab_server ab_config) services blocks
    /\ [ mk_descriptor (JInt 0) (JStr "zulu")
           (Some (mk_datetime 2024 12 1 13 0 0))
           (Some (mk_datetime 2024 12 31 23 59 59)) "http://gis/A/MapServer";
         mk_descriptor (JInt 1) (JStr "alpha") None None "http://gis/A/MapServer";
         mk_descriptor (JInt 0) (JStr "mike")
           (Some (mk_datetime 2020 1 1 0 0 0))
           (Some (mk_datetime 2020 1 2 0 0 0)) "http://gis/B/FeatureServer" ]
       = concat blocks.
Proof.
  apply (get_layers_keeps_listing_order plain_repr parse_date ab_server ab_config).
  vm_compute. reflexivity.
Defined.

(** The descriptor the repository's test expects first. *)
Example test_pipeline_first_layer :
  result_of (get_layers plain_repr parse_date carina_server pdrf_config) =
  Ok [ mk_descriptor (JInt 0) (JStr "TC_CARINA_PS_Response")
         (Some (mk_datetime 2024 7 24 4 0 0))
         (Some (mk_datetime 2024 8 5 4 0 0))
         carina_service_url ].
Proof. vm_compute. reflexivity. Qed.

(** ** Strings *)

Lemma string_app_assoc (a b c : string) : (a ++ b) ++ c = a ++ b ++ c.
Proof. induction a as [| x a IH]; simpl; [reflexivity | now rewrite IH]. Qed.

Lemma list_ascii_of_string_app (a b : string) :
  list_ascii_of_string (a ++ b) =
  (list_ascii_of_string a ++ list_ascii_of_string b)%list.
Proof. induction a as [| x a IH]; simpl; [reflexivity | now rewrite IH]. Qed.

Lemma last_char_app (a b : string) (c : ascii) :
  last_char b = Some c -> last_char (a ++ b) = Some c.
Proof.
  unfold last_char. rewrite list_ascii_of_string_app, rev_app_distr.
  destruct (rev (list_ascii_of_string b)) as [| x l]; [discriminate |].
  simpl. auto.
Qed.

(** A statistics query is never mistaken for a listing. *)
Lemma stats_url_not_listing (layer_url : string) :
  ~ is_listing_url (stats_url layer_url).
Proof.
  intros [prefix H].
  assert (H1 : last_char (stats_url layer_url) = Some "1"%char).
  { unfold stats_url. apply last_char_app. vm_compute. reflexivity. }
  assert (H2 : last_char (prefix ++ "?f=json") = Some "n"%char).
  { apply last_char_app. reflexivity. }
  rewrite H, H2 in H1. discriminate.
Qed.

Lemma root_url_is_listing (config : configuration) :
  is_listing_url (root_url config).
Proof.
  exists (base_url config ++ "/" ++ folder config). unfold root_url.
  now rewrite !string_app_assoc.
Qed.

(** ** Fault isolation of the extent step *)

Section Isolation.

Variable repr : json -> string.
Variables parser1 parser2 : json -> string -> outcome (option datetime).
Variables http1 http2 : string -> outcome json.
Variable config : configuration.
Hypothesis same_listings : forall url, is_listing_url url -> http1 url = http2 url.

Lemma describe_same (su : string) (layers : list json) :
  same_walk (map_outcome (describe repr parser1 http1 su) layers)
            (map_outcome (describe repr parser2 http2 su) layers).
Proof.
  induction layers as [| layer rest IH]; simpl; [reflexivity |].
  unfold describe at 1 3.
  destruct (getitem_str layer "id") as [lid | e]; [| reflexivity].
  destruct (getitem_str layer "name") as [lname | e]; [| reflexivity].
  destruct (map_outcome (describe repr parser1 http1 su) rest) as [ds1 | e1];
    destruct (map_outcome (describe repr parser2 http2 su) rest) as [ds2 | e2];
    simpl in *; try contradiction; try assumption.
  unfold skeleton at 1 3. simpl. now rewrite IH.
Qed.

Lemma service_descriptors_same (service : json) :
  same_walk (service_descriptors repr parser1 http1 config service)
            (service_descriptors repr parser2 http2 config service).
Proof.
  unfold service_descriptors.
  destruct (service_url_of repr config service) as [su | e]; [| reflexivity].
  rewrite <- (same_listings (su ++ "?f=json")) by (exists su; reflexivity).
  destruct (http1 (su ++ "?f=json")) as [resp | e]; [| reflexivity].
  destruct (listed_layers resp) as [layers | e]; [| reflexivity].
  apply describe_same.
Qed.

Lemma services_same (services : list json) :
  match map_outcome (service_descriptors repr parser1 http1 config) services,
        map_outcome (service_descriptors repr parser2 http2 config) services with
  | Ok dss1, Ok dss2 => map skeleton (concat dss1) = map skeleton (concat dss2)
  | Error e1, Error e2 => e1 = e2
  | _, _ => False
  end.
Proof.
  induction services as [| service rest IH]; simpl; [reflexivity |].
  pose proof (service_descriptors_same service) as Hs.
  destruct (service_descriptors repr parser1 http1 config service) as [ds1 | e1];
    destruct (service_descriptors repr parser2 http2 config service) as [ds2 | e2];
    simpl in Hs; try contradiction; try assumption.
  destruct (map_outcome (service_descriptors repr parser1 http1 config) rest)
    as [dss1 | e1];
    destruct (map_outcome (service_descriptors repr parser2 http2 config) rest)
      as [dss2 | e2];
    try contradiction; try assumption.
  simpl. rewrite !map_app. now rewrite Hs, IH.
Qed.

Lemma get_layers_same :
  same_walk (result_of (get_layers repr parser1 http1 config))
            (result_of (get_layers repr parser2 http2 config)).
Proof.
  rewrite !get_layers_result. unfold listed_services.
  rewrite <- (same_listings (root_url config)) by apply root_url_is_listing.
  destruct (http1 (root_url config)) as [resp | e]; [| reflexivity].
  destruct (dict_get resp "services" (JArr [])) as [services | e]; [| reflexivity].
  destruct (py_iter services) as [l | e]; [| reflexivity].
  pose proof (services_same l) as H.
  destruct (map_outcome (service_descriptors repr parser1 http1 config) l);
    destruct (map_outcome (service_descriptors repr parser2 http2 config) l);
    exact H.
Qed.

End Isolation.

Lemma get_date_range_trace
    (parser : json -> string -> outcome (option datetime))
    (http : string -> outcome json) (layer_url : string) :
  get_date_range parser http layer_url =
  ([EvGet (stats_url layer_url)], result_of (get_date_range parser http layer_url)).
Proof. rewrite get_date_range_unfold. reflexivity. Qed.

Lemma ab_servers_same_listings (url : string) :
  is_listing_url url -> ab_server url = ab_server_no_stats url.
Proof.
  intros Hl. unfold ab_server, ab_server_no_stats, ab_listing. simpl.
  repeat match goal with
         | |- context [String.eqb url ?k] =>
             destruct (String.eqb url k) eqn:?; [reflexivity |]
         end.
  repeat match goal with
         | |- context [String.eqb url (stats_url ?u)] =>
             let Heq := fresh "Heq" in
             destruct (String.eqb url (stats_url u)) eqn:Heq;
             [ apply String.eqb_eq in Heq; subst url;
               exfalso; exact (stats_url_not_listing u Hl) | ]
         end.
  reflexivity.
Qed.

(** Every layer that has its two keys gets its descriptor, whatever the
    resolver does. *)
Lemma describe_resolved (repr : json -> string)
    (parser : json -> string -> outcome (option datetime))
    (http : string -> outcome json) (su : string) (layers : list json) :
  Forall layer_has_keys layers ->
  exists ds,
    map_outcome (describe repr parser http su) layers = Ok ds
    /\ Forall2 (resolved_descriptor repr parser http su) layers ds.
Proof.
  induction 1 as [| layer rest (lid & lname & Hid & Hname) _ (ds & Hds & HF)].
  - exists []. split; [reflexivity | constructor].
  - exists (mk_descriptor lid lname
              (ext_min_date (extent_of parser http (layer_url_of repr su lid)))
              (ext_max_date (extent_of parser http (layer_url_of repr su lid)))
              su :: ds).
    split.
    + cbn [map_outcome]. unfold describe at 1. now rewrite Hid, Hname, Hds.
    + constructor; [| exact HF].
      unfold resolved_descriptor.
      cbn [layer_id layer_name service_url min_date max_date].
      repeat (split; [assumption || reflexivity |]).
      unfold extent_of.
      destruct (result_of (get_date_range parser http (layer_url_of repr su lid)));
        split; reflexivity.
Qed.

Lemma service_descriptors_resolved (repr : json -> string)
    (parser : json -> string -> outcome (option datetime))
    (http : string -> outcome json) (config : configuration) (service : json) :
  listing_well_formed repr http config service ->
  exists ds,
    service_descriptors repr parser http config service = Ok ds
    /\ resolved_block repr parser http config service ds.
Proof.
  intros (su & resp & layers & Hsu & Hresp & Hlayers & Hkeys).
  destruct (describe_resolved repr parser http su layers Hkeys) as (ds & Hds & HF).
  exists ds. split.
  - unfold service_descriptors. now rewrite Hsu, Hresp, Hlayers.
  - exists su, resp, layers. auto.
Qed.

Lemma services_resolved (repr : json -> string)
    (parser : json -> string -> outcome (option datetime))
    (http : string -> outcome json) (config : configuration)
    (services : list json) :
  Forall (listing_well_formed repr http config) services ->
  exists blocks,
    map_outcome (service_descriptors repr parser http config) services = Ok blocks
    /\ Forall2 (resolved_block repr parser http config) services blocks.
Proof.
  induction 1 as [| service rest Hwf _ (blocks & Hblocks & HF)].
  - exists []. split; [reflexivity | constructor].
  - destruct (service_descriptors_resolved repr parser http config service Hwf)
      as (ds & Hds & Hblock).
    exists (ds :: blocks). split.
    + cbn [map_outcome]. now rewrite Hds, Hblocks.
    + now constructor.
Qed.

(** C3: when [get_date_range] raises for a layer, the iteration catches
    the error, prints the diagnostic and appends the layer's descriptor with
    both dates null.  Whenever the directory and the layer listings can be
    read, the walk returns, whatever the statistics queries do: its result
    holds, service by service and layer by layer in order, one descriptor
    per listed layer, with no date where [get_date_range] raised and with
    the dates it returned everywhere else.  And the way the walk ends, with
    the layers it reports, is the same for any two servers that answer the
    listing calls alike. *)
Theorem extent_failure_never_aborts_walk
    (repr : json -> string)
    (parser : json -> string -> outcome (option datetime))
    (http : string -> outcome json) (config : configuration) :
  (forall su results layer lid lname e,
     getitem_str layer "id" = Ok lid ->
     getitem_str layer "name" = Ok lname ->
     result_of (get_date_range parser http (layer_url_of repr su lid)) = Error e ->
     layer_step repr parser http su results layer =
     ([EvGet (stats_url (layer_url_of repr su lid));
       EvPrint (layer_url_of repr su lid) e],
      Ok (results ++ [mk_descriptor lid lname None None su])%list))
  /\ (forall services,
        listed_services http config = Ok services ->
        Forall (listing_well_formed repr http config) services ->
        exists blocks,
          result_of (get_layers repr parser http config) = Ok (concat blocks)
          /\ Forall2 (resolved_block repr parser http config) services blocks)
  /\ (forall parser' http',
        (forall url, is_listing_url url -> http url = http' url) ->
        same_walk (result_of (get_layers repr parser http config))
                  (result_of (get_layers repr parser' http' config))).
Proof.
  split; [| split].
  - intros su results layer lid lname e Hid Hname Herr.
    unfold layer_step. rewrite Hid, bind_lift_ok, Hname, bind_lift_ok.
    rewrite get_date_range_trace, Herr. reflexivity.
  - intros services Hservices Hwf.
    destruct (services_resolved repr parser http config services Hwf)
      as (blocks & Hblocks & HF).
    exists blocks. split; [| exact HF].
    now rewrite get_layers_result, Hservices, Hblocks.
  - intros parser' http' Hsame. now apply get_layers_same.
Qed.

Lemma ab_listings_well_formed (http : string -> outcome json) :
  (forall url, is_listing_url url -> http url = ab_server url) ->
  Forall (listing_well_formed plain_repr http ab_config)
    [ JObj [("name", JStr "A"); ("type", JStr "MapServer")];
      JObj [("name", JStr "Empty"); ("type", JStr "MapServer")];
      JObj [("name", JStr "B"); ("type", JStr "FeatureServer")] ].
Proof.
  intros Hsame.
  assert (Hkeys : forall n name,
             layer_has_keys (JObj [("id", JInt n); ("name", JStr name)])).
  { intros n name. exists (JInt n), (JStr name). split; reflexivity. }
  repeat constructor.
  - exists "http://gis/A/MapServer". do 2 eexists.
    split; [reflexivity |]. split.
    + rewrite Hsame by (exists "http://gis/A/MapServer"; reflexivity). reflexivity.
    + split; [reflexivity |]. repeat constructor; apply Hkeys.
  - exists "http://gis/Empty/MapServer". do 2 eexists.
    split; [reflexivity |]. split.
    + rewrite Hsame by (exists "http://gis/Empty/MapServer"; reflexivity). reflexivity.
    + split; [reflexivity |]. constructor.
  - exists "http://gis/B/FeatureServer". do 2 eexists.
    split; [reflexivity |]. split.
    + rewrite Hsame by (exists "http://gis/B/FeatureServer"; reflexivity). reflexivity.
    + split; [reflexivity |]. repeat constructor; apply Hkeys.
Qed.

Lemma extent_failure_never_aborts_walk_witness :
  layer_step plain_repr parse_date ab_server "http://gis/A/MapServer" []
    (JObj [("id", JInt 1); ("name", JStr "alpha")]) =
  ([EvGet (stats_url "http://gis/A/MapServer/1");
    EvPrint "http://gis/A/MapServer/1" IndexError],
   Ok [mk_descriptor (JInt 1) (JStr "alpha") None None "http://gis/A/MapServer"])
  /\ (exists blocks,
        result_of (get_layers plain_repr parse_date ab_server ab_config) =
          Ok (concat blocks)
        /\ Forall2 (resolved_block plain_repr parse_date ab_server ab_config)
             [ JObj [("name", JStr "A"); ("type", JStr "MapServer")];
               JObj [("name", JStr "Empty"); ("type", JStr "MapServer")];
               JObj [("name", JStr "B"); ("type", JStr "FeatureServer")] ]
             blocks)
  /\ same_walk (result_of (get_layers plain_repr parse_date ab_server ab_config))
               (result_of (get_layers plain_repr parse_date ab_server_no_stats ab_config)).
Proof.
  destruct (extent_failure_never_aborts_walk plain_repr parse_date ab_server ab_config)
    as (Hstep & Hwalk & Hsame).
  split; [| split].
  - apply (Hstep "http://gis/A/MapServer" [] (JObj [("id", JInt 1); ("name", JStr "alpha")])
             (JInt 1) (JStr "alpha") IndexError); reflexivity.
  - apply Hwalk; [reflexivity |].
    apply ab_listings_well_formed. intros url _. reflexivity.
  - apply (Hsame parse_date ab_server_no_stats). exact ab_servers_same_listings.
Defined.

(** With every statistics query failing, the walk still returns the three
    layers of the directory, none with a date. *)
Example walk_without_statistics :
  result_of (get_layers plain_repr parse_date ab_server_no_stats ab_config) =
  Ok [ mk_descriptor (JInt 0) (JStr "zulu") None None "http://gis/A/MapServer";
       mk_descriptor (JInt 1) (JStr "alpha") None None "http://gis/A/MapServer";
       mk_descriptor (JInt 0) (JStr "mike") None None "http://gis/B/FeatureServer" ].
Proof. vm_compute. reflexivity. Qed.

(** ** The date parser *)

Lemma digit_of_digit_char (n : nat) : n < 10 -> digit_of (digit_char n) = Some n.
Proof.
  intros Hn. unfold digit_of, digit_char.
  rewrite nat_ascii_embedding by lia.
  replace (Nat.leb 48 (48 + n)) with true by (symmetry; apply Nat.leb_le; lia).
  replace (Nat.leb (48 + n) 57) with true by (symmetry; apply Nat.leb_le; lia).
  simpl andb. cbv iota. f_equal. lia.
Qed.

Lemma digit_of_inv (c : ascii) (n : nat) :
  digit_of c = Some n -> n < 10 /\ c = digit_char n.
Proof.
  unfold digit_of, digit_char.
  destruct (Nat.leb 48 (nat_of_ascii c)) eqn:Hlo; [| discriminate].
  destruct (Nat.leb (nat_of_ascii c) 57) eqn:Hhi; [| discriminate].
  cbn [andb]. intros H. inversion H; subst n.
  apply Nat.leb_le in Hlo, Hhi. split; [lia |].
  replace (48 + (nat_of_ascii c - 48)) with (nat_of_ascii c) by lia.
  now rewrite ascii_nat_embedding.
Qed.

Lemma take_digits_step (n acc : nat) (c : ascii) (rest : string) :
  take_digits (S n) acc (String c rest) =
  match digit_of c with
  | Some d => take_digits n (10 * acc + d) rest
  | None => None
  end.
Proof. reflexivity. Qed.

Lemma take_digits_2_inv (s rest : string) (v : nat) :
  take_digits 2 0 s = Some (v, rest) -> v < 100 /\ s = pad2 v ++ rest.
Proof.
  destruct s as [| c1 [| c2 r]]; try discriminate.
  - rewrite take_digits_step. destruct (digit_of c1); discriminate.
  - rewrite take_digits_step.
    destruct (digit_of c1) as [d1 |] eqn:E1; [| discriminate].
    rewrite take_digits_step.
    destruct (digit_of c2) as [d2 |] eqn:E2; [| discriminate].
    cbn [take_digits]. intros H. injection H as Hv Hrest. subst rest.
    apply digit_of_inv in E1 as [H1 ->], E2 as [H2 ->].
    assert (Hq : v / 10 = d1) by lia.
    assert (Hm : v mod 10 = d2) by lia.
    split; [lia |]. unfold pad2. now rewrite Hq, Hm.
Qed.

Lemma take_digits_2_pad2 (v : nat) (rest : string) :
  v < 100 -> take_digits 2 0 (pad2 v ++ rest) = Some (v, rest).
Proof.
  intros Hv. unfold pad2.
  change (String ?a (String ?b EmptyString) ++ rest)
    with (String a (String b rest)).
  assert (Hq : v / 10 < 10) by lia.
  assert (Hr : v mod 10 < 10) by lia.
  rewrite take_digits_step, (digit_of_digit_char _ Hq).
  rewrite take_digits_step, (digit_of_digit_char _ Hr).
  cbn [take_digits]. do 2 f_equal. lia.
Qed.

Lemma take_digits_4_inv (s rest : string) (v : nat) :
  take_digits 4 0 s = Some (v, rest) -> v / 100 <= 99 /\ s = pad4 v ++ rest.
Proof.
  destruct s as [| c1 [| c2 [| c3 [| c4 r]]]]; try discriminate;
    repeat (rewrite take_digits_step;
            match goal with
            | |- context [digit_of ?c] =>
                let d := fresh "d" in
                let E := fresh "E" in
                destruct (digit_of c) as [d |] eqn:E; [| discriminate]
            end);
    try discriminate.
  cbn [take_digits]. intros H. injection H as Hv Hrest. subst rest.
  apply digit_of_inv in E as [H1 ->], E0 as [H2 ->], E1 as [H3 ->], E2 as [H4 ->].
  assert (Ha : v / 1000 = d) by lia.
  assert (Hb : (v / 100) mod 10 = d0) by lia.
  assert (Hc : (v mod 100) / 10 = d1) by lia.
  assert (Hd : (v mod 100) mod 10 = d2) by lia.
  split; [lia |]. unfold pad4, pad2. now rewrite Ha, Hb, Hc, Hd.
Qed.

Lemma take_digits_4_pad4 (v : nat) (rest : string) :
  v / 100 <= 99 -> take_digits 4 0 (pad4 v ++ rest) = Some (v, rest).
Proof.
  intros Hv. unfold pad4, pad2.
  change (String ?a (String ?b (String ?c (String ?d EmptyString))) ++ rest)
    with (String a (String b (String c (String d rest)))).
  assert (Ha : v / 1000 < 10) by lia.
  assert (Hb : (v / 100) mod 10 < 10) by lia.
  assert (Hc : (v mod 100) / 10 < 10) by lia.
  assert (Hd : (v mod 100) mod 10 < 10) by lia.
  rewrite take_digits_step, (digit_of_digit_char _ Ha).
  rewrite take_digits_step, (digit_of_digit_char _ Hb).
  rewrite take_digits_step, (digit_of_digit_char _ Hc).
  rewrite take_digits_step, (digit_of_digit_char _ Hd).
  cbn [take_digits]. do 2 f_equal. lia.
Qed.

(** Digits, blanks and the letters of the meridiem are apart. *)

Lemma digit_of_not_space (c : ascii) (n : nat) :
  digit_of c = Some n -> is_space c = false.
Proof.
  intros H. apply digit_of_inv in H as [Hn ->].
  do 10 (destruct n as [| n]; [reflexivity |]). lia.
Qed.

Lemma space_not_digit (c : ascii) : is_space c = true -> digit_of c = None.
Proof.
  intros H. destruct (digit_of c) as [n |] eqn:E; [| reflexivity].
  apply digit_of_not_space in E. congruence.
Qed.

Lemma digit_of_not_blank (c : ascii) (n : nat) :
  digit_of c = Some n -> Ascii.eqb c " " = false.
Proof.
  intros H. apply digit_of_inv in H as [Hn ->].
  do 10 (destruct n as [| n]; [reflexivity |]). lia.
Qed.

Lemma pad2_digits (a b : nat) :
  a < 10 -> b < 10 ->
  pad2 (10 * a + b) = String (digit_char a) (String (digit_char b) EmptyString).
Proof.
  intros Ha Hb. unfold pad2.
  replace ((10 * a + b) / 10) with a by lia.
  replace ((10 * a + b) mod 10) with b by lia.
  reflexivity.
Qed.

(** ** Reading one field *)

Lemma read_short_app (t rest : string) (v : nat) :
  short_number t v -> starts_without_digit rest ->
  read_short (t ++ rest) = Some (v, rest).
Proof.
  intros [[Hv ->] | [Hv ->]] Hrest.
  - cbn [append]. unfold read_short. rewrite (digit_of_digit_char v Hv).
    destruct rest as [| c r]; [reflexivity |].
    cbn [starts_without_digit] in Hrest. now rewrite Hrest.
  - unfold pad2. cbn [append]. unfold read_short.
    rewrite digit_of_digit_char by lia.
    rewrite digit_of_digit_char by lia.
    do 2 f_equal. lia.
Qed.

Lemma read_short_inv (s rest : string) (v : nat) :
  read_short s = Some (v, rest) ->
  exists t, short_number t v /\ s = t ++ rest.
Proof.
  destruct s as [| c1 r1]; [discriminate |]. unfold read_short.
  destruct (digit_of c1) as [d1 |] eqn:E1; [| discriminate].
  apply digit_of_inv in E1 as [H1 ->].
  destruct r1 as [| c2 r2].
  - intros H. inversion H; subst v rest.
    exists (String (digit_char d1) EmptyString). split; [left; auto | reflexivity].
  - destruct (digit_of c2) as [d2 |] eqn:E2; intros H; inversion H; subst v rest.
    + apply digit_of_inv in E2 as [H2 ->].
      exists (String (digit_char d1) (String (digit_char d2) EmptyString)).
      split; [| reflexivity]. right. split; [lia |].
      symmetry. now apply pad2_digits.
    + exists (String (digit_char d1) EmptyString).
      split; [left; auto | reflexivity].
Qed.

Lemma short_number_first (t rest : string) (v : nat) :
  short_number t v ->
  exists c n r, t ++ rest = String c r /\ digit_of c = Some n.
Proof.
  intros [[Hv ->] | [Hv ->]].
  - exists (digit_char v), v, rest. split; [reflexivity |].
    now apply digit_of_digit_char.
  - unfold pad2. cbn [append]. do 3 eexists. split; [reflexivity |].
    apply digit_of_digit_char. lia.
Qed.

Lemma short_number_starts_without_space (t rest : string) (v : nat) :
  short_number t v -> starts_without_space (t ++ rest).
Proof.
  intros H. destruct (short_number_first t rest v H) as (c & n & r & -> & Hc).
  cbn [starts_without_space]. now apply digit_of_not_space in Hc.
Qed.

Lemma read_day_app (t rest : string) (v : nat) :
  day_number t v -> starts_without_digit rest ->
  read_day (t ++ rest) = Some (v, rest).
Proof.
  intros [Hs | [Hv ->]] Hrest.
  - destruct (short_number_first t rest v Hs) as (c & n & r & Heq & Hc).
    rewrite <- (read_short_app t rest v Hs Hrest). rewrite Heq.
    unfold read_day. now rewrite (digit_of_not_blank c n Hc).
  - cbn [append]. unfold read_day.
    replace (Ascii.eqb " " " ") with true by reflexivity.
    now rewrite (digit_of_digit_char v Hv).
Qed.

Lemma read_day_inv (s rest : string) (v : nat) :
  read_day s = Some (v, rest) ->
  exists t, day_number t v /\ s = t ++ rest.
Proof.
  destruct s as [| c1 r1]; [discriminate |]. unfold read_day.
  destruct (Ascii.eqb c1 " ") eqn:Eb.
  - apply Ascii.eqb_eq in Eb. subst c1.
    destruct r1 as [| c2 r2]; [discriminate |].
    destruct (digit_of c2) as [d |] eqn:E2; [| discriminate].
    apply digit_of_inv in E2 as [H2 ->].
    intros H. inversion H; subst v rest.
    exists (String " " (String (digit_char d) EmptyString)).
    split; [right; auto | reflexivity].
  - intros H. apply read_short_inv in H as (t & Ht & Heq).
    exists t. split; [left; exact Ht | exact Heq].
Qed.

Lemma read_year_app (t rest : string) (v : nat) :
  year_number t v -> take_digits 4 0 (t ++ rest) = Some (v, rest).
Proof. intros [Hv ->]. now apply take_digits_4_pad4. Qed.

Lemma read_year_inv (s rest : string) (v : nat) :
  take_digits 4 0 s = Some (v, rest) ->
  exists t, year_number t v /\ s = t ++ rest.
Proof.
  intros H. apply take_digits_4_inv in H as [Hv ->].
  exists (pad4 v). split; [split; auto | reflexivity].
Qed.

Lemma blank_inv (b : string) :
  blank b ->
  exists c b', b = String c b' /\ is_space c = true /\ all_spaces b' = true.
Proof.
  intros [Hne Hall]. destruct b as [| c b']; [congruence |].
  cbn [all_spaces] in Hall. apply andb_true_iff in Hall as [Hc Hb].
  eauto.
Qed.

Lemma blank_starts_without_digit (b rest : string) :
  blank b -> starts_without_digit (b ++ rest).
Proof.
  intros H. apply blank_inv in H as (c & b' & -> & Hc & _).
  cbn [append starts_without_digit]. now apply space_not_digit.
Qed.

Lemma skip_spaces_app (b rest : string) :
  all_spaces b = true -> starts_without_space rest ->
  skip_spaces (b ++ rest) = rest.
Proof.
  intros Hb Hrest. induction b as [| c b IH].
  - cbn [append]. destruct rest as [| c r]; [reflexivity |].
    cbn [starts_without_space] in Hrest. cbn [skip_spaces]. now rewrite Hrest.
  - cbn [all_spaces] in Hb. apply andb_true_iff in Hb as [Hc Hb].
    cbn [append skip_spaces]. rewrite Hc. now apply IH.
Qed.

Lemma skip_spaces_split (r : string) :
  exists b, all_spaces b = true /\ r = b ++ skip_spaces r.
Proof.
  induction r as [| c r (b & Hb & Heq)].
  - exists EmptyString. split; reflexivity.
  - cbn [skip_spaces]. destruct (is_space c) eqn:Hc.
    + exists (String c b). split.
      * cbn [all_spaces]. now rewrite Hc, Hb.
      * cbn [append]. now rewrite <- Heq.
    + exists EmptyString. split; reflexivity.
Qed.

Lemma read_meridiem_app (p rest : string) (pm : bool) :
  meridiem_text p pm -> read_meridiem (p ++ rest) = Some (pm, rest).
Proof.
  unfold meridiem_text. destruct pm; cbn [In];
    intros [<- | [<- | [<- | [<- | []]]]]; reflexivity.
Qed.

Lemma meridiem_starts_without_space (p rest : string) (pm : bool) :
  meridiem_text p pm -> starts_without_space (p ++ rest).
Proof.
  unfold meridiem_text. destruct pm; cbn [In];
    intros [<- | [<- | [<- | [<- | []]]]]; reflexivity.
Qed.

Lemma read_meridiem_inv (s rest : string) (pm : bool) :
  read_meridiem s = Some (pm, rest) ->
  exists p, meridiem_text p pm /\ s = p ++ rest.
Proof.
  destruct s as [| a [| m r]]; try discriminate. unfold read_meridiem.
  assert (Hm : (Ascii.eqb m "M" || Ascii.eqb m "m") = true ->
               m = "M"%char \/ m = "m"%char).
  { intros H. apply orb_true_iff in H as [H | H];
      apply Ascii.eqb_eq in H; auto. }
  destruct (Ascii.eqb m "M" || Ascii.eqb m "m"); [| discriminate].
  specialize (Hm eq_refl).
  destruct (Ascii.eqb a "A" || Ascii.eqb a "a") eqn:Ea.
  - intros H. inversion H; subst pm rest.
    exists (String a (String m EmptyString)). split; [| reflexivity].
    apply orb_true_iff in Ea as [Ea | Ea]; apply Ascii.eqb_eq in Ea; subst a;
      destruct Hm as [-> | ->]; cbn; tauto.
  - destruct (Ascii.eqb a "P" || Ascii.eqb a "p") eqn:Ep; [| discriminate].
    intros H. inversion H; subst pm rest.
    exists (String a (String m EmptyString)). split; [| reflexivity].
    apply orb_true_iff in Ep as [Ep | Ep]; apply Ascii.eqb_eq in Ep; subst a;
      destruct Hm as [-> | ->]; cbn; tauto.
Qed.

(** ** How [scan] consumes each kind of format item *)

Lemma scan_literal (c : ascii) (fmt s : string) (f : fields) :
  Ascii.eqb c "%" = false -> is_space c = false ->
  scan (String c fmt) s f =
  match s with
  | String c' rest => if Ascii.eqb c c' then scan fmt rest f else None
  | EmptyString => None
  end.
Proof. intros H1 H2. cbn [scan]. now rewrite H1, H2. Qed.

Lemma scan_blank (fmt s : string) (f : fields) :
  scan (String " " fmt) s f =
  match s with
  | String c' rest => if is_space c' then scan fmt (skip_spaces rest) f else None
  | EmptyString => None
  end.
Proof. reflexivity. Qed.

Lemma scan_number (d : ascii) (fmt s : string) (f : fields) :
  Ascii.eqb d "p" = false ->
  scan (String "%" (String d fmt)) s f =
  match read_field d s with
  | Some (v, rest) => scan fmt rest (set_field d v f)
  | None => None
  end.
Proof.
  intros Hp. cbn [scan]. rewrite Hp.
  replace (Ascii.eqb "%" "%") with true by reflexivity. reflexivity.
Qed.

Lemma scan_meridiem (fmt s : string) (f : fields) :
  scan (String "%" (String "p" fmt)) s f =
  match read_meridiem s with
  | Some (pm, rest) => scan fmt rest (set_pm pm f)
  | None => None
  end.
Proof. reflexivity. Qed.

(** Forwards: a text that begins with what the item stands for. *)

Lemma scan_literal_app (c : ascii) (fmt rest : string) (f : fields) :
  Ascii.eqb c "%" = false -> is_space c = false ->
  scan (String c fmt) (String c EmptyString ++ rest) f = scan fmt rest f.
Proof.
  intros H1 H2. rewrite scan_literal by assumption.
  cbn [append]. now rewrite Ascii.eqb_refl.
Qed.

Lemma scan_short_app (d : ascii) (fmt t rest : string) (v : nat) (f : fields) :
  Ascii.eqb d "p" = false ->
  (forall x, read_field d x = read_short x) ->
  short_number t v -> starts_without_digit rest ->
  scan (String "%" (String d fmt)) (t ++ rest) f = scan fmt rest (set_field d v f).
Proof.
  intros Hp Hd Ht Hrest. rewrite scan_number by assumption.
  now rewrite Hd, (read_short_app t rest v Ht Hrest).
Qed.

Lemma scan_day_app (fmt t rest : string) (v : nat) (f : fields) :
  day_number t v -> starts_without_digit rest ->
  scan (String "%" (String "d" fmt)) (t ++ rest) f = scan fmt rest (set_field "d" v f).
Proof.
  intros Ht Hrest. rewrite scan_number by reflexivity.
  change (read_field "d" (t ++ rest)) with (read_day (t ++ rest)).
  now rewrite (read_day_app t rest v Ht Hrest).
Qed.

Lemma scan_year_app (fmt t rest : string) (v : nat) (f : fields) :
  year_number t v ->
  scan (String "%" (String "Y" fmt)) (t ++ rest) f = scan fmt rest (set_field "Y" v f).
Proof.
  intros Ht. rewrite scan_number by reflexivity.
  change (read_field "Y" (t ++ rest)) with (take_digits 4 0 (t ++ rest)).
  now rewrite (read_year_app t rest v Ht).
Qed.

Lemma scan_blank_app (fmt b rest : string) (f : fields) :
  blank b -> starts_without_space rest ->
  scan (String " " fmt) (b ++ rest) f = scan fmt rest f.
Proof.
  intros Hb Hrest. apply blank_inv in Hb as (c & b' & -> & Hc & Hb').
  rewrite scan_blank. cbn [append]. rewrite Hc.
  now rewrite (skip_spaces_app b' rest Hb' Hrest).
Qed.

Lemma scan_meridiem_app (fmt p rest : string) (pm : bool) (f : fields) :
  meridiem_text p pm ->
  scan (String "%" (String "p" fmt)) (p ++ rest) f = scan fmt rest (set_pm pm f).
Proof.
  intros Hp. rewrite scan_meridiem. now rewrite (read_meridiem_app p rest pm Hp).
Qed.

(** Backwards: what a successful step has consumed. *)

Lemma scan_literal_inv (c : ascii) (fmt s : string) (f g : fields) :
  Ascii.eqb c "%" = false -> is_space c = false ->
  scan (String c fmt) s f = Some g ->
  exists rest, s = String c EmptyString ++ rest /\ scan fmt rest f = Some g.
Proof.
  intros H1 H2. rewrite scan_literal by assumption.
  destruct s as [| c' rest]; [discriminate |].
  destruct (Ascii.eqb c c') eqn:E; [| discriminate].
  apply Ascii.eqb_eq in E. subst c'. intros H. exists rest. auto.
Qed.

Lemma scan_short_inv (d : ascii) (fmt s : string) (f g : fields) :
  Ascii.eqb d "p" = false ->
  (forall x, read_field d x = read_short x) ->
  scan (String "%" (String d fmt)) s f = Some g ->
  exists t v rest,
    short_number t v /\ s = t ++ rest /\ scan fmt rest (set_field d v f) = Some g.
Proof.
  intros Hp Hd. rewrite scan_number by assumption. rewrite Hd.
  destruct (read_short s) as [[v rest] |] eqn:E; [| discriminate].
  intros H. apply read_short_inv in E as (t & Ht & Heq).
  exists t, v, rest. auto.
Qed.

Lemma scan_day_inv (fmt s : string) (f g : fields) :
  scan (String "%" (String "d" fmt)) s f = Some g ->
  exists t v rest,
    day_number t v /\ s = t ++ rest /\ scan fmt rest (set_field "d" v f) = Some g.
Proof.
  rewrite scan_number by reflexivity.
  change (read_field "d" s) with (read_day s).
  destruct (read_day s) as [[v rest] |] eqn:E; [| discriminate].
  intros H. apply read_day_inv in E as (t & Ht & Heq).
  exists t, v, rest. auto.
Qed.

Lemma scan_year_inv (fmt s : string) (f g : fields) :
  scan (String "%" (String "Y" fmt)) s f = Some g ->
  exists t v rest,
    year_number t v /\ s = t ++ rest /\ scan fmt rest (set_field "Y" v f) = Some g.
Proof.
  rewrite scan_number by reflexivity.
  change (read_field "Y" s) with (take_digits 4 0 s).
  destruct (take_digits 4 0 s) as [[v rest] |] eqn:E; [| discriminate].
  intros H. apply read_year_inv in E as (t & Ht & Heq).
  exists t, v, rest. auto.
Qed.

Lemma scan_blank_inv (fmt s : string) (f g : fields) :
  scan (String " " fmt) s f = Some g ->
  exists b rest, blank b /\ s = b ++ rest /\ scan fmt rest f = Some g.
Proof.
  rewrite scan_blank. destruct s as [| c r]; [discriminate |].
  destruct (is_space c) eqn:Hc; [| discriminate].
  intros H. destruct (skip_spaces_split r) as (b & Hb & Heq).
  exists (String c b), (skip_spaces r). split; [| split].
  - split; [discriminate |]. cbn [all_spaces]. now rewrite Hc, Hb.
  - cbn [append]. now rewrite <- Heq.
  - exact H.
Qed.

Lemma scan_meridiem_inv (fmt s : string) (f g : fields) :
  scan (String "%" (String "p" fmt)) s f = Some g ->
  exists p pm rest,
    meridiem_text p pm /\ s = p ++ rest /\ scan fmt rest (set_pm pm f) = Some g.
Proof.
  rewrite scan_meridiem.
  destruct (read_meridiem s) as [[pm rest] |] eqn:E; [| discriminate].
  intros H. apply read_meridiem_inv in E as (p & Hp & Heq).
  exists p, pm, rest. auto.
Qed.

Lemma scan_end_inv (s : string) (f g : fields) :
  scan EmptyString s f = Some g -> s = EmptyString /\ g = f.
Proof. destruct s; [| discriminate]. intros H. inversion H. auto. Qed.

Lemma append_empty (s : string) : s ++ EmptyString = s.
Proof. induction s as [| c s IH]; [reflexivity |]. cbn [append]. now rewrite IH. Qed.

(** ** The fixed format *)

(** A text that [scan] accepts under the fixed format is written in it,
    with the numbers [scan] has read. *)
Lemma scan_date_fmt_sound (s : string) (f : fields) :
  scan date_fmt s default_fields = Some f -> reads_as s f.
Proof.
  unfold date_fmt. intros H.
  apply scan_short_inv in H as (m & vm & r1 & Hm & -> & H);
    [| reflexivity | intros; reflexivity].
  apply scan_literal_inv in H as (r2 & -> & H); [| reflexivity ..].
  apply scan_day_inv in H as (d & vd & r3 & Hd & -> & H).
  apply scan_literal_inv in H as (r4 & -> & H); [| reflexivity ..].
  apply scan_year_inv in H as (y & vy & r5 & Hy & -> & H).
  apply scan_blank_inv in H as (b1 & r6 & Hb1 & -> & H).
  apply scan_short_inv in H as (h & vh & r7 & Hh & -> & H);
    [| reflexivity | intros; reflexivity].
  apply scan_literal_inv in H as (r8 & -> & H); [| reflexivity ..].
  apply scan_short_inv in H as (mi & vmi & r9 & Hmi & -> & H);
    [| reflexivity | intros; reflexivity].
  apply scan_literal_inv in H as (r10 & -> & H); [| reflexivity ..].
  apply scan_short_inv in H as (se & vse & r11 & Hse & -> & H);
    [| reflexivity | intros; reflexivity].
  apply scan_blank_inv in H as (b2 & r12 & Hb2 & -> & H).
  apply scan_meridiem_inv in H as (p & pm & r13 & Hp & -> & H).
  apply scan_end_inv in H as [-> ->].
  exists m, d, y, b1, h, mi, se, b2, p.
  rewrite append_empty. split; [reflexivity |].
  cbn [set_pm set_field default_fields f_year f_month f_day f_hour12 f_minute
       f_second f_pm Ascii.eqb Bool.eqb].
  tauto.
Qed.

(** A text written in the fixed format is accepted, and [scan] reads the
    numbers it writes. *)
Lemma scan_date_fmt_complete (s : string) (f : fields) :
  reads_as s f -> scan date_fmt s default_fields = Some f.
Proof.
  intros (m & d & y & b1 & h & mi & se & b2 & p & -> & Hm & Hd & Hy & Hb1
          & Hh & Hmi & Hse & Hb2 & Hp).
  unfold date_fmt.
  rewrite (scan_short_app "m" _ m _ (f_month f));
    [| reflexivity | intros; reflexivity | exact Hm | exact eq_refl].
  rewrite scan_literal_app by reflexivity.
  rewrite (scan_day_app _ d _ (f_day f)); [| exact Hd | exact eq_refl].
  rewrite scan_literal_app by reflexivity.
  rewrite (scan_year_app _ y _ (f_year f)) by exact Hy.
  rewrite scan_blank_app;
    [| exact Hb1 | now apply (short_number_starts_without_space h _ (f_hour12 f))].
  rewrite (scan_short_app "I" _ h _ (f_hour12 f));
    [| reflexivity | intros; reflexivity | exact Hh | exact eq_refl].
  rewrite scan_literal_app by reflexivity.
  rewrite (scan_short_app "M" _ mi _ (f_minute f));
    [| reflexivity | intros; reflexivity | exact Hmi | exact eq_refl].
  rewrite scan_literal_app by reflexivity.
  rewrite (scan_short_app "S" _ se _ (f_second f));
    [| reflexivity | intros; reflexivity | exact Hse
     | now apply blank_starts_without_digit].
  rewrite scan_blank_app;
    [| exact Hb2 | rewrite <- (append_empty p);
                   now apply (meridiem_starts_without_space p _ (f_pm f))].
  rewrite <- (append_empty p).
  rewrite (scan_meridiem_app _ p _ (f_pm f)) by exact Hp.
  now destruct f.
Qed.

Lemma days_in_month_le (y m : nat) : days_in_month y m <= 31.
Proof.
  unfold days_in_month.
  do 12 (destruct m as [| m]; [try destruct (leap_year y); lia |]). lia.
Qed.

Lemma valid_fields_spec (f : fields) :
  valid_fields f = true <->
  1 <= f_year f /\ 1 <= f_month f <= 12
  /\ 1 <= f_day f <= days_in_month (f_year f) (f_month f)
  /\ 1 <= f_hour12 f <= 12 /\ f_minute f <= 59 /\ f_second f <= 59.
Proof.
  unfold valid_fields. rewrite !andb_true_iff, !Nat.leb_le. tauto.
Qed.

(** The texts that parse are those written in the format that name a real
    date and time, and they parse to the timestamp they name. *)
Lemma strptime_iff (s : string) (d : datetime) :
  strptime s date_fmt = Some d <->
  exists f, reads_as s f /\ valid_fields f = true /\ d = datetime_of_fields f.
Proof.
  unfold strptime. split.
  - destruct (scan date_fmt s default_fields) as [f |] eqn:Hscan; [| discriminate].
    destruct (valid_fields f) eqn:Hvalid; [| discriminate].
    intros H. inversion H; subst d.
    exists f. split; [now apply scan_date_fmt_sound | auto].
  - intros (f & Hr & Hv & ->).
    now rewrite (scan_date_fmt_complete s f Hr), Hv.
Qed.

Lemma parse_date_never_null (raw : json) (fmt : string) :
  parse_date raw fmt <> Ok None.
Proof.
  destruct raw; cbn [parse_date]; try discriminate.
  destruct (strptime s fmt); discriminate.
Qed.


Lemma parse_date_in_format (s : string) (f : fields) :
  reads_as s f -> valid_fields f = true ->
  parse_date (JStr s) date_fmt = Ok (Some (datetime_of_fields f)).
Proof.
  intros Hr Hv. cbn [parse_date].
  assert (H : strptime s date_fmt = Some (datetime_of_fields f)).
  { apply strptime_iff. exists f. auto. }
  now rewrite H.
Qed.

Lemma parse_date_some_inv (raw : json) (d : datetime) :
  parse_date raw date_fmt = Ok (Some d) -> in_format raw.
Proof.
  destruct raw; cbn [parse_date]; try discriminate.
  destruct (strptime s date_fmt) as [d' |] eqn:Hs; [| discriminate].
  intros _. apply strptime_iff in Hs as (f & Hr & Hv & _).
  exists s, f. auto.
Qed.

Lemma parse_date_not_in_format (raw : json) :
  ~ in_format raw -> exists e, parse_date raw date_fmt = Error e.
Proof.
  intros Hfmt.
  destruct (parse_date raw date_fmt) as [[d |] | e] eqn:Hp; [| | eauto].
  - exfalso. apply Hfmt. now apply (parse_date_some_inv raw d).
  - exfalso. now apply (parse_date_never_null raw date_fmt).
Qed.

Lemma iso_date_not_in_format : ~ in_format (JStr "2024-07-24").
Proof.
  intros (s & f & Heq & Hr & _). inversion Heq; subst s.
  apply scan_date_fmt_complete in Hr. vm_compute in Hr. discriminate.
Qed.

Lemma lenient_text_reads :
  reads_as "7/24/2024  4:05:00 pm" (mk_fields 2024 7 24 4 5 0 true).
Proof.
  exists "7", "24", "2024", "  ", "4", "05", "00", " ", "pm".
  split; [reflexivity |].
  split; [left; split; [cbn; lia | reflexivity] |].
  split; [left; right; split; [cbn; lia | reflexivity] |].
  split; [split; [cbn; lia | reflexivity] |].
  split; [split; [discriminate | reflexivity] |].
  split; [left; split; [cbn; lia | reflexivity] |].
  split; [right; split; [cbn; lia | reflexivity] |].
  split; [right; split; [cbn; lia | reflexivity] |].
  split; [split; [discriminate | reflexivity] |].
  cbn. tauto.
Qed.

(** C7: the parser reads the one format month/day/year, 12-hour time and
    meridiem.  The text "07/24/2024 04:00:00 AM" gives 2024-07-24T04:00:00
    UTC; every text written in the format that names a real date and time
    gives the timestamp it names; a raw value that is not such a text (ASCII
    when it is a text) raises instead of giving a value; and such a value on
    either bound makes [get_date_range] raise after its one request. *)
Theorem parse_date_is_format_exact :
  parse_date (JStr "07/24/2024 04:00:00 AM") date_fmt =
    Ok (Some (mk_datetime 2024 7 24 4 0 0))
  /\ (forall s f, reads_as s f -> valid_fields f = true ->
        parse_date (JStr s) date_fmt = Ok (Some (datetime_of_fields f)))
  /\ (forall raw, ascii_value raw -> ~ in_format raw ->
        exists e, parse_date raw date_fmt = Error e)
  /\ (forall http layer_url raw_min raw_max,
        raw_bounds http layer_url = Ok (raw_min, raw_max) ->
        (ascii_value raw_min /\ ~ in_format raw_min)
        \/ (ascii_value raw_max /\ ~ in_format raw_max) ->
        exists e,
          get_date_range parse_date http layer_url =
          ([EvGet (stats_url layer_url)], Error e)).
Proof.
  split; [reflexivity |]. split; [| split].
  - exact parse_date_in_format.
  - intros raw _. apply parse_date_not_in_format.
  - intros http layer_url raw_min raw_max Hraw Hbad.
    rewrite get_date_range_unfold, Hraw.
    destruct Hbad as [[_ Hf] | [_ Hf]];
      destruct (parse_date_not_in_format _ Hf) as [e He].
    + rewrite He. eauto.
    + rewrite He. destruct (parse_date raw_min date_fmt); eauto.
Qed.

Lemma parse_date_is_format_exact_witness :
  (exists e, parse_date (JStr "2024-07-24") date_fmt = Error e)
  /\ (exists e,
        get_date_range parse_date iso_server "http://gis/S/MapServer/0" =
        ([EvGet (stats_url "http://gis/S/MapServer/0")], Error e))
  /\ parse_date (JStr "7/24/2024  4:05:00 pm") date_fmt =
       Ok (Some (mk_datetime 2024 7 24 16 5 0)).
Proof.
  assert (Hascii : ascii_value (JStr "2024-07-24")).
  { intros s Hs. inversion Hs. reflexivity. }
  destruct parse_date_is_format_exact as (_ & Hin & Hraise & Hrange).
  split; [| split].
  - apply Hraise; [exact Hascii | exact iso_date_not_in_format].
  - apply (Hrange iso_server "http://gis/S/MapServer/0"
             (JStr "2024-07-24") (JStr "08/05/2024 04:00:00 AM")).
    + reflexivity.
    + left. split; [exact Hascii | exact iso_date_not_in_format].
  - apply (Hin "7/24/2024  4:05:00 pm" (mk_fields 2024 7 24 4 5 0 true)).
    + exact lenient_text_reads.
    + reflexivity.
Defined.

(** Texts the format takes although they are not zero-padded, upper-case
    or singly spaced, and texts it refuses. *)
Example parse_date_takes_unpadded_text :
  parse_date (JStr "7/4/2024 4:00:00 am") date_fmt =
  Ok (Some (mk_datetime 2024 7 4 4 0 0)).
Proof. reflexivity. Qed.

Example parse_date_refuses_hour_13 :
  parse_date (JStr "07/24/2024 13:00:00 PM") date_fmt =
  Error (ValueError "07/24/2024 13:00:00 PM").
Proof. reflexivity. Qed.

Example parse_date_refuses_number :
  parse_date (JInt 1722830400000) date_fmt = Error TypeError.
Proof. reflexivity. Qed.

(** ** Null bounds *)

Lemma raw_bounds_of_attributes (http : string -> outcome json)
    (layer_url : string) (items : list (string * json)) :
  attributes_of http layer_url = Ok (JObj items) ->
  raw_bounds http layer_url =
  Ok (raw_value items "min_date", raw_value items "max_date").
Proof.
  intros H. unfold raw_bounds, raw_value. rewrite H. simpl.
  destruct (dict_lookup "min_date" items);
    destruct (dict_lookup "max_date" items); reflexivity.
Qed.





(** The walk over that row stores no date for the layer. *)
Example partial_row_gives_no_date :
  result_of (get_layers plain_repr parse_date partial_server ab_config) =
  Ok [mk_descriptor (JInt 0) (JStr "L") None None "http://gis/S/MapServer"].
Proof. vm_compute. reflexivity. Qed.

(** ** Pairing of the two dates *)

(** With a parser that never answers null (one that raises on a null raw
    value instead), the two dates of every descriptor are paired. *)
Lemma dates_paired_when_parser_never_null
    (repr : json -> string)
    (parser : json -> string -> outcome (option datetime))
    (http : string -> outcome json) (config : configuration)
    (rs : list descriptor) (d : descriptor) :
  (forall raw fmt, parser raw fmt <> Ok None) ->
  result_of (get_layers repr parser http config) = Ok rs ->
  In d rs ->
  (min_date d = None <-> max_date d = None).
Proof.
  intros Hnever Hrs Hin.
  pose proof (get_layers_extent repr parser http config rs d Hrs Hin) as Hext.
  rewrite extent_of_unfold in Hext.
  destruct d as [lid lname dmin dmax su].
  cbn [min_date max_date service_url layer_id] in *.
  destruct (raw_bounds http _) as [[raw_min raw_max] | e];
    [| inversion Hext; tauto].
  destruct (parser raw_min date_fmt) as [a |] eqn:Ha;
    [| inversion Hext; tauto].
  destruct (parser raw_max date_fmt) as [b |] eqn:Hb;
    [| inversion Hext; tauto].
  inversion Hext; subst dmin dmax.
  destruct a as [a |]; [| now apply Hnever in Ha].
  destruct b as [b |]; [| now apply Hnever in Hb].
  split; discriminate.
Qed.

(** C1: for every descriptor [get_layers] returns, the two dates are both
    timestamps or both null, never exactly one of them; and a failed
    statistics request, a missing row or a parse failure on either bound
    leaves both null. *)
Theorem dates_are_paired
    (repr : json -> string) (http : string -> outcome json)
    (config : configuration) (rs : list descriptor) (d : descriptor) :
  result_of (get_layers repr parse_date http config) = Ok rs ->
  In d rs ->
  ((min_date d = None /\ max_date d = None)
   \/ (exists a b, min_date d = Some a /\ max_date d = Some b))
  /\ match raw_bounds http (layer_url_of repr (service_url d) (layer_id d)) with
     | Ok (raw_min, raw_max) =>
         (exists e, parse_date raw_min date_fmt = Error e)
         \/ (exists e, parse_date raw_max date_fmt = Error e) ->
         min_date d = None /\ max_date d = None
     | Error _ => min_date d = None /\ max_date d = None
     end.
Proof.
  intros Hrs Hin. split.
  - pose proof (dates_paired_when_parser_never_null repr parse_date http config
                  rs d parse_date_never_null Hrs Hin) as Hiff.
    destruct (min_date d) as [a |], (max_date d) as [b |].
    + right. eauto.
    + exfalso. assert (H : Some a = None) by now apply Hiff. discriminate.
    + exfalso. assert (H : Some b = None) by now apply Hiff. discriminate.
    + left. auto.
  - pose proof (get_layers_extent repr parse_date http config rs d Hrs Hin) as Hext.
    rewrite extent_of_unfold in Hext.
    destruct d as [lid lname dmin dmax su].
    cbn [min_date max_date service_url layer_id] in *.
    destruct (raw_bounds http _) as [[raw_min raw_max] | e].
    + intros [[e He] | [e He]]; rewrite He in Hext.
      * inversion Hext. auto.
      * destruct (parse_date raw_min date_fmt); inversion Hext; auto.
    + inversion Hext. auto.
Qed.

Lemma dates_are_paired_witness :
  let d := mk_descriptor (JInt 0) (JStr "L") None None "http://gis/S/MapServer" in
  ((min_date d = None /\ max_date d = None)
   \/ (exists a b, min_date d = Some a /\ max_date d = Some b))
  /\ match raw_bounds partial_server
             (layer_url_of plain_repr (service_url d) (layer_id d)) with
     | Ok (raw_min, raw_max) =>
         (exists e, parse_date raw_min date_fmt = Error e)
         \/ (exists e, parse_date raw_max date_fmt = Error e) ->
         min_date d = None /\ max_date d = None
     | Error _ => min_date d = None /\ max_date d = None
     end.
Proof.
  intros d.
  apply (dates_are_paired plain_repr partial_server ab_config [d] d).
  - vm_compute. reflexivity.
  - left. reflexivity.
Defined.

(** On the two-service fixture every descriptor has both dates or none. *)
Example ab_dates_are_paired :
  forall rs d,
    result_of (get_layers plain_repr parse_date ab_server ab_config) = Ok rs ->
    In d rs ->
    (min_date d = None /\ max_date d = None)
    \/ (exists a b, min_date d = Some a /\ max_date d = Some b).
Proof.
  intros rs d Hrs Hin.
  pose proof (dates_paired_when_parser_never_null plain_repr parse_date ab_server
                ab_config rs d parse_date_never_null Hrs Hin) as Hiff.
  destruct (min_date d) as [a |], (max_date d) as [b |].
  - right. eauto.
  - exfalso. assert (H : Some a = None) by now apply Hiff. discriminate.
  - exfalso. assert (H : Some b = None) by now apply Hiff. discriminate.
  - left. auto.
Qed.

(** ** Frames *)

Lemma coords_length (pick : float -> float -> float) (geoms cs : list cell) :
  coords pick geoms = Ok cs -> length cs = length geoms.
Proof.
  revert cs. induction geoms as [| g rest IH]; simpl; intros cs H.
  - inversion H. reflexivity.
  - destruct g; try discriminate;
      (destruct (coords pick rest) as [cs' |]; [| discriminate]);
      inversion H; subst; simpl; f_equal; auto.
Qed.

Lemma geometry_length (gdf : frame) (geoms : list cell) :
  geometry gdf = Ok geoms -> length geoms = length (rows gdf).
Proof.
  unfold geometry. destruct (index_of "geometry" (columns gdf)); [| discriminate].
  intros H. inversion H. apply length_map.
Qed.

Lemma geometry_x_length (gdf : frame) (xs : list cell) :
  geometry_x gdf = Ok xs -> length xs = length (rows gdf).
Proof.
  unfold geometry_x. destruct (geometry gdf) as [g |] eqn:Hg; [| discriminate].
  intros H. apply coords_length in H. apply geometry_length in Hg. lia.
Qed.

Lemma geometry_y_length (gdf : frame) (ys : list cell) :
  geometry_y gdf = Ok ys -> length ys = length (rows gdf).
Proof.
  unfold geometry_y. destruct (geometry gdf) as [g |] eqn:Hg; [| discriminate].
  intros H. apply coords_length in H. apply geometry_length in Hg. lia.
Qed.

Lemma replace_nth_length {A} (i : nat) (v : A) (l : list A) :
  length (replace_nth i v l) = length l.
Proof.
  revert i. induction l as [| a l IH]; intros [| i]; simpl; auto.
Qed.

Lemma zip_with_length {A B C} (f : A -> B -> C) (la : list A) (lb : list B) :
  length la = length lb -> length (zip_with f la lb) = length la.
Proof.
  revert lb. induction la as [| a la IH]; intros [| b lb]; simpl; intros H;
    try discriminate; auto.
Qed.

Lemma in_zip_with {A B C} (f : A -> B -> C) (la : list A) (lb : list B) (c : C) :
  In c (zip_with f la lb) -> exists a b, In a la /\ In b lb /\ c = f a b.
Proof.
  revert lb. induction la as [| a la IH]; intros [| b lb]; simpl; try contradiction.
  intros [<- | H].
  - exists a, b. auto.
  - destruct (IH lb H) as (a' & b' & Ha & Hb & ->). exists a', b'. auto.
Qed.

Lemma wf_frame_spec (gdf : frame) :
  wf_frame gdf = true <->
  forall r, In r (rows gdf) -> length r = length (columns gdf).
Proof.
  unfold wf_frame. rewrite forallb_forall.
  split; intros H r Hr; specialize (H r Hr); now apply Nat.eqb_eq.
Qed.

Lemma set_column_wf (gdf : frame) (label : string) (values : list cell) :
  wf_frame gdf = true -> length values = length (rows gdf) ->
  wf_frame (set_column gdf label values) = true
  /\ length (rows (set_column gdf label values)) = length (rows gdf).
Proof.
  intros Hwf Hlen. rewrite wf_frame_spec in Hwf. unfold set_column.
  destruct (index_of label (columns gdf)) as [i |]; simpl.
  - split; [| apply zip_with_length; lia].
    apply wf_frame_spec. simpl. intros r Hr.
    apply in_zip_with in Hr as (r0 & v & Hr0 & _ & ->).
    rewrite replace_nth_length. auto.
  - split; [| apply zip_with_length; lia].
    apply wf_frame_spec. simpl. intros r Hr.
    apply in_zip_with in Hr as (r0 & v & Hr0 & _ & ->).
    rewrite !length_app. simpl. rewrite (Hwf r0 Hr0). reflexivity.
Qed.

Lemma index_of_in (label : string) (labels : list string) :
  In label labels <-> index_of label labels <> None.
Proof.
  induction labels as [| l rest IH]; simpl.
  - split; [contradiction | congruence].
  - destruct (String.eqb_spec label l) as [-> | Hne].
    + split; [discriminate | auto].
    + destruct (index_of label rest); split; intros H; try discriminate.
      * right. apply IH. discriminate.
      * destruct H as [H | H]; [congruence | apply IH in H; congruence].
      * exfalso. apply H. reflexivity.
Qed.

Lemma has_column_in (gdf : frame) (label : string) :
  has_column gdf label = true <-> In label (columns gdf).
Proof.
  unfold has_column. rewrite index_of_in.
  destruct (index_of label (columns gdf)); split; congruence.
Qed.

Lemma mem_string_in (s : string) (l : list string) :
  mem_string s l = true <-> In s l.
Proof.
  unfold mem_string. rewrite existsb_exists. split.
  - intros (x & Hx & Heq). apply String.eqb_eq in Heq. now subst.
  - intros H. exists s. split; [assumption | apply String.eqb_refl].
Qed.

Lemma in_keep_mask {A} (p : A -> bool) (l : list A) (a : A) :
  In a (keep_mask (map p l) l) -> p a = true /\ In a l.
Proof.
  induction l as [| x l IH]; simpl; [contradiction |].
  destruct (p x) eqn:Hx; simpl.
  - intros [<- | H]; [auto | destruct (IH H); auto].
  - intros H. destruct (IH H); auto.
Qed.

Lemma drop_columns (gdf dropped : frame) (labels : list string) :
  drop gdf labels = Ok dropped ->
  forall l, In l labels -> In l (columns gdf) /\ ~ In l (columns dropped).
Proof.
  unfold drop.
  destruct (find _ labels) as [missing |] eqn:Hfind; [discriminate |].
  intros H l Hl. inversion H; subst dropped; simpl. split.
  - pose proof (find_none _ _ Hfind l Hl) as Hm. simpl in Hm.
    apply negb_false_iff in Hm. now apply mem_string_in.
  - intros Hin. apply in_keep_mask in Hin as [Hp _].
    apply negb_true_iff in Hp.
    assert (mem_string l labels = true) by now apply mem_string_in.
    congruence.
Qed.

Lemma combine_fst_snd {A B} (la : list A) (lb : list B) :
  length lb = length la ->
  map fst (combine la lb) = la /\ map snd (combine la lb) = lb.
Proof.
  revert lb. induction la as [| a la IH]; intros [| b lb]; simpl; intros H;
    try discriminate; [auto |].
  destruct (IH lb) as [H1 H2]; [lia |]. now rewrite H1, H2.
Qed.

Lemma to_dict_records_wf (gdf : frame) :
  wf_frame gdf = true ->
  map (map snd) (to_dict_records gdf) = rows gdf
  /\ forall r, In r (to_dict_records gdf) -> map fst r = columns gdf.
Proof.
  intros Hwf. rewrite wf_frame_spec in Hwf. unfold to_dict_records. split.
  - rewrite map_map. rewrite <- (map_id (rows gdf)) at 2.
    apply map_ext_in. intros r Hr.
    now destruct (combine_fst_snd (columns gdf) r (Hwf r Hr)).
  - intros r Hr. apply in_map_iff in Hr as (row & <- & Hrow).
    now destruct (combine_fst_snd (columns gdf) row (Hwf row Hrow)).
Qed.

Lemma to_dict_records_keys (gdf : frame) (r : record) (k : string) :
  In r (to_dict_records gdf) -> In k (map fst r) -> In k (columns gdf).
Proof.
  unfold to_dict_records. intros Hr Hk.
  apply in_map_iff in Hr as (row & <- & _).
  apply in_map_iff in Hk as ([k' c] & <- & Hkc).
  simpl. eapply in_combine_l; eauto.
Qed.

(** What the statements on lines 109-115 compute. *)
Lemma csv_records_inv (gdf : frame) (recs : list record) :
  csv_records gdf = Ok recs ->
  exists xs ys dropped,
    geometry_x gdf = Ok xs
    /\ geometry_y (set_column gdf "lon" xs) = Ok ys
    /\ drop (csv_frame gdf xs ys) ["geometry"; "ObjectID_1"] = Ok dropped
    /\ recs = to_dict_records (csv_frame gdf xs ys).
Proof.
  unfold csv_records, csv_frame.
  destruct (geometry_x gdf) as [xs |] eqn:Hx; [| discriminate].
  destruct (geometry_y (set_column gdf "lon" xs)) as [ys |] eqn:Hy; [| discriminate].
  destruct (drop _ _) as [dropped |] eqn:Hdrop; [| discriminate].
  intros H. inversion H. exists xs, ys, dropped. repeat split; auto.
Qed.

Lemma csv_frame_wf (gdf : frame) (xs ys : list cell) :
  wf_frame gdf = true ->
  geometry_x gdf = Ok xs -> geometry_y (set_column gdf "lon" xs) = Ok ys ->
  wf_frame (csv_frame gdf xs ys) = true.
Proof.
  intros Hwf Hx Hy. unfold csv_frame.
  destruct (set_column_wf gdf "lon" xs Hwf (geometry_x_length _ _ Hx)) as [Hwf1 Hlen1].
  apply set_column_wf; [assumption |].
  now apply geometry_y_length.
Qed.

(** ** Packaging *)

Lemma in_trace_bind_lift {A B} (o : outcome A) (k : A -> M B) (ev : event) :
  In ev (trace_of (bind (lift o) k)) ->
  exists a, o = Ok a /\ In ev (trace_of (k a)).
Proof.
  destruct o as [a | e].
  - rewrite bind_lift_ok. eauto.
  - simpl. contradiction.
Qed.

Lemma in_trace_bind_emit {B} (ev0 : event) (k : unit -> M B) (ev : event) :
  In ev (trace_of (bind (emit ev0) k)) -> ev = ev0 \/ In ev (trace_of (k tt)).
Proof.
  unfold emit. rewrite bind_ok. simpl. intros [H | H]; auto.
Qed.

Ltac walk_trace H :=
  repeat first
    [ apply in_trace_bind_lift in H;
      let a := fresh "a" in
      let E := fresh "E" in
      destruct H as (a & E & H)
    | apply in_trace_bind_emit in H;
      destruct H as [H | H]; [try discriminate H |] ].

Section PackagingFacts.

Variable repr : json -> string.
Variable Dataset : Type.
Context {api : Collaborators Dataset}.
Variable config : configuration.
Variable tempdir : string.

(** The CSV resource is generated from the records of the frame that was
    read, with the records' first keys as headers. *)
Lemma generate_resource_event (layer_info : descriptor)
    (headers : list string) (recs : list record) (dir filename : string)
    (resourcedata : list (string * json)) :
  In (EvGenerateResource headers recs dir filename resourcedata)
     (trace_of (generate_dataset repr config tempdir layer_info)) ->
  exists gdf first rest,
    read_file (read_file_source repr layer_info) = Ok gdf
    /\ csv_records gdf = Ok recs
    /\ recs = first :: rest
    /\ headers = map fst first.
Proof.
  intros H. unfold generate_dataset in H. cbv zeta in H.
  walk_trace H.
  destruct (add_country_location _ "PHL") as [ds | e].
  - walk_trace H.
    + injection H as -> -> _ _ _.
      match goal with
      | Hfirst : match ?l with [] => _ | _ :: _ => _ end = Ok ?r |- _ =>
          destruct l as [| first rest]; [discriminate Hfirst |];
          injection Hfirst as <-
      end.
      eauto 8.
    + simpl in H. contradiction.
  - destruct e; walk_trace H; simpl in H; contradiction.
Qed.

(** When the country cannot be added, the run ends after the read and the
    logged error. *)
Lemma generate_dataset_country_failure (layer_info : descriptor)
    (slug : string) (gdf : frame) (ds1 ds2 : Dataset) (msg : string) :
  slugify (layer_name layer_info) = Ok slug ->
  read_file (read_file_source repr layer_info) = Ok gdf ->
  set_time_period
    (new_dataset slug ("Philippines: " ++ py_str repr (layer_name layer_info)))
    (min_date layer_info) (max_date layer_info) = Ok ds1 ->
  add_tags ds1 (tags config) = Ok ds2 ->
  add_country_location ds2 "PHL" = Error (HDXError msg) ->
  generate_dataset repr config tempdir layer_info =
  ([EvReadFile (read_file_source repr layer_info);
    EvLogError "Couldn't find country PHL, skipping"],
   Ok None).
Proof.
  intros Hslug Hread Hperiod Htags Hcountry.
  unfold generate_dataset. cbv zeta.
  rewrite Hslug, bind_lift_ok.
  change ("ESRIJSON:" ++ _) with (read_file_source repr layer_info).
  rewrite Hread. unfold emit at 1. rewrite bind_ok, bind_lift_ok.
  rewrite Hperiod, bind_lift_ok, Htags, bind_lift_ok, Hcountry.
  reflexivity.
Qed.

End PackagingFacts.

(** C10: when [add_country_location] raises [HDXError], [generate_dataset]
    logs the error and returns nothing; up to that point it has only read
    the layer, so no directory, file or resource is created. *)
Theorem country_failure_returns_nothing
    {Dataset : Type} {api : Collaborators Dataset}
    (repr : json -> string) (config : configuration) (tempdir : string)
    (layer_info : descriptor) (slug : string) (gdf : frame)
    (ds1 ds2 : Dataset) (msg : string) :
  slugify (layer_name layer_info) = Ok slug ->
  read_file (read_file_source repr layer_info) = Ok gdf ->
  set_time_period
    (new_dataset slug ("Philippines: " ++ py_str repr (layer_name layer_info)))
    (min_date layer_info) (max_date layer_info) = Ok ds1 ->
  add_tags ds1 (tags config) = Ok ds2 ->
  add_country_location ds2 "PHL" = Error (HDXError msg) ->
  result_of (generate_dataset repr config tempdir layer_info) = Ok None
  /\ trace_of (generate_dataset repr config tempdir layer_info) =
     [EvReadFile (read_file_source repr layer_info);
      EvLogError "Couldn't find country PHL, skipping"]
  /\ existsb creates_output
       (trace_of (generate_dataset repr config tempdir layer_info)) = false.
Proof.
  intros Hslug Hread Hperiod Htags Hcountry.
  rewrite (generate_dataset_country_failure repr Dataset config tempdir
             layer_info slug gdf ds1 ds2 msg Hslug Hread Hperiod Htags Hcountry).
  repeat split.
Qed.

Lemma country_failure_returns_nothing_witness :
  result_of (generate_dataset (api := offline_api (Ok carina_frame) [])
               plain_repr pdrf_config "/tmp/TestPdrf" carina_layer) = Ok None
  /\ trace_of (generate_dataset (api := offline_api (Ok carina_frame) [])
                 plain_repr pdrf_config "/tmp/TestPdrf" carina_layer) =
     [EvReadFile (read_file_source plain_repr carina_layer);
      EvLogError "Couldn't find country PHL, skipping"]
  /\ existsb creates_output
       (trace_of (generate_dataset (api := offline_api (Ok carina_frame) [])
                    plain_repr pdrf_config "/tmp/TestPdrf" carina_layer)) = false.
Proof.
  apply (country_failure_returns_nothing (api := offline_api (Ok carina_frame) [])
           plain_repr pdrf_config "/tmp/TestPdrf" carina_layer
           "tc-carina-ps-response" carina_frame
           (mk_hdx_dataset "tc-carina-ps-response"
              "Philippines: TC_CARINA_PS_Response"
              (Some (min_date carina_layer, max_date carina_layer)) [] [] [])
           (mk_hdx_dataset "tc-carina-ps-response"
              "Philippines: TC_CARINA_PS_Response"
              (Some (min_date carina_layer, max_date carina_layer))
              (tags pdrf_config) [] [])
           "Country: PHL - cannot find iso3 code!");
    reflexivity.
Defined.

(** C9: the records handed to the CSV resource are those of the frame as
    read, with [lon] and [lat] added: the frame returned by
    [drop(...).fillna("")] is not used.  The frame still has its [geometry]
    and [ObjectID_1] columns, and for a well-formed frame the headers are
    all its columns, the records carry its cells as they are (missing
    values included) and differ from the records of the dropped and filled
    frame. *)
Theorem csv_records_use_unmodified_frame
    {Dataset : Type} {api : Collaborators Dataset}
    (repr : json -> string) (config : configuration) (tempdir : string)
    (layer_info : descriptor) (headers : list string) (recs : list record)
    (dir filename : string) (resourcedata : list (string * json)) :
  In (EvGenerateResource headers recs dir filename resourcedata)
     (trace_of (generate_dataset repr config tempdir layer_info)) ->
  exists gdf xs ys dropped,
    read_file (read_file_source repr layer_info) = Ok gdf
    /\ geometry_x gdf = Ok xs
    /\ geometry_y (set_column gdf "lon" xs) = Ok ys
    /\ drop (csv_frame gdf xs ys) ["geometry"; "ObjectID_1"] = Ok dropped
    /\ recs = to_dict_records (csv_frame gdf xs ys)
    /\ has_column (csv_frame gdf xs ys) "geometry" = true
    /\ has_column (csv_frame gdf xs ys) "ObjectID_1" = true
    /\ (wf_frame gdf = true ->
        headers = columns (csv_frame gdf xs ys)
        /\ map (map snd) recs = rows (csv_frame gdf xs ys)
        /\ recs <> to_dict_records (fillna dropped (CText ""))).
Proof.
  intros Hev.
  destruct (generate_resource_event repr Dataset config tempdir layer_info
              headers recs dir filename resourcedata Hev)
    as (gdf & first & rest & Hread & Hcsv & Hrecs & Hheaders).
  destruct (csv_records_inv gdf recs Hcsv) as (xs & ys & dropped & Hx & Hy & Hdrop & Hto).
  exists gdf, xs, ys, dropped.
  pose proof (drop_columns _ _ _ Hdrop) as Hcols.
  destruct (Hcols "geometry") as [Hg Hg']; [simpl; auto |].
  destruct (Hcols "ObjectID_1") as [Ho Ho']; [simpl; auto |].
  repeat split; try assumption; try (apply has_column_in; assumption).
  - pose proof (csv_frame_wf gdf xs ys H Hx Hy) as Hwf2.
    destruct (to_dict_records_wf _ Hwf2) as [_ Hkeys].
    rewrite Hheaders. apply Hkeys. rewrite <- Hto, Hrecs. left. reflexivity.
  - pose proof (csv_frame_wf gdf xs ys H Hx Hy) as Hwf2.
    destruct (to_dict_records_wf _ Hwf2) as [Hcells _].
    now rewrite Hto.
  - pose proof (csv_frame_wf gdf xs ys H Hx Hy) as Hwf2.
    destruct (to_dict_records_wf _ Hwf2) as [_ Hkeys].
    intros Heq.
    assert (Hfirst : In first recs) by (rewrite Hrecs; left; reflexivity).
    assert (Hk : map fst first = columns (csv_frame gdf xs ys)).
    { apply Hkeys. now rewrite <- Hto. }
    apply Hg'.
    apply (to_dict_records_keys (fillna dropped (CText "")) first "geometry").
    + now rewrite <- Heq.
    + now rewrite Hk.
Qed.

Lemma csv_records_use_unmodified_frame_witness :
  exists gdf xs ys dropped,
    read_file (Collaborators := offline_api (Ok carina_frame) ["PHL"])
      (read_file_source plain_repr carina_layer) = Ok gdf
    /\ geometry_x gdf = Ok xs
    /\ geometry_y (set_column gdf "lon" xs) = Ok ys
    /\ drop (csv_frame gdf xs ys) ["geometry"; "ObjectID_1"] = Ok dropped
    /\ [ [("ObjectID_1", CInt 1); ("Organization", CText "PDRF");
          ("geometry", CPoint 121.5%float 14.5%float);
          ("lon", CFloat 121.5%float); ("lat", CFloat 14.5%float)];
         [("ObjectID_1", CInt 2); ("Organization", CNull);
          ("geometry", CPoint 120.75%float 15.25%float);
          ("lon", CFloat 120.75%float); ("lat", CFloat 15.25%float)] ]
       = to_dict_records (csv_frame gdf xs ys)
    /\ has_column (csv_frame gdf xs ys) "geometry" = true
    /\ has_column (csv_frame gdf xs ys) "ObjectID_1" = true
    /\ (wf_frame gdf = true ->
        ["ObjectID_1"; "Organization"; "geometry"; "lon"; "lat"]
          = columns (csv_frame gdf xs ys)
        /\ map (map snd)
             [ [("ObjectID_1", CInt 1); ("Organization", CText "PDRF");
                ("geometry", CPoint 121.5%float 14.5%float);
                ("lon", CFloat 121.5%float); ("lat", CFloat 14.5%float)];
               [("ObjectID_1", CInt 2); ("Organization", CNull);
                ("geometry", CPoint 120.75%float 15.25%float);
                ("lon", CFloat 120.75%float); ("lat", CFloat 15.25%float)] ]
           = rows (csv_frame gdf xs ys)
        /\ [ [("ObjectID_1", CInt 1); ("Organization", CText "PDRF");
              ("geometry", CPoint 121.5%float 14.5%float);
              ("lon", CFloat 121.5%float); ("lat", CFloat 14.5%float)];
             [("ObjectID_1", CInt 2); ("Organization", CNull);
              ("geometry", CPoint 120.75%float 15.25%float);
              ("lon", CFloat 120.75%float); ("lat", CFloat 15.25%float)] ]
           <> to_dict_records (fillna dropped (CText ""))).
Proof.
  apply (csv_records_use_unmodified_frame
           (api := offline_api (Ok carina_frame) ["PHL"])
           plain_repr pdrf_config "/tmp/TestPdrf" carina_layer
           ["ObjectID_1"; "Organization"; "geometry"; "lon"; "lat"] _
           "/tmp/TestPdrf" "tc-carina-ps-response.csv"
           [("name", JStr "tc-carina-ps-response.csv");
            ("description",
             JStr "CSV format of the summary of TC_CARINA_PS_Response")]).
  vm_compute. do 3 right. left. reflexivity.
Defined.

(* ===================================================================== *)
(** * Further properties of the walk *)
(* ===================================================================== *)

Lemma trace_of_bind {A B} (m : M A) (k : A -> M B) :
  trace_of (bind m k) =
  (trace_of m ++
   match result_of m with
   | Ok a => trace_of (k a)
   | Error _ => []
   end)%list.
Proof.
  destruct m as [t [a | e]]; simpl.
  - unfold trace_of. destruct (k a); reflexivity.
  - now rewrite app_nil_r.
Qed.

Lemma requests_app (t1 t2 : list event) :
  requests (t1 ++ t2) = (requests t1 ++ requests t2)%list.
Proof. apply flat_map_app. Qed.

Lemma prints_app (t1 t2 : list event) :
  prints (t1 ++ t2) = (prints t1 ++ prints t2)%list.
Proof. apply flat_map_app. Qed.

Section TraceFacts.

Variable repr : json -> string.
Variable parser : json -> string -> outcome (option datetime).
Variable http : string -> outcome json.
Variable config : configuration.

(** One iteration of the inner loop for a layer that has its two keys. *)
Lemma layer_step_eq (su : string) (results : list descriptor) (layer : json)
    (d : descriptor) :
  describe repr parser http su layer = Ok d ->
  layer_step repr parser http su results layer =
  (EvGet (stats_url (layer_url_of repr su (layer_id d)))
     :: match result_of (get_date_range parser http
                           (layer_url_of repr su (layer_id d))) with
        | Ok _ => []
        | Error e => [EvPrint (layer_url_of repr su (layer_id d)) e]
        end,
   Ok (results ++ [d])%list).
Proof.
  unfold describe, layer_step, extent_of.
  destruct (getitem_str layer "id") as [lid | e]; [| discriminate].
  destruct (getitem_str layer "name") as [lname | e]; [| discriminate].
  intros H. inversion H; subst d; clear H. cbn [layer_id].
  rewrite !bind_lift_ok, get_date_range_trace.
  destruct (result_of (get_date_range parser http (layer_url_of repr su lid)));
    reflexivity.
Qed.

Lemma layer_loop_trace (su : string) (layers : list json) :
  forall results ds,
    map_outcome (describe repr parser http su) layers = Ok ds ->
    requests (trace_of (layer_loop repr parser http su layers results)) =
      map (fun d => stats_url (layer_url_of repr (service_url d) (layer_id d))) ds
    /\ prints (trace_of (layer_loop repr parser http su layers results)) =
       flat_map (diagnostic_of repr parser http) ds.
Proof.
  induction layers as [| layer rest IH]; intros results ds Hds; simpl in Hds.
  - inversion Hds; subst ds. split; reflexivity.
  - destruct (describe repr parser http su layer) as [d |] eqn:Hd; [| discriminate].
    destruct (map_outcome _ rest) as [ds' |] eqn:Hrest; [| discriminate].
    inversion Hds; subst ds; clear Hds.
    cbn [layer_loop]. rewrite trace_of_bind, (layer_step_eq su results layer d Hd).
    cbn [result_of trace_of fst snd].
    destruct (IH (results ++ [d])%list ds' eq_refl) as [IHr IHp].
    rewrite requests_app, prints_app, IHr, IHp.
    pose proof (describe_inv repr parser http su layer d Hd) as (_ & _ & Hsu & _).
    unfold diagnostic_of at 2. cbn [flat_map map]. rewrite Hsu.
    destruct (result_of (get_date_range parser http
                           (layer_url_of repr su (layer_id d))));
      split; reflexivity.
Qed.

Lemma service_step_trace (results : list descriptor) (service : json)
    (ds : list descriptor) :
  service_descriptors repr parser http config service = Ok ds ->
  requests (trace_of (service_step repr parser http config results service)) =
    service_requests repr config service ds
  /\ prints (trace_of (service_step repr parser http config results service)) =
     flat_map (diagnostic_of repr parser http) ds.
Proof.
  unfold service_descriptors, service_step, service_requests, listed_layers.
  destruct (service_url_of repr config service) as [su | e]; [| discriminate].
  rewrite bind_lift_ok, requests_get_json_eq.
  destruct (http (su ++ "?f=json")) as [resp | e]; [| discriminate].
  rewrite bind_ok.
  destruct (dict_get resp "layers" (JArr [])) as [layers | e]; [| discriminate].
  rewrite bind_lift_ok.
  destruct (negb (truthy layers)).
  - intros H. inversion H; subst ds. split; reflexivity.
  - destruct (py_iter layers) as [layer_list | e]; [| discriminate].
    rewrite bind_lift_ok. intros Hds.
    destruct (layer_loop_trace su layer_list results ds Hds) as [Hr Hp].
    cbn [trace_of fst]. rewrite requests_app, prints_app, Hr, Hp.
    split; reflexivity.
Qed.

Lemma service_loop_trace (services : list json) :
  forall results dss,
    map_outcome (service_descriptors repr parser http config) services = Ok dss ->
    requests (trace_of (service_loop repr parser http config services results)) =
      concat (zip_with (service_requests repr config) services dss)
    /\ prints (trace_of (service_loop repr parser http config services results)) =
       flat_map (diagnostic_of repr parser http) (concat dss).
Proof.
  induction services as [| service rest IH]; intros results dss Hdss; simpl in Hdss.
  - inversion Hdss; subst dss. split; reflexivity.
  - destruct (service_descriptors repr parser http config service) as [ds |] eqn:Hds;
      [| discriminate].
    destruct (map_outcome _ rest) as [dss' |] eqn:Hrest; [| discriminate].
    inversion Hdss; subst dss; clear Hdss.
    cbn [service_loop]. rewrite trace_of_bind, service_step_result, Hds.
    destruct (service_step_trace results service ds Hds) as [Hr Hp].
    destruct (IH (results ++ ds)%list dss' eq_refl) as [IHr IHp].
    rewrite requests_app, prints_app, Hr, Hp, IHr, IHp.
    cbn [zip_with concat]. rewrite flat_map_app. split; reflexivity.
Qed.

End TraceFacts.

Lemma service_descriptors_blocks (repr : json -> string)
    (parser : json -> string -> outcome (option datetime))
    (http : string -> outcome json) (config : configuration)
    (services : list json) (dss : list (list descriptor)) :
  map_outcome (service_descriptors repr parser http config) services = Ok dss ->
  Forall2 (service_block repr http config) services dss.
Proof.
  intros Hmap. apply map_outcome_Forall2 in Hmap.
  induction Hmap as [| service ds services' dss' Hsd _ IH]; [constructor |].
  constructor; [| exact IH].
  unfold service_descriptors in Hsd. unfold service_block.
  destruct (service_url_of repr config service) as [su | e]; [| discriminate].
  destruct (http (su ++ "?f=json")) as [resp | e] eqn:Hresp; [| discriminate].
  destruct (listed_layers resp) as [layers | e] eqn:Hll; [| discriminate].
  exists su, resp, layers. repeat split; auto.
  eapply describe_follows_layers; eauto.
Qed.

Lemma get_layers_ok_inv (repr : json -> string)
    (parser : json -> string -> outcome (option datetime))
    (http : string -> outcome json) (config : configuration)
    (rs : list descriptor) :
  result_of (get_layers repr parser http config) = Ok rs ->
  exists services dss,
    listed_services http config = Ok services
    /\ map_outcome (service_descriptors repr parser http config) services = Ok dss
    /\ rs = concat dss
    /\ trace_of (get_layers repr parser http config) =
       EvGet (root_url config)
       :: trace_of (service_loop repr parser http config services []).
Proof.
  rewrite get_layers_result. unfold listed_services, get_layers.
  rewrite requests_get_json_eq.
  destruct (http (root_url config)) as [resp | e]; [| discriminate].
  rewrite bind_ok. cbv beta.
  destruct (dict_get resp "services" (JArr [])) as [services | e]; [| discriminate].
  rewrite bind_lift_ok.
  destruct (py_iter services) as [l | e]; [| discriminate].
  rewrite bind_lift_ok.
  destruct (map_outcome _ l) as [dss | e] eqn:Hmap; [| discriminate].
  intros H. inversion H; subst rs. exists l, dss.
  repeat split; auto.
Qed.

Lemma service_requests_length (repr : json -> string)
    (parser : json -> string -> outcome (option datetime))
    (http : string -> outcome json) (config : configuration)
    (services : list json) :
  forall dss,
    map_outcome (service_descriptors repr parser http config) services = Ok dss ->
    length (concat (zip_with (service_requests repr config) services dss)) =
    length services + length (concat dss).
Proof.
  induction services as [| service rest IH]; intros dss Hmap; simpl in Hmap.
  - inversion Hmap. reflexivity.
  - destruct (service_descriptors repr parser http config service) as [ds |] eqn:Hds;
      [| discriminate].
    destruct (map_outcome _ rest) as [dss' |] eqn:Hrest; [| discriminate].
    inversion Hmap; subst dss. cbn [zip_with concat].
    rewrite !length_app, (IH dss' eq_refl).
    unfold service_requests. unfold service_descriptors in Hds.
    destruct (service_url_of repr config service); [| discriminate].
    cbn [length]. rewrite length_map. lia.
Qed.

(** X1: a walk that returns has requested the root listing and then, for
    each service in listing order, its layer listing followed by one
    statistics query per layer in layer order: one request per service and
    one per descriptor, none repeated. *)
Theorem get_layers_request_sequence
    (repr : json -> string)
    (parser : json -> string -> outcome (option datetime))
    (http : string -> outcome json) (config : configuration)
    (rs : list descriptor) :
  result_of (get_layers repr parser http config) = Ok rs ->
  exists services blocks,
    listed_services http config = Ok services
    /\ Forall2 (service_block repr http config) services blocks
    /\ rs = concat blocks
    /\ requests (trace_of (get_layers repr parser http config)) =
       root_url config
       :: concat (zip_with (service_requests repr config) services blocks)
    /\ length (requests (trace_of (get_layers repr parser http config))) =
       1 + length services + length rs.
Proof.
  intros Hrs.
  destruct (get_layers_ok_inv repr parser http config rs Hrs)
    as (services & dss & Hlist & Hmap & -> & Htrace).
  exists services, dss.
  destruct (service_loop_trace repr parser http config services [] dss Hmap)
    as [Hreq _].
  assert (Hseq : requests (trace_of (get_layers repr parser http config)) =
                 root_url config
                 :: concat (zip_with (service_requests repr config) services dss)).
  { rewrite Htrace. cbn [requests flat_map app]. fold (requests
      (trace_of (service_loop repr parser http config services []))).
    now rewrite Hreq. }
  repeat split; auto.
  - now apply (service_descriptors_blocks repr parser http config).
  - rewrite Hseq. cbn [length].
    rewrite (service_requests_length repr parser http config services dss Hmap).
    lia.
Qed.

Lemma get_layers_request_sequence_witness :
  exists services blocks,
    listed_services ab_server ab_config = Ok services
    /\ Forall2 (service_block plain_repr ab_server ab_config) services blocks
    /\ [ mk_descriptor (JInt 0) (JStr "zulu")
           (Some (mk_datetime 2024 12 1 13 0 0))
           (Some (mk_datetime 2024 12 31 23 59 59)) "http://gis/A/MapServer";
         mk_descriptor (JInt 1) (JStr "alpha") None None "http://gis/A/MapServer";
         mk_descriptor (JInt 0) (JStr "mike")
           (Some (mk_datetime 2020 1 1 0 0 0))
           (Some (mk_datetime 2020 1 2 0 0 0)) "http://gis/B/FeatureServer" ]
       = concat blocks
    /\ requests (trace_of (get_layers plain_repr parse_date ab_server ab_config)) =
       root_url ab_config
       :: concat (zip_with (service_requests plain_repr ab_config) services blocks)
    /\ length (requests (trace_of (get_layers plain_repr parse_date ab_server ab_config))) =
       1 + length services + 3.
Proof.
  apply (get_layers_request_sequence plain_repr parse_date ab_server ab_config).
  vm_compute. reflexivity.
Defined.

(** X2: in a walk that returns, the diagnostics printed are exactly, in
    order, one per descriptor whose statistics resolution raised, each
    naming the layer URL and the error; a layer that resolved prints
    nothing. *)
Theorem get_layers_diagnostics
    (repr : json -> string)
    (parser : json -> string -> outcome (option datetime))
    (http : string -> outcome json) (config : configuration)
    (rs : list descriptor) :
  result_of (get_layers repr parser http config) = Ok rs ->
  prints (trace_of (get_layers repr parser http config)) =
  flat_map (diagnostic_of repr parser http) rs.
Proof.
  intros Hrs.
  destruct (get_layers_ok_inv repr parser http config rs Hrs)
    as (services & dss & Hlist & Hmap & -> & Htrace).
  destruct (service_loop_trace repr parser http config services [] dss Hmap)
    as [_ Hp].
  rewrite Htrace. cbn [prints flat_map app].
  exact Hp.
Qed.

Lemma get_layers_diagnostics_witness :
  prints (trace_of (get_layers plain_repr parse_date ab_server ab_config)) =
  [("http://gis/A/MapServer/1", IndexError)].
Proof.
  rewrite (get_layers_diagnostics plain_repr parse_date ab_server ab_config
             [ mk_descriptor (JInt 0) (JStr "zulu")
                 (Some (mk_datetime 2024 12 1 13 0 0))
                 (Some (mk_datetime 2024 12 31 23 59 59)) "http://gis/A/MapServer";
               mk_descriptor (JInt 1) (JStr "alpha") None None "http://gis/A/MapServer";
               mk_descriptor (JInt 0) (JStr "mike")
                 (Some (mk_datetime 2020 1 1 0 0 0))
                 (Some (mk_datetime 2020 1 2 0 0 0)) "http://gis/B/FeatureServer" ]).
  - vm_compute. reflexivity.
  - vm_compute. reflexivity.
Defined.

Lemma in_trace_bind {A B} (m : M A) (k : A -> M B) (ev : event) :
  In ev (trace_of (bind m k)) ->
  In ev (trace_of m) \/ exists a, result_of m = Ok a /\ In ev (trace_of (k a)).
Proof.
  rewrite trace_of_bind. intros H. apply in_app_or in H as [H | H]; [auto |].
  destruct (result_of m) as [a | e]; [eauto | contradiction].
Qed.

Section EventFacts.

Variable repr : json -> string.
Variable parser : json -> string -> outcome (option datetime).
Variable http : string -> outcome json.
Variable config : configuration.

Lemma requests_get_json_event (url : string) (ev : event) :
  In ev (trace_of (requests_get_json http url)) -> ev = EvGet url.
Proof.
  rewrite requests_get_json_eq. simpl. intros [H | []]. now symmetry.
Qed.

Lemma layer_step_events (su : string) (results : list descriptor)
    (layer : json) (ev : event) :
  In ev (trace_of (layer_step repr parser http su results layer)) ->
  walk_event parser http ev.
Proof.
  unfold layer_step. intros H.
  apply in_trace_bind_lift in H as (lid & _ & H).
  apply in_trace_bind_lift in H as (lname & _ & H).
  apply in_trace_bind in H as [H | (stats & _ & H)]; [| simpl in H; contradiction].
  rewrite get_date_range_trace in H.
  destruct (result_of (get_date_range parser http (layer_url_of repr su lid)))
    as [stats | e] eqn:Hres; simpl in H.
  - destruct H as [<- | []]. left. eexists. split; [reflexivity |]. right. eauto.
  - destruct H as [<- | [<- | []]].
    + left. eexists. split; [reflexivity |]. right. eauto.
    + right. eauto.
Qed.

Lemma layer_loop_events (su : string) (layers : list json) (ev : event) :
  forall results,
    In ev (trace_of (layer_loop repr parser http su layers results)) ->
    walk_event parser http ev.
Proof.
  induction layers as [| layer rest IH]; intros results H; simpl in H;
    [contradiction |].
  apply in_trace_bind in H as [H | (results' & _ & H)].
  - eapply layer_step_events; eauto.
  - eapply IH; eauto.
Qed.

Lemma service_step_events (results : list descriptor) (service : json)
    (ev : event) :
  In ev (trace_of (service_step repr parser http config results service)) ->
  walk_event parser http ev.
Proof.
  unfold service_step. intros H.
  apply in_trace_bind_lift in H as (su & _ & H).
  apply in_trace_bind in H as [H | (resp & _ & H)].
  - apply requests_get_json_event in H. subst ev.
    left. eexists. split; [reflexivity |]. left. exists su. reflexivity.
  - apply in_trace_bind_lift in H as (layers & _ & H).
    destruct (negb (truthy layers)); [simpl in H; contradiction |].
    apply in_trace_bind_lift in H as (layer_list & _ & H).
    eapply layer_loop_events; eauto.
Qed.

Lemma service_loop_events (services : list json) (ev : event) :
  forall results,
    In ev (trace_of (service_loop repr parser http config services results)) ->
    walk_event parser http ev.
Proof.
  induction services as [| service rest IH]; intros results H; simpl in H;
    [contradiction |].
  apply in_trace_bind in H as [H | (results' & _ & H)].
  - eapply service_step_events; eauto.
  - eapply IH; eauto.
Qed.

End EventFacts.

(** X3: whether it returns or raises, [get_layers] only requests listing
    URLs and statistics URLs and prints a diagnostic only for a layer whose
    resolver raised that error; it creates no directory, file or
    resource. *)
Theorem get_layers_events_sound
    (repr : json -> string)
    (parser : json -> string -> outcome (option datetime))
    (http : string -> outcome json) (config : configuration) (ev : event) :
  In ev (trace_of (get_layers repr parser http config)) ->
  walk_event parser http ev /\ creates_output ev = false.
Proof.
  intros H.
  assert (Hw : walk_event parser http ev).
  { unfold get_layers in H.
    apply in_trace_bind in H as [H | (resp & _ & H)].
    - apply requests_get_json_event in H. subst ev.
      left. eexists. split; [reflexivity |]. left. apply root_url_is_listing.
    - apply in_trace_bind_lift in H as (services & _ & H).
      apply in_trace_bind_lift in H as (service_list & _ & H).
      eapply service_loop_events; eauto. }
  split; [exact Hw |].
  destruct Hw as [(url & -> & _) | (lu & e & -> & _)]; reflexivity.
Qed.

Lemma get_layers_events_sound_witness :
  walk_event parse_date ab_server (EvPrint "http://gis/A/MapServer/1" IndexError)
  /\ creates_output (EvPrint "http://gis/A/MapServer/1" IndexError) = false.
Proof.
  apply (get_layers_events_sound plain_repr parse_date ab_server ab_config).
  vm_compute. do 4 right. left. reflexivity.
Defined.

(** ** Malformed listings *)

Lemma map_outcome_first_error {A B} (f : A -> outcome B) (pre post : list A)
    (a : A) (bs : list B) (e : exn) :
  map_outcome f pre = Ok bs -> f a = Error e ->
  map_outcome f (pre ++ a :: post) = Error e.
Proof.
  revert bs. induction pre as [| p pre IH]; simpl; intros bs Hpre Ha.
  - now rewrite Ha.
  - destruct (f p); [| discriminate].
    destruct (map_outcome f pre) as [bs' |]; [| discriminate].
    now rewrite (IH bs' eq_refl Ha).
Qed.

Lemma get_layers_service_error (repr : json -> string)
    (parser : json -> string -> outcome (option datetime))
    (http : string -> outcome json) (config : configuration)
    (service : json) (e : exn) :
  walk_reaches repr parser http config service ->
  service_descriptors repr parser http config service = Error e ->
  result_of (get_layers repr parser http config) = Error e.
Proof.
  intros (pre & post & dss & Hlist & Hpre) Herr.
  rewrite get_layers_result, Hlist.
  now rewrite (map_outcome_first_error _ pre post service dss e Hpre Herr).
Qed.

Lemma describe_error_iff (repr : json -> string)
    (parser : json -> string -> outcome (option datetime))
    (http : string -> outcome json) (su : string) (layer : json) (e : exn) :
  describe repr parser http su layer = Error e <-> layer_keys_raise layer e.
Proof.
  unfold describe, layer_keys_raise.
  destruct (getitem_str layer "id") as [lid | e1].
  - destruct (getitem_str layer "name") as [lname | e2]; split.
    + intros H. discriminate H.
    + intros [H | (l & _ & H)]; discriminate H.
    + intros H. right. exists lid. split; [reflexivity | congruence].
    + intros [H | (l & _ & H)]; [discriminate H | congruence].
  - split.
    + intros H. left. congruence.
    + intros [H | (l & H & _)]; [congruence | discriminate H].
Qed.

(** X4: a layer entry without ["id"], or with ["id"] but without
    ["name"], raises where it is read, outside the [try]: the iteration
    makes no request for it, and when the walk reaches it [get_layers]
    raises that error instead of returning the descriptors gathered so
    far. *)
Theorem malformed_layer_aborts_walk
    (repr : json -> string)
    (parser : json -> string -> outcome (option datetime))
    (http : string -> outcome json) (config : configuration)
    (service layer : json) (su : string) (e : exn) :
  layer_keys_raise layer e ->
  (forall results,
     layer_step repr parser http su results layer = ([], Error e))
  /\ (walk_reaches repr parser http config service ->
      service_url_of repr config service = Ok su ->
      listing_reaches repr parser http su layer ->
      result_of (get_layers repr parser http config) = Error e).
Proof.
  intros Hkeys. split.
  - intros results. unfold layer_step.
    destruct Hkeys as [H | (lid & Hid & H)].
    + now rewrite H.
    + now rewrite Hid, bind_lift_ok, H.
  - intros Hreach Hsu (resp & pre & post & ds & Hresp & Hlist & Hpre).
    apply (get_layers_service_error repr parser http config service e Hreach).
    unfold service_descriptors. rewrite Hsu, Hresp, Hlist.
    apply (map_outcome_first_error _ pre post layer ds e Hpre).
    now apply describe_error_iff.
Qed.

Lemma malformed_layer_aborts_walk_witness :
  (forall results,
     layer_step plain_repr parse_date broken_server "http://gis/C/MapServer"
       results (JObj [("id", JInt 1)]) = ([], Error (KeyError (JStr "name"))))
  /\ result_of (get_layers plain_repr parse_date broken_server ab_config) =
     Error (KeyError (JStr "name")).
Proof.
  destruct (malformed_layer_aborts_walk plain_repr parse_date broken_server
              ab_config (JObj [("name", JStr "C"); ("type", JStr "MapServer")])
              (JObj [("id", JInt 1)]) "http://gis/C/MapServer"
              (KeyError (JStr "name"))) as [Hstep Hwalk].
  - right. exists (JInt 1). split; reflexivity.
  - split; [exact Hstep |]. apply Hwalk.
    + exists [JObj [("name", JStr "A"); ("type", JStr "MapServer")]],
             [JObj [("name", JStr "D")]].
      eexists. split; vm_compute; reflexivity.
    + reflexivity.
    + exists (JObj [("layers", JArr [JObj [("id", JInt 0); ("name", JStr "kept")];
                                     JObj [("id", JInt 1)]])]),
             [JObj [("id", JInt 0); ("name", JStr "kept")]], [].
      eexists. repeat split; vm_compute; reflexivity.
Defined.

(** X5: a directory entry without ["name"] or ["type"] raises before its
    layer listing is requested, and when the walk reaches it [get_layers]
    raises that error. *)
Theorem malformed_service_aborts_walk
    (repr : json -> string)
    (parser : json -> string -> outcome (option datetime))
    (http : string -> outcome json) (config : configuration)
    (service : json) (e : exn) :
  service_url_of repr config service = Error e ->
  (forall results,
     service_step repr parser http config results service = ([], Error e))
  /\ (walk_reaches repr parser http config service ->
      result_of (get_layers repr parser http config) = Error e).
Proof.
  intros Hsu. split.
  - intros results. unfold service_step. now rewrite Hsu.
  - intros Hreach.
    apply (get_layers_service_error repr parser http config service e Hreach).
    unfold service_descriptors. now rewrite Hsu.
Qed.

Lemma malformed_service_aborts_walk_witness :
  (forall results,
     service_step plain_repr parse_date untyped_server ab_config results
       (JObj [("name", JStr "D")]) = ([], Error (KeyError (JStr "type"))))
  /\ result_of (get_layers plain_repr parse_date untyped_server ab_config) =
     Error (KeyError (JStr "type")).
Proof.
  destruct (malformed_service_aborts_walk plain_repr parse_date untyped_server
              ab_config (JObj [("name", JStr "D")]) (KeyError (JStr "type")))
    as [Hstep Hwalk].
  - reflexivity.
  - split; [exact Hstep |]. apply Hwalk.
    exists [JObj [("name", JStr "Empty"); ("type", JStr "MapServer")]], [].
    eexists. split; vm_compute; reflexivity.
Defined.

(** X6: for a service whose listing was fetched, a ["layers"] value that
    is falsy (null, false, 0, an empty string, list or dict) is skipped
    like an empty list; a truthy value that cannot be iterated (a number,
    true) raises; and a listing body that is not a dict raises.  In all
    three cases the listing request is the only effect. *)
Theorem layers_value_kinds
    (repr : json -> string)
    (parser : json -> string -> outcome (option datetime))
    (http : string -> outcome json) (config : configuration)
    (service : json) (su : string) (layers_response : json)
    (results : list descriptor) :
  service_url_of repr config service = Ok su ->
  http (su ++ "?f=json") = Ok layers_response ->
  (forall layers,
     dict_get layers_response "layers" (JArr []) = Ok layers ->
     truthy layers = false ->
     service_step repr parser http config results service =
     ([EvGet (su ++ "?f=json")], Ok results))
  /\ (forall layers e,
        dict_get layers_response "layers" (JArr []) = Ok layers ->
        truthy layers = true ->
        py_iter layers = Error e ->
        service_step repr parser http config results service =
        ([EvGet (su ++ "?f=json")], Error e))
  /\ (forall e,
        dict_get layers_response "layers" (JArr []) = Error e ->
        service_step repr parser http config results service =
        ([EvGet (su ++ "?f=json")], Error e)).
Proof.
  intros Hsu Hresp.
  assert (Hstart :
    service_step repr parser http config results service =
    bind ([EvGet (su ++ "?f=json")], Ok layers_response)
      (fun layers_response =>
         bind (lift (dict_get layers_response "layers" (JArr [])))
           (fun layers =>
              if negb (truthy layers) then ret results
              else bind (lift (py_iter layers))
                     (fun layer_list =>
                        layer_loop repr parser http su layer_list results)))).
  { unfold service_step. now rewrite Hsu, bind_lift_ok, requests_get_json_eq, Hresp. }
  rewrite Hstart, bind_ok. cbv beta. split; [| split].
  - intros layers Hget Hfalsy. rewrite Hget, bind_lift_ok, Hfalsy. reflexivity.
  - intros layers e Hget Htruthy Hiter.
    rewrite Hget, bind_lift_ok, Htruthy. cbn [negb]. rewrite Hiter. reflexivity.
  - intros e Hget. rewrite Hget. reflexivity.
Qed.

Lemma layers_value_kinds_witness :
  service_step plain_repr parse_date untyped_server ab_config []
    (JObj [("name", JStr "Empty"); ("type", JStr "MapServer")]) =
  ([EvGet "http://gis/Empty/MapServer?f=json"], Ok []).
Proof.
  destruct (layers_value_kinds plain_repr parse_date untyped_server ab_config
              (JObj [("name", JStr "Empty"); ("type", JStr "MapServer")])
              "http://gis/Empty/MapServer" (JObj [("layers", JNull)]) [])
    as (Hskip & _ & _).
  - reflexivity.
  - reflexivity.
  - apply (Hskip JNull); reflexivity.
Defined.

(** X7: on the root listing, a body without ["services"] gives an empty
    result; a ["services"] value that cannot be iterated raises, null
    included (there is no falsy check as for ["layers"]); and a body that
    is not a dict raises.  The root request is the only effect. *)
Theorem services_value_kinds
    (repr : json -> string)
    (parser : json -> string -> outcome (option datetime))
    (http : string -> outcome json) (config : configuration)
    (response : json) :
  http (root_url config) = Ok response ->
  (forall items,
     response = JObj items -> dict_lookup "services" items = None ->
     get_layers repr parser http config = ([EvGet (root_url config)], Ok []))
  /\ (forall items,
        response = JObj items -> dict_lookup "services" items = Some JNull ->
        get_layers repr parser http config =
        ([EvGet (root_url config)], Error TypeError))
  /\ (forall services e,
        dict_get response "services" (JArr []) = Ok services ->
        py_iter services = Error e ->
        get_layers repr parser http config = ([EvGet (root_url config)], Error e))
  /\ (forall e,
        dict_get response "services" (JArr []) = Error e ->
        get_layers repr parser http config = ([EvGet (root_url config)], Error e)).
Proof.
  intros Hresp.
  assert (Hiter : forall services e,
            dict_get response "services" (JArr []) = Ok services ->
            py_iter services = Error e ->
            get_layers repr parser http config = ([EvGet (root_url config)], Error e)).
  { intros services e Hget Hit. unfold get_layers.
    rewrite requests_get_json_eq, Hresp, bind_ok. cbv beta.
    rewrite Hget, bind_lift_ok, Hit. reflexivity. }
  split; [| split; [| split]].
  - intros items -> Hnone. unfold get_layers.
    rewrite requests_get_json_eq, Hresp, bind_ok. cbv beta.
    simpl dict_get. rewrite Hnone, bind_lift_ok. reflexivity.
  - intros items -> Hnull. apply (Hiter JNull); [| reflexivity].
    simpl. now rewrite Hnull.
  - exact Hiter.
  - intros e Hget. unfold get_layers.
    rewrite requests_get_json_eq, Hresp, bind_ok. cbv beta.
    rewrite Hget. reflexivity.
Qed.

Lemma services_value_kinds_witness :
  get_layers plain_repr parse_date
    (serve [("http://gis/root?f=json", JObj [("services", JNull)])]) ab_config =
    ([EvGet "http://gis/root?f=json"], Error TypeError)
  /\ get_layers plain_repr parse_date
       (serve [("http://gis/root?f=json", JObj [("currentVersion", JInt 11)])])
       ab_config =
     ([EvGet "http://gis/root?f=json"], Ok []).
Proof.
  split.
  - destruct (services_value_kinds plain_repr parse_date
                (serve [("http://gis/root?f=json", JObj [("services", JNull)])])
                ab_config (JObj [("services", JNull)]) eq_refl)
      as (_ & Hnull & _).
    apply (Hnull [("services", JNull)]); reflexivity.
  - destruct (services_value_kinds plain_repr parse_date
                (serve [("http://gis/root?f=json", JObj [("currentVersion", JInt 11)])])
                ab_config (JObj [("currentVersion", JInt 11)]) eq_refl)
      as (Habsent & _).
    apply (Habsent [("currentVersion", JInt 11)]); reflexivity.
Defined.

(* ===================================================================== *)
(** * Further properties of the packaging *)
(* ===================================================================== *)

Lemma bind_emit {B} (ev : event) (k : unit -> M B) :
  bind (emit ev) k = (ev :: trace_of (k tt), result_of (k tt)).
Proof. unfold emit. rewrite bind_ok. reflexivity. Qed.

Lemma result_bind_lift_inv {A B} (o : outcome A) (k : A -> M B) (b : B) :
  result_of (bind (lift o) k) = Ok b ->
  exists a, o = Ok a /\ result_of (k a) = Ok b.
Proof.
  destruct o as [a | e]; [rewrite bind_lift_ok; eauto | discriminate].
Qed.

Lemma result_bind_emit {B} (ev : event) (k : unit -> M B) :
  result_of (bind (emit ev) k) = result_of (k tt).
Proof. now rewrite bind_emit. Qed.

Ltac walk_result H :=
  repeat first
    [ apply result_bind_lift_inv in H;
      let a := fresh "a" in
      let E := fresh "E" in
      destruct H as (a & E & H)
    | rewrite result_bind_emit in H ].

Section ExportFacts.

Variable repr : json -> string.
Variable Dataset : Type.
Context {api : Collaborators Dataset}.
Variable config : configuration.
Variable tempdir : string.

(** After the first half, [generate_dataset] continues with
    [attach_resources]. *)
Lemma generate_dataset_export (layer_info : descriptor) (slug : string)
    (gdf : frame) (dataset : Dataset) :
  reaches_export repr config tempdir layer_info slug gdf dataset ->
  generate_dataset repr config tempdir layer_info =
  ((export_events repr tempdir layer_info slug gdf
     ++ trace_of (attach_resources repr tempdir layer_info slug gdf dataset))%list,
   result_of (attach_resources repr tempdir layer_info slug gdf dataset)).
Proof.
  intros (Hslug & Hread & ds1 & ds2 & Hperiod & Htags & Hcountry & Hmk & Hto).
  unfold generate_dataset. cbv zeta.
  rewrite Hslug, bind_lift_ok.
  change ("ESRIJSON:" ++ _) with (read_file_source repr layer_info).
  rewrite bind_emit, Hread, bind_lift_ok, Hperiod, bind_lift_ok, Htags,
    bind_lift_ok, Hcountry.
  rewrite bind_emit, Hmk, bind_lift_ok, bind_emit, Hto, bind_lift_ok.
  reflexivity.
Qed.

End ExportFacts.

Lemma set_column_columns (gdf : frame) (label : string) (values : list cell)
    (l : string) :
  In l (columns (set_column gdf label values)) <->
  In l (columns gdf) \/ l = label.
Proof.
  unfold set_column.
  destruct (index_of label (columns gdf)) as [i |] eqn:Hi; simpl.
  - split; [auto |]. intros [H | ->]; [exact H |].
    apply index_of_in. congruence.
  - rewrite in_app_iff. simpl. intuition congruence.
Qed.

Lemma geometry_x_has_geometry (gdf : frame) (xs : list cell) :
  geometry_x gdf = Ok xs -> In "geometry" (columns gdf).
Proof.
  unfold geometry_x, geometry. intros H. apply index_of_in.
  destruct (index_of "geometry" (columns gdf)); [discriminate | discriminate H].
Qed.

Lemma csv_records_missing_objectid (gdf : frame) (xs ys : list cell) :
  geometry_x gdf = Ok xs ->
  geometry_y (set_column gdf "lon" xs) = Ok ys ->
  has_column gdf "ObjectID_1" = false ->
  csv_records gdf = Error (KeyError (JStr "ObjectID_1")).
Proof.
  intros Hx Hy Hno. unfold csv_records. rewrite Hx, Hy. unfold drop.
  assert (Hg : mem_string "geometry"
                 (columns (set_column (set_column gdf "lon" xs) "lat" ys)) = true).
  { apply mem_string_in. apply set_column_columns. left.
    apply set_column_columns. left. eapply geometry_x_has_geometry; eauto. }
  assert (Ho : mem_string "ObjectID_1"
                 (columns (set_column (set_column gdf "lon" xs) "lat" ys)) = false).
  { destruct (mem_string "ObjectID_1" _) eqn:Hm; [| reflexivity].
    apply mem_string_in in Hm. apply set_column_columns in Hm as [Hm | Hm];
      [| discriminate Hm].
    apply set_column_columns in Hm as [Hm | Hm]; [| discriminate Hm].
    apply has_column_in in Hm. congruence. }
  cbn [find]. rewrite Hg, Ho. reflexivity.
Qed.

Section AttachFacts.

Variable repr : json -> string.
Variable Dataset : Type.
Context {api : Collaborators Dataset}.
Variable config : configuration.
Variable tempdir : string.

Lemma attach_resources_csv_error (layer_info : descriptor) (slug : string)
    (gdf : frame) (dataset : Dataset) (e : exn) :
  csv_records gdf = Error e ->
  attach_resources repr tempdir layer_info slug gdf dataset = ([], Error e).
Proof. intros H. unfold attach_resources. now rewrite H. Qed.

Lemma attach_resources_no_rows (layer_info : descriptor) (slug : string)
    (gdf : frame) (dataset : Dataset) :
  csv_records gdf = Ok [] ->
  attach_resources repr tempdir layer_info slug gdf dataset =
  ([], Error IndexError).
Proof. intros H. unfold attach_resources. now rewrite H, bind_lift_ok. Qed.

End AttachFacts.

(** X8: once the GeoJSON file is written, a failure to build the CSV
    records (no geometry column, a geometry that is not a point, a column
    to drop that is missing) or a layer without rows makes
    [generate_dataset] raise: the directory and the GeoJSON file have been
    created, and no resource is generated or attached. *)
Theorem csv_failure_after_geojson_written
    {Dataset : Type} {api : Collaborators Dataset}
    (repr : json -> string) (config : configuration) (tempdir : string)
    (layer_info : descriptor) (slug : string) (gdf : frame) (dataset : Dataset) :
  reaches_export repr config tempdir layer_info slug gdf dataset ->
  (forall e,
     csv_records gdf = Error e ->
     generate_dataset repr config tempdir layer_info =
     (export_events repr tempdir layer_info slug gdf, Error e))
  /\ (csv_records gdf = Ok [] ->
      generate_dataset repr config tempdir layer_info =
      (export_events repr tempdir layer_info slug gdf, Error IndexError)).
Proof.
  intros Hreach.
  rewrite (generate_dataset_export repr Dataset config tempdir layer_info slug
             gdf dataset Hreach).
  split.
  - intros e He.
    rewrite (attach_resources_csv_error repr Dataset tempdir layer_info slug gdf
               dataset e He).
    cbn [trace_of result_of fst snd]. now rewrite app_nil_r.
  - intros Hempty.
    rewrite (attach_resources_no_rows repr Dataset tempdir layer_info slug gdf
               dataset Hempty).
    cbn [trace_of result_of fst snd]. now rewrite app_nil_r.
Qed.

(** X9: a frame without an [ObjectID_1] column makes [generate_dataset]
    raise [KeyError] at the drop statement, although the frame that
    statement builds is never used. *)
Theorem missing_objectid_column_raises
    {Dataset : Type} {api : Collaborators Dataset}
    (repr : json -> string) (config : configuration) (tempdir : string)
    (layer_info : descriptor) (slug : string) (gdf : frame) (dataset : Dataset)
    (xs ys : list cell) :
  reaches_export repr config tempdir layer_info slug gdf dataset ->
  geometry_x gdf = Ok xs ->
  geometry_y (set_column gdf "lon" xs) = Ok ys ->
  has_column gdf "ObjectID_1" = false ->
  exists key,
    generate_dataset repr config tempdir layer_info =
    (export_events repr tempdir layer_info slug gdf, Error (KeyError key)).
Proof.
  intros Hreach Hx Hy Hno. exists (JStr "ObjectID_1").
  rewrite (generate_dataset_export repr Dataset config tempdir layer_info slug
             gdf dataset Hreach).
  rewrite (attach_resources_csv_error repr Dataset tempdir layer_info slug gdf
             dataset _ (csv_records_missing_objectid gdf xs ys Hx Hy Hno)).
  cbn [trace_of result_of fst snd]. now rewrite app_nil_r.
Qed.

Lemma offline_reaches_export (gdf : frame) :
  reaches_export (api := offline_api (Ok gdf) ["PHL"]) plain_repr pdrf_config
    "/tmp/TestPdrf" carina_layer "tc-carina-ps-response" gdf carina_dataset.
Proof.
  split; [reflexivity |]. split; [reflexivity |].
  do 2 eexists. repeat split; reflexivity.
Qed.

Lemma csv_failure_after_geojson_written_witness :
  generate_dataset (api := offline_api (Ok empty_frame) ["PHL"]) plain_repr
    pdrf_config "/tmp/TestPdrf" carina_layer =
  (export_events plain_repr "/tmp/TestPdrf" carina_layer
     "tc-carina-ps-response" empty_frame,
   Error IndexError).
Proof.
  destruct (csv_failure_after_geojson_written
              (api := offline_api (Ok empty_frame) ["PHL"]) plain_repr pdrf_config
              "/tmp/TestPdrf" carina_layer "tc-carina-ps-response" empty_frame
              carina_dataset (offline_reaches_export empty_frame)) as [_ Hempty].
  apply Hempty. reflexivity.
Defined.

Lemma missing_objectid_column_raises_witness :
  exists key,
    generate_dataset (api := offline_api (Ok other_id_frame) ["PHL"]) plain_repr
      pdrf_config "/tmp/TestPdrf" carina_layer =
    (export_events plain_repr "/tmp/TestPdrf" carina_layer
       "tc-carina-ps-response" other_id_frame,
     Error (KeyError key)).
Proof.
  apply (missing_objectid_column_raises
           (api := offline_api (Ok other_id_frame) ["PHL"]) plain_repr pdrf_config
           "/tmp/TestPdrf" carina_layer "tc-carina-ps-response" other_id_frame
           carina_dataset [CFloat 121.5%float] [CFloat 14.5%float]
           (offline_reaches_export other_id_frame));
    reflexivity.
Defined.

(** ** What a returned dataset implies *)

Section SuccessFacts.

Variable repr : json -> string.
Variable Dataset : Type.
Context {api : Collaborators Dataset}.
Variable config : configuration.
Variable tempdir : string.

Lemma generate_dataset_returns_inv (layer_info : descriptor) (ds : Dataset) :
  result_of (generate_dataset repr config tempdir layer_info) = Ok (Some ds) ->
  exists slug gdf dataset,
    reaches_export repr config tempdir layer_info slug gdf dataset
    /\ result_of (attach_resources repr tempdir layer_info slug gdf dataset) =
       Ok (Some ds).
Proof.
  intros H. unfold generate_dataset in H. cbv zeta in H.
  walk_result H.
  destruct (add_country_location a2 "PHL") as [dataset | e] eqn:Hcountry.
  - walk_result H. destruct a3, a4.
    exists a, a0, dataset. split.
    + split; [exact E |]. split; [exact E0 |]. exists a1, a2. auto 10.
    + unfold attach_resources, csv_resource_data, geojson_resource,
        geoservice_resource.
      rewrite E5, bind_lift_ok, E6, bind_lift_ok, result_bind_emit, E7,
        bind_lift_ok, result_bind_emit, E8, bind_lift_ok, result_bind_emit,
        E9, bind_lift_ok.
      exact H.
  - destruct e; discriminate H.
Qed.

Lemma attach_resources_returns_inv (layer_info : descriptor) (slug : string)
    (gdf : frame) (dataset ds : Dataset) :
  result_of (attach_resources repr tempdir layer_info slug gdf dataset) =
    Ok (Some ds) ->
  exists first rest,
    csv_records gdf = Ok (first :: rest)
    /\ trace_of (attach_resources repr tempdir layer_info slug gdf dataset) =
       [ EvGenerateResource (map fst first) (first :: rest) tempdir
           (slug ++ ".csv") (csv_resource_data repr layer_info slug);
         EvAddUpdateResource (geojson_resource repr tempdir layer_info slug);
         EvAddUpdateResource (geoservice_resource repr layer_info) ].
Proof.
  intros H. unfold attach_resources in H. walk_result H.
  destruct a as [| first rest]; [discriminate E0 |].
  injection E0 as <-.
  exists first, rest. split; [exact E |].
  unfold attach_resources.
  rewrite E, bind_lift_ok, bind_lift_ok, bind_emit, E1, bind_lift_ok,
    bind_emit, E2, bind_lift_ok, bind_emit, E3, bind_lift_ok.
  reflexivity.
Qed.

End SuccessFacts.

(** X10: whenever [generate_dataset] returns a dataset, it has done
    exactly this, in this order: read the layer, created the directory,
    written the GeoJSON file from the frame as read, generated the CSV
    resource from a non-empty list of records with the first record's keys
    as headers, attached the GeoJSON resource pointing at the file just
    written, and attached the GeoService resource. *)
Theorem returned_dataset_effects
    {Dataset : Type} {api : Collaborators Dataset}
    (repr : json -> string) (config : configuration) (tempdir : string)
    (layer_info : descriptor) (ds : Dataset) :
  result_of (generate_dataset repr config tempdir layer_info) = Ok (Some ds) ->
  exists slug gdf first rest,
    slugify (layer_name layer_info) = Ok slug
    /\ read_file (read_file_source repr layer_info) = Ok gdf
    /\ csv_records gdf = Ok (first :: rest)
    /\ trace_of (generate_dataset repr config tempdir layer_info) =
       [ EvReadFile (read_file_source repr layer_info);
         EvMakedirs tempdir;
         EvToFile (path_join tempdir (slug ++ ".geojson")) "GeoJSON" gdf;
         EvGenerateResource (map fst first) (first :: rest) tempdir
           (slug ++ ".csv") (csv_resource_data repr layer_info slug);
         EvAddUpdateResource (geojson_resource repr tempdir layer_info slug);
         EvAddUpdateResource (geoservice_resource repr layer_info) ]
    /\ res_file (geojson_resource repr tempdir layer_info slug) =
       Some (path_join tempdir (slug ++ ".geojson")).
Proof.
  intros Hret.
  destruct (generate_dataset_returns_inv repr Dataset config tempdir layer_info
              ds Hret) as (slug & gdf & dataset & Hreach & Hattach).
  destruct (attach_resources_returns_inv repr Dataset tempdir layer_info slug gdf
              dataset ds Hattach) as (first & rest & Hcsv & Htrace).
  exists slug, gdf, first, rest.
  destruct Hreach as (Hslug & Hread & Hrest).
  repeat split; try assumption.
  rewrite (generate_dataset_export repr Dataset config tempdir layer_info slug
             gdf dataset (conj Hslug (conj Hread Hrest))).
  unfold trace_of at 1. cbn [fst]. rewrite Htrace. reflexivity.
Qed.

Lemma returned_dataset_effects_witness :
  exists slug gdf first rest,
    slugify (Collaborators := offline_api (Ok carina_frame) ["PHL"])
      (layer_name carina_layer) = Ok slug
    /\ read_file (Collaborators := offline_api (Ok carina_frame) ["PHL"])
         (read_file_source plain_repr carina_layer) = Ok gdf
    /\ csv_records gdf = Ok (first :: rest)
    /\ trace_of (generate_dataset (api := offline_api (Ok carina_frame) ["PHL"])
                   plain_repr pdrf_config "/tmp/TestPdrf" carina_layer) =
       [ EvReadFile (read_file_source plain_repr carina_layer);
         EvMakedirs "/tmp/TestPdrf";
         EvToFile (path_join "/tmp/TestPdrf" (slug ++ ".geojson")) "GeoJSON" gdf;
         EvGenerateResource (map fst first) (first :: rest) "/tmp/TestPdrf"
           (slug ++ ".csv") (csv_resource_data plain_repr carina_layer slug);
         EvAddUpdateResource
           (geojson_resource plain_repr "/tmp/TestPdrf" carina_layer slug);
         EvAddUpdateResource (geoservice_resource plain_repr carina_layer) ]
    /\ res_file (geojson_resource plain_repr "/tmp/TestPdrf" carina_layer slug) =
       Some (path_join "/tmp/TestPdrf" (slug ++ ".geojson")).
Proof.
  eapply (returned_dataset_effects (api := offline_api (Ok carina_frame) ["PHL"])
            plain_repr pdrf_config "/tmp/TestPdrf" carina_layer).
  vm_compute. reflexivity.
Defined.

(** ** Effects before the country is added *)

(** X11: [generate_dataset] creates a directory, writes a file or touches
    a resource only after the slug was made, the layer read, and the time
    period, the tags and the country location accepted by the dataset; any
    earlier failure leaves no output. *)
Theorem outputs_only_after_country_added
    {Dataset : Type} {api : Collaborators Dataset}
    (repr : json -> string) (config : configuration) (tempdir : string)
    (layer_info : descriptor) (ev : event) :
  In ev (trace_of (generate_dataset repr config tempdir layer_info)) ->
  creates_output ev = true ->
  exists slug gdf ds1 ds2 dataset,
    slugify (layer_name layer_info) = Ok slug
    /\ read_file (read_file_source repr layer_info) = Ok gdf
    /\ set_time_period
         (new_dataset slug
            ("Philippines: " ++ py_str repr (layer_name layer_info)))
         (min_date layer_info) (max_date layer_info) = Ok ds1
    /\ add_tags ds1 (tags config) = Ok ds2
    /\ add_country_location ds2 "PHL" = Ok dataset.
Proof.
  intros H Hout. unfold generate_dataset in H. cbv zeta in H.
  apply in_trace_bind_lift in H as (slug & Hslug & H).
  apply in_trace_bind_emit in H as [-> | H]; [discriminate Hout |].
  apply in_trace_bind_lift in H as (gdf & Hread & H).
  apply in_trace_bind_lift in H as (ds1 & Hperiod & H).
  apply in_trace_bind_lift in H as (ds2 & Htags & H).
  destruct (add_country_location ds2 "PHL") as [dataset | e] eqn:Hcountry.
  - exists slug, gdf, ds1, ds2, dataset. auto 10.
  - exfalso. destruct e; try (simpl in H; contradiction).
    apply in_trace_bind_emit in H as [-> | H]; [discriminate Hout |].
    simpl in H. contradiction.
Qed.

Lemma outputs_only_after_country_added_witness :
  exists slug gdf ds1 ds2 dataset,
    slugify (Collaborators := offline_api (Ok carina_frame) ["PHL"])
      (layer_name carina_layer) = Ok slug
    /\ read_file (Collaborators := offline_api (Ok carina_frame) ["PHL"])
         (read_file_source plain_repr carina_layer) = Ok gdf
    /\ set_time_period (Collaborators := offline_api (Ok carina_frame) ["PHL"])
         (new_dataset (Collaborators := offline_api (Ok carina_frame) ["PHL"])
            slug
            ("Philippines: " ++ py_str plain_repr (layer_name carina_layer)))
         (min_date carina_layer) (max_date carina_layer) = Ok ds1
    /\ add_tags (Collaborators := offline_api (Ok carina_frame) ["PHL"])
         ds1 (tags pdrf_config) = Ok ds2
    /\ add_country_location
         (Collaborators := offline_api (Ok carina_frame) ["PHL"])
         ds2 "PHL" = Ok dataset.
Proof.
  apply (outputs_only_after_country_added
           (api := offline_api (Ok carina_frame) ["PHL"])
           plain_repr pdrf_config "/tmp/TestPdrf" carina_layer
           (EvMakedirs "/tmp/TestPdrf")).
  - vm_compute. right. left. reflexivity.
  - reflexivity.
Defined.

(** X12: only [HDXError] is handled at the country step: any other error
    raised by [add_country_location] leaves [generate_dataset] as it is,
    with nothing logged and nothing created. *)
Theorem other_country_error_propagates
    {Dataset : Type} {api : Collaborators Dataset}
    (repr : json -> string) (config : configuration) (tempdir : string)
    (layer_info : descriptor) (slug : string) (gdf : frame)
    (ds1 ds2 : Dataset) (e : exn) :
  slugify (layer_name layer_info) = Ok slug ->
  read_file (read_file_source repr layer_info) = Ok gdf ->
  set_time_period
    (new_dataset slug ("Philippines: " ++ py_str repr (layer_name layer_info)))
    (min_date layer_info) (max_date layer_info) = Ok ds1 ->
  add_tags ds1 (tags config) = Ok ds2 ->
  add_country_location ds2 "PHL" = Error e ->
  (forall msg, e <> HDXError msg) ->
  generate_dataset repr config tempdir layer_info =
  ([EvReadFile (read_file_source repr layer_info)], Error e).
Proof.
  intros Hslug Hread Hperiod Htags Hcountry Hother.
  unfold generate_dataset. cbv zeta.
  rewrite Hslug, bind_lift_ok.
  change ("ESRIJSON:" ++ _) with (read_file_source repr layer_info).
  rewrite bind_emit, Hread, bind_lift_ok, Hperiod, bind_lift_ok, Htags,
    bind_lift_ok, Hcountry.
  destruct e; try reflexivity.
  exfalso. eapply Hother. reflexivity.
Qed.

Lemma other_country_error_propagates_witness :
  generate_dataset (api := unreachable_api) plain_repr pdrf_config
    "/tmp/TestPdrf" carina_layer =
  ([EvReadFile (read_file_source plain_repr carina_layer)],
   Error (RequestException "connection refused")).
Proof.
  apply (other_country_error_propagates (api := unreachable_api) plain_repr
           pdrf_config "/tmp/TestPdrf" carina_layer "tc-carina-ps-response"
           carina_frame
           (mk_hdx_dataset "tc-carina-ps-response"
              "Philippines: TC_CARINA_PS_Response"
              (Some (min_date carina_layer, max_date carina_layer)) [] [] [])
           (mk_hdx_dataset "tc-carina-ps-response"
              "Philippines: TC_CARINA_PS_Response"
              (Some (min_date carina_layer, max_date carina_layer))
              (tags pdrf_config) [] [])
           (RequestException "connection refused"));
    try reflexivity.
  intros msg. discriminate.
Defined.

(** ** Coordinates in the CSV records *)

Lemma index_of_nth (label : string) (labels : list string) (j : nat) :
  index_of label labels = Some j ->
  nth_error labels j = Some label /\ j < length labels.
Proof.
  revert j. induction labels as [| l rest IH]; simpl; intros j H; [discriminate |].
  destruct (String.eqb_spec label l) as [-> | Hne].
  - inversion H. simpl. split; [reflexivity | lia].
  - destruct (index_of label rest) as [k |]; [| discriminate].
    inversion H. destruct (IH k eq_refl) as [Hn Hk]. simpl. split; [exact Hn | lia].
Qed.

Lemma index_of_app_other (label other : string) (labels : list string) :
  label <> other ->
  index_of label (labels ++ [other]) = index_of label labels.
Proof.
  intros Hne. induction labels as [| l rest IH]; simpl.
  - destruct (String.eqb_spec label other); [contradiction | reflexivity].
  - destruct (String.eqb label l); [reflexivity |]. now rewrite IH.
Qed.

Lemma index_of_app_new (label : string) (labels : list string) :
  index_of label labels = None ->
  index_of label (labels ++ [label]) = Some (length labels).
Proof.
  induction labels as [| l rest IH]; simpl; intros H.
  - now rewrite String.eqb_refl.
  - destruct (String.eqb label l); [discriminate |].
    destruct (index_of label rest); [discriminate |]. now rewrite IH.
Qed.

Lemma nth_error_replace_nth_same {A} (j : nat) (v : A) (l : list A) :
  j < length l -> nth_error (replace_nth j v l) j = Some v.
Proof.
  revert j. induction l as [| a l IH]; intros [| j]; simpl; intros H; try lia.
  - reflexivity.
  - apply IH. lia.
Qed.

Lemma nth_error_replace_nth_other {A} (j k : nat) (v : A) (l : list A) :
  j <> k -> nth_error (replace_nth k v l) j = nth_error l j.
Proof.
  revert j k. induction l as [| a l IH]; intros [| j] [| k] H; simpl; try reflexivity.
  - contradiction.
  - apply IH. lia.
Qed.

Lemma nth_error_zip_with {A B C} (f : A -> B -> C) (la : list A) (lb : list B)
    (i : nat) (a : A) (b : B) :
  nth_error la i = Some a -> nth_error lb i = Some b ->
  nth_error (zip_with f la lb) i = Some (f a b).
Proof.
  revert lb i. induction la as [| x la IH]; intros [| y lb] [| i]; simpl;
    try discriminate.
  - intros Ha Hb. inversion Ha. inversion Hb. reflexivity.
  - apply IH.
Qed.

Lemma coords_nth (pick : float -> float -> float) (geoms cs : list cell)
    (i : nat) (x y : float) :
  coords pick geoms = Ok cs ->
  nth_error geoms i = Some (CPoint x y) ->
  nth_error cs i = Some (CFloat (pick x y)).
Proof.
  revert cs i. induction geoms as [| g rest IH]; intros cs i H Hi.
  - destruct i; discriminate Hi.
  - simpl in H.
    destruct g; try discriminate H;
      (destruct (coords pick rest) as [cs' |] eqn:Hrest; [| discriminate H]);
      inversion H; subst cs; clear H;
      (destruct i as [| i]; simpl in *; [| now apply IH]).
    + discriminate Hi.
    + inversion Hi. reflexivity.
Qed.

Lemma in_combine_nth {A B} (la : list A) (lb : list B) (j : nat) (a : A) (b : B) :
  nth_error la j = Some a -> nth_error lb j = Some b -> In (a, b) (combine la lb).
Proof.
  revert lb j. induction la as [| x la IH]; intros [| y lb] [| j]; simpl;
    try discriminate.
  - intros Ha Hb. inversion Ha. inversion Hb. auto.
  - intros Ha Hb. right. eapply IH; eauto.
Qed.

Lemma lookup_cell_row (gdf : frame) (i : nat) (label : string) (c : cell) :
  lookup_cell gdf i label = Some c ->
  exists j row,
    index_of label (columns gdf) = Some j
    /\ nth_error (rows gdf) i = Some row
    /\ nth_error row j = Some c.
Proof.
  unfold lookup_cell.
  destruct (index_of label (columns gdf)) as [j |]; [| discriminate].
  destruct (nth_error (rows gdf) i) as [row |]; [| discriminate].
  eauto.
Qed.

(** Assigning a column shows the assigned value under its label and leaves
    every other column as it was. *)
Lemma set_column_lookup (gdf : frame) (label : string) (values : list cell)
    (i : nat) (row : list cell) (v : cell) :
  wf_frame gdf = true ->
  nth_error (rows gdf) i = Some row ->
  nth_error values i = Some v ->
  lookup_cell (set_column gdf label values) i label = Some v
  /\ forall other,
       other <> label ->
       lookup_cell (set_column gdf label values) i other =
       lookup_cell gdf i other.
Proof.
  intros Hwf Hrow Hv.
  assert (Hlen : length row = length (columns gdf)).
  { apply wf_frame_spec with (r := row) in Hwf; [exact Hwf |].
    eapply nth_error_In; eauto. }
  unfold lookup_cell, set_column.
  destruct (index_of label (columns gdf)) as [k |] eqn:Hk; cbn [columns rows].
  - rewrite Hk, (nth_error_zip_with _ _ _ i row v Hrow Hv), Hrow.
    destruct (index_of_nth _ _ _ Hk) as [Hnk Hlt].
    split; [apply nth_error_replace_nth_same; lia |].
    intros other Hne.
    destruct (index_of other (columns gdf)) as [j |] eqn:Hj; [| reflexivity].
    apply nth_error_replace_nth_other. intros ->.
    destruct (index_of_nth _ _ _ Hj) as [Hnj _]. congruence.
  - rewrite (index_of_app_new _ _ Hk),
      (nth_error_zip_with _ _ _ i row v Hrow Hv), Hrow.
    split.
    + rewrite <- Hlen, nth_error_app2 by lia.
      now rewrite Nat.sub_diag.
    + intros other Hne. rewrite (index_of_app_other _ _ _ Hne).
      destruct (index_of other (columns gdf)) as [j |] eqn:Hj; [| reflexivity].
      destruct (index_of_nth _ _ _ Hj) as [_ Hlt].
      apply nth_error_app1. lia.
Qed.

Lemma geometry_nth (gdf : frame) (geoms : list cell) (i : nat) (c : cell) :
  geometry gdf = Ok geoms ->
  lookup_cell gdf i "geometry" = Some c ->
  nth_error geoms i = Some c.
Proof.
  unfold geometry. intros Hg Hc.
  apply lookup_cell_row in Hc as (j & row & Hj & Hrow & Hcell).
  rewrite Hj in Hg. inversion Hg.
  rewrite nth_error_map, Hrow. simpl. f_equal.
  now apply nth_error_nth.
Qed.

Lemma to_dict_records_lookup (gdf : frame) (i : nat) (r : record)
    (label : string) (c : cell) :
  nth_error (to_dict_records gdf) i = Some r ->
  lookup_cell gdf i label = Some c ->
  In (label, c) r.
Proof.
  unfold to_dict_records. intros Hr Hc.
  apply lookup_cell_row in Hc as (j & row & Hj & Hrow & Hcell).
  rewrite nth_error_map, Hrow in Hr. inversion Hr.
  destruct (index_of_nth _ _ _ Hj) as [Hnj _].
  eapply in_combine_nth; eauto.
Qed.

(** X13: for a well-formed frame, there is one CSV record per row, and the
    record of a row whose geometry is the point (x, y) has [lon] = x and
    [lat] = y next to the geometry itself. *)
Theorem csv_records_carry_coordinates (gdf : frame) (recs : list record) :
  wf_frame gdf = true ->
  csv_records gdf = Ok recs ->
  length recs = length (rows gdf)
  /\ forall i x y,
       lookup_cell gdf i "geometry" = Some (CPoint x y) ->
       exists r,
         nth_error recs i = Some r
         /\ In ("lon", CFloat x) r
         /\ In ("lat", CFloat y) r
         /\ In ("geometry", CPoint x y) r.
Proof.
  intros Hwf Hcsv.
  destruct (csv_records_inv gdf recs Hcsv) as (xs & ys & dropped & Hx & Hy & _ & ->).
  pose proof (geometry_x_length _ _ Hx) as Hlx.
  destruct (set_column_wf gdf "lon" xs Hwf Hlx) as [Hwf1 Hlen1].
  pose proof (geometry_y_length _ _ Hy) as Hly.
  destruct (set_column_wf _ "lat" ys Hwf1 Hly) as [Hwf2 Hlen2].
  split.
  - unfold to_dict_records, csv_frame. rewrite length_map. lia.
  - intros i x y Hgeom.
    destruct (lookup_cell_row _ _ _ _ Hgeom) as (j & row & _ & Hrow & _).
    assert (Hxi : nth_error xs i = Some (CFloat x)).
    { unfold geometry_x in Hx.
      destruct (geometry gdf) as [geoms |] eqn:Hg; [| discriminate Hx].
      exact (coords_nth _ geoms xs i x y Hx (geometry_nth gdf geoms i _ Hg Hgeom)). }
    destruct (set_column_lookup gdf "lon" xs i row (CFloat x) Hwf Hrow Hxi)
      as [Hlon1 Hother1].
    assert (Hgeom1 : lookup_cell (set_column gdf "lon" xs) i "geometry" =
                     Some (CPoint x y)).
    { rewrite Hother1; [exact Hgeom | discriminate]. }
    destruct (lookup_cell_row _ _ _ _ Hlon1) as (j1 & row1 & _ & Hrow1 & _).
    assert (Hyi : nth_error ys i = Some (CFloat y)).
    { unfold geometry_y in Hy.
      destruct (geometry (set_column gdf "lon" xs)) as [geoms |] eqn:Hg;
        [| discriminate Hy].
      exact (coords_nth _ geoms ys i x y Hy (geometry_nth _ geoms i _ Hg Hgeom1)). }
    destruct (set_column_lookup _ "lat" ys i row1 (CFloat y) Hwf1 Hrow1 Hyi)
      as [Hlat2 Hother2].
    fold (csv_frame gdf xs ys) in Hlat2, Hother2.
    destruct (lookup_cell_row _ _ _ _ Hlat2) as (j2 & row2 & _ & Hrow2 & _).
    exists (combine (columns (csv_frame gdf xs ys)) row2).
    assert (Hr : nth_error (to_dict_records (csv_frame gdf xs ys)) i =
                 Some (combine (columns (csv_frame gdf xs ys)) row2)).
    { unfold to_dict_records. now rewrite nth_error_map, Hrow2. }
    split; [exact Hr |]. repeat split.
    + apply (to_dict_records_lookup _ i _ _ _ Hr).
      rewrite Hother2; [exact Hlon1 | discriminate].
    + exact (to_dict_records_lookup _ i _ _ _ Hr Hlat2).
    + apply (to_dict_records_lookup _ i _ _ _ Hr).
      rewrite Hother2; [exact Hgeom1 | discriminate].
Qed.

Lemma csv_records_carry_coordinates_witness :
  length carina_records = length (rows carina_frame)
  /\ exists r,
       nth_error carina_records 1 = Some r
       /\ In ("lon", CFloat 120.75%float) r
       /\ In ("lat", CFloat 15.25%float) r
       /\ In ("geometry", CPoint 120.75%float 15.25%float) r.
Proof.
  destruct (csv_records_carry_coordinates carina_frame carina_records)
    as [Hlen Hrow].
  - reflexivity.
  - reflexivity.
  - split; [exact Hlen |]. apply Hrow. reflexivity.
Defined.

Lemma set_column_columns_eq (gdf : frame) (label : string) (values : list cell) :
  columns (set_column gdf label values) =
  (columns gdf ++ if has_column gdf label then [] else [label])%list.
Proof.
  unfold set_column, has_column.
  destruct (index_of label (columns gdf)); simpl; [now rewrite app_nil_r | reflexivity].
Qed.

Lemma set_column_has_other (gdf : frame) (label other : string)
    (values : list cell) :
  other <> label ->
  has_column (set_column gdf label values) other = has_column gdf other.
Proof.
  intros Hne. unfold has_column, set_column.
  destruct (index_of label (columns gdf)); simpl; [reflexivity |].
  now rewrite index_of_app_other.
Qed.

(** X14: the headers of the CSV resource are the columns of the frame as
    read, followed by [lon] and [lat] when the frame has no such columns;
    a [lon] or [lat] column the frame already has keeps its place and is
    overwritten. *)
Theorem csv_headers
    {Dataset : Type} {api : Collaborators Dataset}
    (repr : json -> string) (config : configuration) (tempdir : string)
    (layer_info : descriptor) (headers : list string) (recs : list record)
    (dir filename : string) (resourcedata : list (string * json)) :
  In (EvGenerateResource headers recs dir filename resourcedata)
     (trace_of (generate_dataset repr config tempdir layer_info)) ->
  exists gdf,
    read_file (read_file_source repr layer_info) = Ok gdf
    /\ (wf_frame gdf = true ->
        headers =
        (columns gdf
           ++ (if has_column gdf "lon" then [] else ["lon"])
           ++ (if has_column gdf "lat" then [] else ["lat"]))%list).
Proof.
  intros Hev.
  destruct (generate_resource_event repr Dataset config tempdir layer_info
              headers recs dir filename resourcedata Hev)
    as (gdf & first & rest & Hread & Hcsv & Hrecs & Hheaders).
  exists gdf. split; [exact Hread |]. intros Hwf.
  destruct (csv_records_inv gdf recs Hcsv) as (xs & ys & dropped & Hx & Hy & _ & Hto).
  pose proof (csv_frame_wf gdf xs ys Hwf Hx Hy) as Hwf2.
  destruct (to_dict_records_wf _ Hwf2) as [_ Hkeys].
  rewrite Hheaders, (Hkeys first) by (rewrite <- Hto, Hrecs; left; reflexivity).
  unfold csv_frame.
  rewrite !set_column_columns_eq, set_column_has_other by discriminate.
  now rewrite app_assoc.
Qed.

Lemma csv_headers_witness :
  exists gdf,
    read_file (Collaborators := offline_api (Ok located_frame) ["PHL"])
      (read_file_source plain_repr carina_layer) = Ok gdf
    /\ (wf_frame gdf = true ->
        ["lat"; "ObjectID_1"; "lon"; "geometry"] =
        (columns gdf
           ++ (if has_column gdf "lon" then [] else ["lon"])
           ++ (if has_column gdf "lat" then [] else ["lat"]))%list).
Proof.
  apply (csv_headers (api := offline_api (Ok located_frame) ["PHL"])
           plain_repr pdrf_config "/tmp/TestPdrf" carina_layer
           ["lat"; "ObjectID_1"; "lon"; "geometry"]
           [ [("lat", CFloat 14.5%float); ("ObjectID_1", CInt 1);
              ("lon", CFloat 121.5%float);
              ("geometry", CPoint 121.5%float 14.5%float)] ]
           "/tmp/TestPdrf" "tc-carina-ps-response.csv"
           (csv_resource_data plain_repr carina_layer "tc-carina-ps-response")).
  vm_compute. do 3 right. left. reflexivity.
Defined.

(** ** Which error the resolver reports *)

Lemma usable_row_raw_bounds (http : string -> outcome json)
    (layer_url : string) (stats_response : json) :
  http (stats_url layer_url) = Ok stats_response ->
  has_usable_row stats_response = true ->
  exists items,
    attributes_of http layer_url = Ok (JObj items)
    /\ raw_bounds http layer_url =
       Ok (raw_value items "min_date", raw_value items "max_date").
Proof.
  intros Hresp Hrow.
  assert (Hattrs : exists items, attributes_of http layer_url = Ok (JObj items)).
  { unfold attributes_of. rewrite Hresp.
    destruct stats_response as [| | | | | | items]; try discriminate Hrow.
    simpl in *.
    destruct (dict_lookup "features" items) as [features |]; [| discriminate Hrow].
    destruct features as [| | | | | rows |]; try discriminate Hrow.
    destruct rows as [| row rows]; [discriminate Hrow |].
    destruct row as [| | | | | | ritems]; try discriminate Hrow.
    simpl.
    destruct (dict_lookup "attributes" ritems) as [attrs |]; [| discriminate Hrow].
    destruct attrs; try discriminate Hrow. eauto. }
  destruct Hattrs as [items Hattrs]. exists items. split; [exact Hattrs |].
  now apply raw_bounds_of_attributes.
Qed.

(** X15: when the statistics response has a usable row, nothing but the
    two parses can make [get_date_range] raise: it reads the two bounds
    from the first row (null when absent), parses the lower bound first,
    raises the first parse error, and otherwise returns the two parsed
    values. *)
Theorem usable_row_resolves
    (parser : json -> string -> outcome (option datetime))
    (http : string -> outcome json) (layer_url : string)
    (stats_response : json) :
  http (stats_url layer_url) = Ok stats_response ->
  has_usable_row stats_response = true ->
  exists items,
    attributes_of http layer_url = Ok (JObj items)
    /\ get_date_range parser http layer_url =
       ([EvGet (stats_url layer_url)],
        match parser (raw_value items "min_date") date_fmt with
        | Error e => Error e
        | Ok min_d =>
            match parser (raw_value items "max_date") date_fmt with
            | Error e => Error e
            | Ok max_d => Ok (mk_extent min_d max_d)
            end
        end).
Proof.
  intros Hresp Hrow.
  destruct (usable_row_raw_bounds http layer_url stats_response Hresp Hrow)
    as (items & Hattrs & Hraw).
  exists items. split; [exact Hattrs |].
  now rewrite get_date_range_unfold, Hraw.
Qed.

Lemma usable_row_resolves_witness :
  exists items,
    attributes_of both_bad_server "http://gis/S/MapServer/0" = Ok (JObj items)
    /\ get_date_range parse_date both_bad_server "http://gis/S/MapServer/0" =
       ([EvGet (stats_url "http://gis/S/MapServer/0")],
        match parse_date (raw_value items "min_date") date_fmt with
        | Error e => Error e
        | Ok min_d =>
            match parse_date (raw_value items "max_date") date_fmt with
            | Error e => Error e
            | Ok max_d => Ok (mk_extent min_d max_d)
            end
        end).
Proof.
  apply (usable_row_resolves parse_date both_bad_server "http://gis/S/MapServer/0"
           (stats_body (JStr "2024-07-24") (JInt 1722830400000)));
    reflexivity.
Defined.

(** Both bounds are malformed; the error raised is the lower bound's. *)
Example lower_bound_error_first :
  result_of (get_date_range parse_date both_bad_server "http://gis/S/MapServer/0") =
  Error (ValueError "2024-07-24").
Proof. reflexivity. Qed.

(** ** From the walk to the packaging *)

Lemma in_service_requests (repr : json -> string)
    (parser : json -> string -> outcome (option datetime))
    (http : string -> outcome json) (config : configuration)
    (services : list json) (d : descriptor) :
  forall dss,
    map_outcome (service_descriptors repr parser http config) services = Ok dss ->
    In d (concat dss) ->
    In (stats_url (layer_url_of repr (service_url d) (layer_id d)))
       (concat (zip_with (service_requests repr config) services dss)).
Proof.
  induction services as [| service rest IH]; intros dss Hmap Hin; simpl in Hmap.
  - inversion Hmap; subst dss. contradiction.
  - destruct (service_descriptors repr parser http config service) as [ds |] eqn:Hds;
      [| discriminate].
    destruct (map_outcome _ rest) as [dss' |] eqn:Hrest; [| discriminate].
    inversion Hmap; subst dss. cbn [zip_with concat] in *.
    apply in_or_app. apply in_app_or in Hin as [Hin | Hin].
    + left. unfold service_requests. unfold service_descriptors in Hds.
      destruct (service_url_of repr config service); [| discriminate].
      right. apply in_map_iff. exists d. auto.
    + right. now apply IH.
Qed.

Lemma read_file_event {Dataset : Type} {api : Collaborators Dataset}
    (repr : json -> string) (config : configuration) (tempdir : string)
    (layer_info : descriptor) (src : string) :
  In (EvReadFile src) (trace_of (generate_dataset repr config tempdir layer_info)) ->
  src = read_file_source repr layer_info.
Proof.
  intros H. unfold generate_dataset in H. cbv zeta in H.
  apply in_trace_bind_lift in H as (slug & _ & H).
  apply in_trace_bind_emit in H as [H | H]; [now inversion H |].
  exfalso. walk_trace H.
  destruct (add_country_location _ "PHL") as [ds | e].
  - walk_trace H. simpl in H. contradiction.
  - destruct e; walk_trace H; simpl in H; contradiction.
Qed.

(** X16: a descriptor returned by the walk, handed to [generate_dataset],
    is read from the layer endpoint whose statistics the walk requested:
    both functions build the layer URL as service URL, slash, layer id, and
    the packaging reads nothing else. *)
Theorem packaging_reads_the_walked_layer
    {Dataset : Type} {api : Collaborators Dataset}
    (repr : json -> string)
    (parser : json -> string -> outcome (option datetime))
    (http : string -> outcome json) (config : configuration)
    (tempdir : string) (rs : list descriptor) (d : descriptor) :
  result_of (get_layers repr parser http config) = Ok rs ->
  In d rs ->
  In (layer_url_of repr (service_url d) (layer_id d)
        ++ "/query?" ++ urlencode stats_query)
     (requests (trace_of (get_layers repr parser http config)))
  /\ forall src,
       In (EvReadFile src)
          (trace_of (generate_dataset repr config tempdir d)) ->
       src = "ESRIJSON:" ++ layer_url_of repr (service_url d) (layer_id d)
               ++ "/query?" ++ urlencode dataset_query.
Proof.
  intros Hrs Hin. split.
  - destruct (get_layers_ok_inv repr parser http config rs Hrs)
      as (services & dss & _ & Hmap & -> & Htrace).
    destruct (service_loop_trace repr parser http config services [] dss Hmap)
      as [Hreq _].
    rewrite Htrace. cbn [requests flat_map app].
    fold (requests (trace_of (service_loop repr parser http config services []))).
    rewrite Hreq. right.
    exact (in_service_requests repr parser http config services d dss Hmap Hin).
  - intros src Hsrc.
    rewrite (read_file_event repr config tempdir d src Hsrc).
    unfold read_file_source, layer_url_of.
    now rewrite !string_app_assoc.
Qed.

Lemma packaging_reads_the_walked_layer_witness :
  In (layer_url_of plain_repr (service_url carina_layer) (layer_id carina_layer)
        ++ "/query?" ++ urlencode stats_query)
     (requests (trace_of (get_layers plain_repr parse_date carina_server pdrf_config)))
  /\ forall src,
       In (EvReadFile src)
          (trace_of (generate_dataset
                       (api := offline_api (Ok carina_frame) ["PHL"])
                       plain_repr pdrf_config "/tmp/TestPdrf" carina_layer)) ->
       src = "ESRIJSON:"
               ++ layer_url_of plain_repr (service_url carina_layer)
                    (layer_id carina_layer)
               ++ "/query?" ++ urlencode dataset_query.
Proof.
  apply (packaging_reads_the_walked_layer
           (api := offline_api (Ok carina_frame) ["PHL"])
           plain_repr parse_date carina_server pdrf_config "/tmp/TestPdrf"
           [carina_layer] carina_layer).
  - vm_compute. reflexivity.
  - left. reflexivity.
Defined.
